(** * law-finder: case-title and judgment-date extraction

    A shallow embedding of [extract_case_titles.py] and
    [extract_trial_dates.py].  Python strings are modelled as [string]
    (8-bit characters, read as the code points below 256, with Python's
    character classes and case mappings on them; the capitals of U+00B5
    and U+00FF lie above 255, so these two letters are left as they are
    where Python capitalises them).
    Python's [re] is modelled by a backtracking matcher over a regular
    expression syntax tree obtained by parsing the pattern text of the
    source; [html.parser.HTMLParser] by a tokenizer producing the handler
    calls; [datetime] by the proleptic Gregorian calendar on years 1..9999. *)

From Stdlib Require Import String Ascii List Bool Arith ZArith Lia.
Import ListNotations.
Open Scope string_scope.
Open Scope bool_scope.
Open Scope nat_scope.
Set Warnings "-register-all".

(** ** Python [str] *)

Module Str.

Definition code (c : ascii) : nat := nat_of_ascii c.

Definition between (lo hi n : nat) : bool := (lo <=? n) && (n <=? hi).

(** [str.isspace] on one character, which is also the class [\s]:
    TAB..CR, FS..US, the blank, NEL (U+0085) and the no-break space
    (U+00A0). *)
Definition is_space (c : ascii) : bool :=
  between 9 13 (code c) || between 28 32 (code c)
  || (code c =? 133) || (code c =? 160).

Definition is_digit (c : ascii) : bool := between 48 57 (code c).
Definition is_upper (c : ascii) : bool := between 65 90 (code c).
Definition is_lower (c : ascii) : bool := between 97 122 (code c).

(** The letters of ASCII. *)
Definition is_alpha (c : ascii) : bool := is_upper c || is_lower c.

(** The capital and the small letters above 127 that are exchanged by a
    shift of 32: U+00C0..U+00DE but the multiplication sign, and
    U+00E0..U+00FE but the division sign. *)
Definition is_upper1 (c : ascii) : bool :=
  between 192 222 (code c) && negb (code c =? 215).
Definition is_lower1 (c : ascii) : bool :=
  between 224 254 (code c) && negb (code c =? 247).

(** The cased characters: the letters of ASCII, the ordinal indicators,
    the micro sign and the letters from U+00C0 on. *)
Definition is_cased (c : ascii) : bool :=
  is_alpha c || (code c =? 170) || (code c =? 181) || (code c =? 186)
  || is_upper1 c || is_lower1 c || (code c =? 223) || (code c =? 255).

(** The class [\w]: the underscore and what [str.isalnum] accepts, which
    above 127 are the cased characters, the superscript digits and the
    vulgar fractions. *)
Definition is_word (c : ascii) : bool :=
  is_cased c || is_digit c || (code c =? 95)
  || (code c =? 178) || (code c =? 179) || (code c =? 185)
  || between 188 190 (code c).

Definition lower_c (c : ascii) : ascii :=
  if is_upper c || is_upper1 c then ascii_of_nat (code c + 32) else c.

Definition upper_c (c : ascii) : ascii :=
  if is_lower c || is_lower1 c then ascii_of_nat (code c - 32) else c.

Fixpoint map_s (f : ascii -> ascii) (s : string) : string :=
  match s with
  | EmptyString => EmptyString
  | String c r => String (f c) (map_s f r)
  end.

(** [s.lower ()] *)
Definition lower : string -> string := map_s lower_c.

(** [s.upper ()]; the capital of the sharp s is a double S. *)
Fixpoint upper (s : string) : string :=
  match s with
  | EmptyString => EmptyString
  | String c r =>
      if code c =? 223 then String "S" (String "S" (upper r))
      else String (upper_c c) (upper r)
  end.

Fixpoint rev_acc (s acc : string) : string :=
  match s with
  | EmptyString => acc
  | String c r => rev_acc r (String c acc)
  end.

Definition rev (s : string) : string := rev_acc s EmptyString.

Fixpoint lstrip (s : string) : string :=
  match s with
  | EmptyString => EmptyString
  | String c r => if is_space c then lstrip r else s
  end.

Definition rstrip (s : string) : string := rev (lstrip (rev s)).

Definition strip (s : string) : string := rstrip (lstrip s).

(** [s.startswith (p)] *)
Fixpoint startswith (p s : string) : bool :=
  match p, s with
  | EmptyString, _ => true
  | String a p', String b s' => Ascii.eqb a b && startswith p' s'
  | String _ _, EmptyString => false
  end.

(** [sub in s] *)
Fixpoint contains (sub s : string) : bool :=
  startswith sub s ||
  match s with
  | EmptyString => false
  | String _ r => contains sub r
  end.

(** [s[n:]] and [s[:n]] *)
Fixpoint drop (n : nat) (s : string) : string :=
  match n, s with
  | O, _ => s
  | S n', String _ r => drop n' r
  | S _, EmptyString => EmptyString
  end.

Fixpoint take (n : nat) (s : string) : string :=
  match n, s with
  | O, _ => EmptyString
  | S n', String c r => String c (take n' r)
  | S _, EmptyString => EmptyString
  end.

Definition slice (i j : nat) (s : string) : string := take (j - i) (drop i s).

(** [s.replace (old, new)] for a non-empty [old]; [skip] counts the
    characters of a replaced occurrence still to be passed over. *)
Fixpoint replace_aux (old new : string) (skip : nat) (s : string) : string :=
  match s with
  | EmptyString => EmptyString
  | String c r =>
      match skip with
      | S k => replace_aux old new k r
      | O =>
          if startswith old s
          then new ++ replace_aux old new (String.length old - 1) r
          else String c (replace_aux old new 0 r)
      end
  end.

Definition replace (old new s : string) : string := replace_aux old new 0 s.

(** [s.split (sep)] for a non-empty [sep]; [cur] is the piece being read,
    reversed. *)
Fixpoint split_aux (sep : string) (skip : nat) (cur : string) (s : string)
  : list string :=
  match s with
  | EmptyString => [rev cur]
  | String c r =>
      match skip with
      | S k => split_aux sep k cur r
      | O =>
          if startswith sep s
          then rev cur :: split_aux sep (String.length sep - 1) EmptyString r
          else split_aux sep 0 (String c cur) r
      end
  end.

Definition split (sep s : string) : list string :=
  split_aux sep 0 EmptyString s.

Definition nl : string := String (ascii_of_nat 10) EmptyString.

(** [sep.join (l)] *)
Fixpoint join (sep : string) (l : list string) : string :=
  match l with
  | [] => EmptyString
  | [x] => x
  | x :: r => x ++ sep ++ join sep r
  end.

(** [s.title ()]: a cased character is capitalised after an uncased
    one and made small after a cased one; the capitalised sharp s is Ss. *)
Fixpoint title_aux (prev_cased : bool) (s : string) : string :=
  match s with
  | EmptyString => EmptyString
  | String c r =>
      if is_cased c
      then if prev_cased then String (lower_c c) (title_aux true r)
           else if code c =? 223
                then String "S" (String "s" (title_aux true r))
                else String (upper_c c) (title_aux true r)
      else String c (title_aux false r)
  end.

Definition title (s : string) : string := title_aux false s.

Fixpoint all_s (p : ascii -> bool) (s : string) : bool :=
  match s with
  | EmptyString => true
  | String c r => p c && all_s p r
  end.

(** [s.isdigit ()]: decimal digits and the superscripts 1, 2 and 3. *)
Definition isdigit (s : string) : bool :=
  negb (String.eqb s EmptyString)
  && all_s (fun c => is_digit c || (code c =? 178) || (code c =? 179)
                     || (code c =? 185)) s.

(** Truth value of a string. *)
Definition nonempty (s : string) : bool := negb (String.eqb s EmptyString).

(** [int (s)] on a decimal numeral; [None] models [ValueError]. *)
Fixpoint int_acc (acc : Z) (s : string) : option Z :=
  match s with
  | EmptyString => Some acc
  | String c r =>
      if is_digit c
      then int_acc (10 * acc + Z.of_nat (code c - 48))%Z r
      else None
  end.

Definition int (s : string) : option Z :=
  match s with
  | EmptyString => None
  | _ => int_acc 0%Z s
  end.

End Str.

(** ** Python [re]

    Patterns are kept as the text written in the source and parsed into a
    syntax tree; the matcher explores alternatives in Python's order
    (leftmost alternative first, greedy repetitions longest first, lazy ones
    shortest first) and stops at the first success. *)

Module Re.
Import Str.

Inductive citem : Type :=
| CChr (c : ascii)
| CRng (lo hi : ascii)
| CSpace
| CDigit
| CWord.

Inductive re : Type :=
| Eps
| Chr (c : ascii)
| Any
| Set_ (neg : bool) (items : list citem)
| Cat (a b : re)
| Alt (a b : re)
| Rep (greedy : bool) (lo : nat) (hi : option nat) (a : re)
| Grp (n : nat) (a : re)
| Bol
| Eol
| Wordb
| Fail
| Ahead (neg : bool) (a : re)
| Behind (neg : bool) (a : re).

(** *** Pattern syntax *)

Definition esc_item (c : ascii) : option citem :=
  match c with
  | "s"%char => Some CSpace
  | "d"%char => Some CDigit
  | "w"%char => Some CWord
  | "n"%char => Some (CChr (ascii_of_nat 10))
  | "t"%char => Some (CChr (ascii_of_nat 9))
  | "r"%char => Some (CChr (ascii_of_nat 13))
  | "f"%char => Some (CChr (ascii_of_nat 12))
  | "v"%char => Some (CChr (ascii_of_nat 11))
  | _ => if is_alpha c || is_digit c then None else Some (CChr c)
  end.

Definition hex_digit (c : ascii) : option nat :=
  if is_digit c then Some (code c - 48)
  else if between 97 102 (code c) then Some (code c - 87)
  else if between 65 70 (code c) then Some (code c - 55)
  else None.

(** The character written [\xhh]. *)
Definition hex_char (e h1 h2 : ascii) : option ascii :=
  if Ascii.eqb e "x"%char
  then match hex_digit h1, hex_digit h2 with
       | Some a, Some b => Some (ascii_of_nat (16 * a + b))
       | _, _ => None
       end
  else None.

Definition esc_atom (c : ascii) : option re :=
  match c with
  | "b"%char => Some Wordb
  | "S"%char => Some (Set_ true [CSpace])
  | "D"%char => Some (Set_ true [CDigit])
  | "W"%char => Some (Set_ true [CWord])
  | _ =>
      match esc_item c with
      | Some (CChr x) => Some (Chr x)
      | Some it => Some (Set_ false [it])
      | None => None
      end
  end.

(** The items of a class, after the opening bracket. *)
Fixpoint p_class (s : string) (acc : list citem)
  : option (list citem * string) :=
  match s with
  | EmptyString => None
  | String "]"%char r => Some (List.rev acc, r)
  | String "\"%char (String e r) =>
      match esc_item e with
      | Some it => p_class r (it :: acc)
      | None =>
          match r with
          | String h1 (String h2 r') =>
              match hex_char e h1 h2 with
              | Some c => p_class r' (CChr c :: acc)
              | None => None
              end
          | _ => None
          end
      end
  | String lo (String "-"%char (String hi r)) =>
      if Ascii.eqb hi "]"%char
      then Some (List.rev (CChr "-"%char :: CChr lo :: acc), r)
      else if Ascii.eqb hi "\"%char then None
      else p_class r (CRng lo hi :: acc)
  | String c r => p_class r (CChr c :: acc)
  end.

Fixpoint p_num (acc : option nat) (s : string) : option nat * string :=
  match s with
  | String c r =>
      if is_digit c
      then p_num (Some (10 * match acc with Some a => a | None => 0 end
                        + (code c - 48))) r
      else (acc, s)
  | EmptyString => (acc, s)
  end.

(** A trailing question mark makes the repetition lazy. *)
Definition p_lazy (s : string) : bool * string :=
  match s with
  | String "?"%char r => (false, r)
  | _ => (true, s)
  end.

Definition p_quant (a : re) (s : string) : option (re * string) :=
  match s with
  | String "*"%char r => let (g, r') := p_lazy r in Some (Rep g 0 None a, r')
  | String "+"%char r => let (g, r') := p_lazy r in Some (Rep g 1 None a, r')
  | String "?"%char r =>
      let (g, r') := p_lazy r in Some (Rep g 0 (Some 1) a, r')
  | String "{"%char r =>
      match p_num None r with
      | (Some lo, String "}"%char r1) =>
          let (g, r') := p_lazy r1 in Some (Rep g lo (Some lo) a, r')
      | (Some lo, String ","%char r1) =>
          match p_num None r1 with
          | (hi, String "}"%char r2) =>
              let (g, r') := p_lazy r2 in Some (Rep g lo hi a, r')
          | _ => None
          end
      | _ => None
      end
  | _ => Some (a, s)
  end.

(** The rest of a pattern after the name of a named group. *)
Fixpoint skip_name (s : string) : string :=
  match s with
  | EmptyString => EmptyString
  | String ">"%char r => r
  | String _ r => skip_name r
  end.

Definition is_special (c : ascii) : bool :=
  contains (String c EmptyString) "*+?{})|".

(** What a look-behind may hold: one character. *)
Definition one_char (a : re) : bool :=
  match a with
  | Chr _ | Any | Set_ _ _ => true
  | _ => false
  end.

(** Recursive descent; [g] is the number of capturing groups opened so
    far, groups being numbered by their opening parenthesis. *)
Fixpoint p_alt (n : nat) (s : string) (g : nat) {struct n}
  : option (re * string * nat) :=
  match n with
  | O => None
  | S n' =>
      match p_seq n' s g with
      | Some (a, String "|"%char s1, g1) =>
          match p_alt n' s1 g1 with
          | Some (b, s2, g2) => Some (Alt a b, s2, g2)
          | None => None
          end
      | other => other
      end
  end
with p_seq (n : nat) (s : string) (g : nat) {struct n}
  : option (re * string * nat) :=
  match n with
  | O => None
  | S n' =>
      match s with
      | EmptyString => Some (Eps, s, g)
      | String "|"%char _ => Some (Eps, s, g)
      | String ")"%char _ => Some (Eps, s, g)
      | _ =>
          match p_atom n' s g with
          | Some (a, s1, g1) =>
              match p_quant a s1 with
              | Some (a', s2) =>
                  match p_seq n' s2 g1 with
                  | Some (Eps, s3, g3) => Some (a', s3, g3)
                  | Some (b, s3, g3) => Some (Cat a' b, s3, g3)
                  | None => None
                  end
              | None => None
              end
          | None => None
          end
      end
  end
with p_atom (n : nat) (s : string) (g : nat) {struct n}
  : option (re * string * nat) :=
  match n with
  | O => None
  | S n' =>
      match s with
      | EmptyString => None
      | String "("%char (String "?"%char (String ":"%char r)) =>
          match p_alt n' r g with
          | Some (a, String ")"%char r1, g1) => Some (a, r1, g1)
          | _ => None
          end
      | String "("%char (String "?"%char (String "P"%char (String "<"%char r))) =>
          match p_alt n' (skip_name r) (S g) with
          | Some (a, String ")"%char r1, g1) => Some (Grp (S g) a, r1, g1)
          | _ => None
          end
      | String "("%char (String "?"%char r) =>
          let ahead := startswith "=" r || startswith "!" r in
          let behind := startswith "<=" r || startswith "<!" r in
          if ahead || behind
          then
            let neg := startswith "!" r || startswith "<!" r in
            match p_alt n' (drop (if ahead then 1 else 2) r) g with
            | Some (a, String ")"%char r1, g1) =>
                if ahead then Some (Ahead neg a, r1, g1)
                else if one_char a then Some (Behind neg a, r1, g1)
                else None
            | _ => None
            end
          else None
      | String "("%char r =>
          match p_alt n' r (S g) with
          | Some (a, String ")"%char r1, g1) => Some (Grp (S g) a, r1, g1)
          | _ => None
          end
      | String "["%char (String "^"%char r) =>
          match p_class r [] with
          | Some (items, r1) => Some (Set_ true items, r1, g)
          | None => None
          end
      | String "["%char r =>
          match p_class r [] with
          | Some (items, r1) => Some (Set_ false items, r1, g)
          | None => None
          end
      | String "\"%char (String e r) =>
          match esc_atom e with
          | Some a => Some (a, r, g)
          | None =>
              match r with
              | String h1 (String h2 r') =>
                  match hex_char e h1 h2 with
                  | Some c => Some (Chr c, r', g)
                  | None => None
                  end
              | _ => None
              end
          end
      | String "\"%char EmptyString => None
      | String "."%char r => Some (Any, r, g)
      | String "^"%char r => Some (Bol, r, g)
      | String "$"%char r => Some (Eol, r, g)
      | String c r => if is_special c then None else Some (Chr c, r, g)
      end
  end.

Definition parse (pat : string) : option re :=
  match p_alt (3 * String.length pat + 3) pat 0 with
  | Some (r, EmptyString, _) => Some r
  | _ => None
  end.

(** The number of capturing groups of a pattern: [len (match.groups ())]. *)
Definition ngroups (pat : string) : nat :=
  match p_alt (3 * String.length pat + 3) pat 0 with
  | Some (_, _, g) => g
  | None => 0
  end.

(** [re.compile]; a pattern outside the supported syntax matches nothing. *)
Definition compile (pat : string) : re :=
  match parse pat with
  | Some r => r
  | None => Fail
  end.

(** *** Matching *)

Record flags : Type := { icase : bool; dotall : bool }.

Definition NOFLAGS : flags := {| icase := false; dotall := false |}.
Definition IGNORECASE : flags := {| icase := true; dotall := false |}.
Definition DOTALL_IGNORECASE : flags := {| icase := true; dotall := true |}.

(** The matcher's position: the character before it, the text after it,
    its index, and the spans of the groups closed so far. *)
Record mstate : Type := {
  prev : option ascii;
  rest : string;
  pos : nat;
  caps : list (nat * (nat * nat))
}.

Definition set_cap (n p0 : nat) (st : mstate) : mstate :=
  {| prev := prev st; rest := rest st; pos := pos st;
     caps := (n, (p0, pos st)) :: caps st |}.

Definition word_opt (c : option ascii) : bool :=
  match c with
  | Some x => is_word x
  | None => false
  end.

Definition head_s (s : string) : option ascii :=
  match s with
  | String c _ => Some c
  | EmptyString => None
  end.

Section Matcher.

Variable fl : flags.

Definition char_eq (c x : ascii) : bool :=
  if icase fl then Ascii.eqb (lower_c c) (lower_c x) else Ascii.eqb c x.

Definition in_rng (lo hi x : ascii) : bool := between (code lo) (code hi) (code x).

Definition item_ok (it : citem) (x : ascii) : bool :=
  match it with
  | CChr c => char_eq c x
  | CRng lo hi =>
      in_rng lo hi x
      || (icase fl && (in_rng lo hi (lower_c x) || in_rng lo hi (upper_c x)))
  | CSpace => is_space x
  | CDigit => is_digit x
  | CWord => is_word x
  end.

Definition step_char (ok : ascii -> bool) (st : mstate)
  (k : mstate -> option mstate) : option mstate :=
  match rest st with
  | String x r =>
      if ok x
      then k {| prev := Some x; rest := r; pos := S (pos st);
                caps := caps st |}
      else None
  | EmptyString => None
  end.

Definition orelse (a : option mstate) (b : unit -> option mstate)
  : option mstate :=
  match a with
  | Some x => Some x
  | None => b tt
  end.

Definition below (i : nat) (hi : option nat) : bool :=
  match hi with
  | Some h => i <? h
  | None => true
  end.

(** The iterations of a repetition whose body is matched by [body]:
    [i] iterations are done.  An iteration that consumed nothing is given
    up; [fuel] exceeds the number of characters left, so it is never
    exhausted. *)
Fixpoint rep_loop (body : mstate -> (mstate -> option mstate) -> option mstate)
  (greedy : bool) (lo : nat) (hi : option nat) (k : mstate -> option mstate)
  (fuel i : nat) (st : mstate) {struct fuel} : option mstate :=
  match fuel with
  | O => None
  | S f =>
      let more := fun _ : unit =>
        if below i hi
        then body st (fun st' =>
               if pos st' =? pos st then None
               else rep_loop body greedy lo hi k f (S i) st')
        else None in
      let stop := fun _ : unit => if lo <=? i then k st else None in
      if greedy then orelse (more tt) stop else orelse (stop tt) more
  end.

(** [m r st k]: match [r] at [st], then continue with [k]. *)
Fixpoint m (r : re) (st : mstate) (k : mstate -> option mstate)
  {struct r} : option mstate :=
  match r with
  | Eps => k st
  | Chr c => step_char (char_eq c) st k
  | Any =>
      step_char (fun x => dotall fl || negb (Ascii.eqb x (ascii_of_nat 10)))
                st k
  | Set_ neg items =>
      step_char (fun x => xorb neg (existsb (fun it => item_ok it x) items))
                st k
  | Cat a b => m a st (fun st' => m b st' k)
  | Alt a b => orelse (m a st k) (fun _ => m b st k)
  | Rep greedy lo hi a =>
      rep_loop (m a) greedy lo hi k (S (String.length (rest st))) 0 st
  | Grp n a => m a st (fun st' => k (set_cap n (pos st) st'))
  | Bol => if pos st =? 0 then k st else None
  | Eol =>
      match rest st with
      | EmptyString => k st
      | String c EmptyString =>
          if Ascii.eqb c (ascii_of_nat 10) then k st else None
      | _ => None
      end
  | Wordb =>
      if xorb (word_opt (prev st)) (word_opt (head_s (rest st)))
      then k st else None
  | Fail => None
  | Ahead neg a =>
      match m a st Some with
      | Some st' =>
          if neg then None
          else k {| prev := prev st; rest := rest st; pos := pos st;
                    caps := caps st' |}
      | None => if neg then k st else None
      end
  | Behind neg a =>
      let hit :=
        match prev st with
        | Some c =>
            match m a {| prev := None; rest := String c EmptyString;
                         pos := pos st - 1; caps := caps st |} Some with
            | Some _ => true
            | None => false
            end
        | None => false
        end in
      if xorb neg hit then k st else None
  end.

End Matcher.

(** A match object: the searched text, the span of the whole match and
    the spans of its groups. *)
Record mobj : Type := {
  m_src : string;
  m_start : nat;
  m_end : nat;
  m_caps : list (nat * (nat * nat))
}.

Fixpoint cap_of (n : nat) (l : list (nat * (nat * nat))) : option (nat * nat) :=
  match l with
  | [] => None
  | (k, span) :: r => if k =? n then Some span else cap_of n r
  end.

(** [match.group (0)] *)
Definition group0 (mo : mobj) : string := slice (m_start mo) (m_end mo) (m_src mo).

(** [match.group (n)] for a group that took part in the match; a group
    that did not is read as the empty string. *)
Definition group (n : nat) (mo : mobj) : string :=
  match cap_of n (m_caps mo) with
  | Some (i, j) => slice i j (m_src mo)
  | None => EmptyString
  end.

Definition try_at (fl : flags) (r : re) (src : string) (p : option ascii)
  (s : string) (i : nat) : option (mobj * mstate) :=
  match m fl r {| prev := p; rest := s; pos := i; caps := [] |} Some with
  | Some st =>
      Some ({| m_src := src; m_start := i; m_end := pos st;
               m_caps := caps st |}, st)
  | None => None
  end.

(** [re.match]: at the start of the text only. *)
Definition re_match (fl : flags) (pat : string) (s : string) : option mobj :=
  option_map fst (try_at fl (compile pat) s None s 0).

Definition char_before (i : nat) (s : string) : option ascii :=
  match i with
  | O => None
  | S j => String.get j s
  end.

(** [pattern.match (s, i)] for [i] within the text. *)
Definition re_match_at (fl : flags) (pat : string) (s : string) (i : nat)
  : option mobj :=
  option_map fst (try_at fl (compile pat) s (char_before i s) (drop i s) i).

Fixpoint search_from (fl : flags) (r : re) (src : string) (p : option ascii)
  (s : string) (i : nat) : option mobj :=
  match try_at fl r src p s i with
  | Some (mo, _) => Some mo
  | None =>
      match s with
      | EmptyString => None
      | String c s' => search_from fl r src (Some c) s' (S i)
      end
  end.

(** [re.search]: the leftmost position at which the pattern matches. *)
Definition re_search (fl : flags) (pat : string) (s : string) : option mobj :=
  search_from fl (compile pat) s None s 0.

(** All non-overlapping matches, left to right. *)
Fixpoint scan (fuel : nat) (fl : flags) (r : re) (src : string)
  (p : option ascii) (s : string) (i : nat) : list mobj :=
  match fuel with
  | O => []
  | S f =>
      let next := fun _ : unit =>
        match s with
        | EmptyString => []
        | String c s' => scan f fl r src (Some c) s' (S i)
        end in
      match try_at fl r src p s i with
      | Some (mo, st) =>
          if pos st =? i then mo :: next tt
          else mo :: scan f fl r src (prev st) (rest st) (pos st)
      | None => next tt
      end
  end.

(** [re.finditer] *)
Definition re_finditer (fl : flags) (pat : string) (s : string) : list mobj :=
  scan (S (String.length s)) fl (compile pat) s None s 0.

Fixpoint sub_build (src : string) (cur : nat) (ms : list mobj)
  (repl : mobj -> string) : string :=
  match ms with
  | [] => drop cur src
  | mo :: r =>
      slice cur (m_start mo) src ++ repl mo ++ sub_build src (m_end mo) r repl
  end.

(** [re.sub]; the replacement is given as a function of the match. *)
Definition re_sub (fl : flags) (pat : string) (repl : mobj -> string)
  (s : string) : string :=
  sub_build s 0 (re_finditer fl pat s) repl.

End Re.

(** ** Python [datetime] *)

Module Datetime.
Import Str Re.
Local Open Scope Z_scope.

Record date : Type := mk_date { year : Z; month : Z; day : Z }.

Definition is_leap (y : Z) : bool :=
  (y mod 4 =? 0) && (negb (y mod 100 =? 0) || (y mod 400 =? 0)).

Definition days_in_month (y m : Z) : Z :=
  match m with
  | 1 | 3 | 5 | 7 | 8 | 10 | 12 => 31
  | 4 | 6 | 9 | 11 => 30
  | 2 => if is_leap y then 29 else 28
  | _ => 0
  end.

Definition valid (y m d : Z) : bool :=
  (1 <=? y) && (y <=? 9999) && (1 <=? m) && (m <=? 12)
  && (1 <=? d) && (d <=? days_in_month y m).

(** [datetime (y, m, d)]; [None] models [ValueError]. *)
Definition datetime (y m d : Z) : option date :=
  if valid y m d then Some (mk_date y m d) else None.

Definition digit (n : Z) : ascii := ascii_of_nat (48 + Z.to_nat (n mod 10)).

Definition pad2 (n : Z) : string :=
  String (digit (n / 10)) (String (digit n) EmptyString).

Definition pad4 (n : Z) : string :=
  String (digit (n / 1000)) (String (digit (n / 100)) (pad2 n)).

(** The year as the C library of Linux writes it for [%Y]: in decimal
    with no leading zero, so with fewer than four digits before the year
    1000.  The year of a date lies between 1 and 9999. *)
Definition year_text (y : Z) : string :=
  if y <? 10 then String (digit y) EmptyString
  else if y <? 100 then pad2 y
  else if y <? 1000 then String (digit (y / 100)) (pad2 y)
  else pad4 y.

(** [dt.strftime ('%Y-%m-%d')] *)
Definition strftime (dt : date) : string :=
  (year_text (year dt) ++ "-" ++ pad2 (month dt) ++ "-" ++ pad2 (day dt))%string.

Definition month_names : list string :=
  ["january"; "february"; "march"; "april"; "may"; "june"; "july";
   "august"; "september"; "october"; "november"; "december"].

Fixpoint index_of (x : string) (l : list string) (i : Z) : option Z :=
  match l with
  | [] => None
  | y :: r => if String.eqb x y then Some i else index_of x r (i + 1)
  end.

(** The expressions [_strptime] builds for the directives. *)
Definition directive_re (c : ascii) : option string :=
  match c with
  | "d"%char => Some "(?P<d>3[0-1]|[1-2]\d|0[1-9]|[1-9]| [1-9])"%string
  | "m"%char => Some "(?P<m>1[0-2]|0[1-9]|[1-9])"%string
  | "Y"%char => Some "(?P<Y>\d\d\d\d)"%string
  | "B"%char =>
      Some "(?P<B>september|february|november|december|january|october|august|march|april|june|july|may)"%string
  | _ => None
  end.

(** The expression of a format and its directives in order of
    appearance; a blank of the format stands for a run of whitespace. *)
Fixpoint format_re (fmt : string) : option (string * list ascii) :=
  match fmt with
  | EmptyString => Some (EmptyString, [])
  | String "%"%char (String c r) =>
      match directive_re c, format_re r with
      | Some p, Some (q, ds) => Some ((p ++ q)%string, c :: ds)
      | _, _ => None
      end
  | String c r =>
      match format_re r with
      | Some (q, ds) =>
          Some ((if is_space c then "\s+" ++ q else String c q)%string, ds)
      | None => None
      end
  end.

(** The fields found by the directives; a field that is absent keeps its
    default, 1900-01-01. *)
Fixpoint fields (ds : list ascii) (i : nat) (mo : mobj) (acc : Z * Z * Z)
  : option (Z * Z * Z) :=
  match ds with
  | [] => Some acc
  | c :: r =>
      let '(y, mth, d) := acc in
      let txt := group i mo in
      match c with
      | "Y"%char =>
          match int txt with
          | Some v => fields r (S i) mo (v, mth, d)
          | None => None
          end
      | "m"%char =>
          match int txt with
          | Some v => fields r (S i) mo (y, v, d)
          | None => None
          end
      | "d"%char =>
          match int (strip txt) with
          | Some v => fields r (S i) mo (y, mth, v)
          | None => None
          end
      | "B"%char =>
          match index_of (lower txt) month_names 1 with
          | Some v => fields r (S i) mo (y, v, d)
          | None => None
          end
      | _ => None
      end
  end.

(** [datetime.strptime (data, fmt)]: the whole of [data] must match the
    expression of the format, and the fields must form a calendar date. *)
Definition strptime (data fmt : string) : option date :=
  match format_re fmt with
  | Some (pat, ds) =>
      match re_match IGNORECASE pat data with
      | Some mo =>
          if Nat.eqb (m_end mo) (String.length data)
          then match fields ds 1 mo (1900, 1, 1) with
               | Some (y, mth, d) => datetime y mth d
               | None => None
               end
          else None
      | None => None
      end
  | None => None
  end.

End Datetime.

(** ** Python [html]: [html.unescape] and [html.parser.HTMLParser] *)

(** The parser is modelled on [html/parser.py] and [_markupbase.py] of
    CPython 3.11, with their regular expressions: text up to the next
    opening angle, start tags with their attribute lists, end tags,
    comments, processing instructions, declarations and marked sections,
    and script and style elements read as raw text.  Of the handlers only
    those the two scripts define are called. *)

Module Html.
Import Str Re.

Definition quot : string := String (ascii_of_nat 34) EmptyString.

Fixpoint chrs (l : list nat) : string :=
  match l with
  | [] => EmptyString
  | n :: r => String (ascii_of_nat n) (chrs r)
  end.

(** [html.entities.html5], the names that stand for characters below
    256, with the codes of these. *)
Definition html5 : list (string * list nat) :=
  [
   ("Aacute", [193]); ("aacute", [225]); ("Aacute;", [193]);
   ("aacute;", [225]); ("Acirc", [194]); ("acirc", [226]); ("Acirc;", [194]);
   ("acirc;", [226]); ("acute", [180]); ("acute;", [180]); ("AElig", [198]);
   ("aelig", [230]); ("AElig;", [198]); ("aelig;", [230]); ("Agrave", [192]);
   ("agrave", [224]); ("Agrave;", [192]); ("agrave;", [224]); ("AMP", [38]);
   ("amp", [38]); ("AMP;", [38]); ("amp;", [38]); ("angst;", [197]);
   ("apos;", [39]); ("Aring", [197]); ("aring", [229]); ("Aring;", [197]);
   ("aring;", [229]); ("ast;", [42]); ("Atilde", [195]); ("atilde", [227]);
   ("Atilde;", [195]); ("atilde;", [227]); ("Auml", [196]); ("auml", [228]);
   ("Auml;", [196]); ("auml;", [228]); ("brvbar", [166]); ("brvbar;", [166]);
   ("bsol;", [92]); ("Ccedil", [199]); ("ccedil", [231]); ("Ccedil;", [199]);
   ("ccedil;", [231]); ("cedil", [184]); ("cedil;", [184]);
   ("Cedilla;", [184]); ("cent", [162]); ("cent;", [162]);
   ("CenterDot;", [183]); ("centerdot;", [183]); ("circledR;", [174]);
   ("colon;", [58]); ("comma;", [44]); ("commat;", [64]); ("COPY", [169]);
   ("copy", [169]); ("COPY;", [169]); ("copy;", [169]); ("curren", [164]);
   ("curren;", [164]); ("deg", [176]); ("deg;", [176]);
   ("DiacriticalAcute;", [180]); ("DiacriticalGrave;", [96]); ("die;", [168]);
   ("div;", [247]); ("divide", [247]); ("divide;", [247]); ("dollar;", [36]);
   ("Dot;", [168]); ("DoubleDot;", [168]); ("Eacute", [201]);
   ("eacute", [233]); ("Eacute;", [201]); ("eacute;", [233]);
   ("Ecirc", [202]); ("ecirc", [234]); ("Ecirc;", [202]); ("ecirc;", [234]);
   ("Egrave", [200]); ("egrave", [232]); ("Egrave;", [200]);
   ("egrave;", [232]); ("equals;", [61]); ("ETH", [208]); ("eth", [240]);
   ("ETH;", [208]); ("eth;", [240]); ("Euml", [203]); ("euml", [235]);
   ("Euml;", [203]); ("euml;", [235]); ("excl;", [33]);
   ("fjlig;", [102; 106]); ("frac12", [189]); ("frac12;", [189]);
   ("frac14", [188]); ("frac14;", [188]); ("frac34", [190]);
   ("frac34;", [190]); ("grave;", [96]); ("GT", [62]); ("gt", [62]);
   ("GT;", [62]); ("gt;", [62]); ("half;", [189]); ("Hat;", [94]);
   ("Iacute", [205]); ("iacute", [237]); ("Iacute;", [205]);
   ("iacute;", [237]); ("Icirc", [206]); ("icirc", [238]); ("Icirc;", [206]);
   ("icirc;", [238]); ("iexcl", [161]); ("iexcl;", [161]); ("Igrave", [204]);
   ("igrave", [236]); ("Igrave;", [204]); ("igrave;", [236]);
   ("iquest", [191]); ("iquest;", [191]); ("Iuml", [207]); ("iuml", [239]);
   ("Iuml;", [207]); ("iuml;", [239]); ("laquo", [171]); ("laquo;", [171]);
   ("lbrace;", [123]); ("lbrack;", [91]); ("lcub;", [123]); ("lowbar;", [95]);
   ("lpar;", [40]); ("lsqb;", [91]); ("LT", [60]); ("lt", [60]);
   ("LT;", [60]); ("lt;", [60]); ("macr", [175]); ("macr;", [175]);
   ("micro", [181]); ("micro;", [181]); ("midast;", [42]); ("middot", [183]);
   ("middot;", [183]); ("nbsp", [160]); ("nbsp;", [160]); ("NewLine;", [10]);
   ("NonBreakingSpace;", [160]); ("not", [172]); ("not;", [172]);
   ("Ntilde", [209]); ("ntilde", [241]); ("Ntilde;", [209]);
   ("ntilde;", [241]); ("num;", [35]); ("Oacute", [211]); ("oacute", [243]);
   ("Oacute;", [211]); ("oacute;", [243]); ("Ocirc", [212]); ("ocirc", [244]);
   ("Ocirc;", [212]); ("ocirc;", [244]); ("Ograve", [210]); ("ograve", [242]);
   ("Ograve;", [210]); ("ograve;", [242]); ("ordf", [170]); ("ordf;", [170]);
   ("ordm", [186]); ("ordm;", [186]); ("Oslash", [216]); ("oslash", [248]);
   ("Oslash;", [216]); ("oslash;", [248]); ("Otilde", [213]);
   ("otilde", [245]); ("Otilde;", [213]); ("otilde;", [245]); ("Ouml", [214]);
   ("ouml", [246]); ("Ouml;", [214]); ("ouml;", [246]); ("para", [182]);
   ("para;", [182]); ("percnt;", [37]); ("period;", [46]); ("plus;", [43]);
   ("PlusMinus;", [177]); ("plusmn", [177]); ("plusmn;", [177]);
   ("pm;", [177]); ("pound", [163]); ("pound;", [163]); ("quest;", [63]);
   ("QUOT", [34]); ("quot", [34]); ("QUOT;", [34]); ("quot;", [34]);
   ("raquo", [187]); ("raquo;", [187]); ("rbrace;", [125]); ("rbrack;", [93]);
   ("rcub;", [125]); ("REG", [174]); ("reg", [174]); ("REG;", [174]);
   ("reg;", [174]); ("rpar;", [41]); ("rsqb;", [93]); ("sect", [167]);
   ("sect;", [167]); ("semi;", [59]); ("shy", [173]); ("shy;", [173]);
   ("sol;", [47]); ("strns;", [175]); ("sup1", [185]); ("sup1;", [185]);
   ("sup2", [178]); ("sup2;", [178]); ("sup3", [179]); ("sup3;", [179]);
   ("szlig", [223]); ("szlig;", [223]); ("Tab;", [9]); ("THORN", [222]);
   ("thorn", [254]); ("THORN;", [222]); ("thorn;", [254]); ("times", [215]);
   ("times;", [215]); ("Uacute", [218]); ("uacute", [250]);
   ("Uacute;", [218]); ("uacute;", [250]); ("Ucirc", [219]); ("ucirc", [251]);
   ("Ucirc;", [219]); ("ucirc;", [251]); ("Ugrave", [217]); ("ugrave", [249]);
   ("Ugrave;", [217]); ("ugrave;", [249]); ("uml", [168]); ("uml;", [168]);
   ("UnderBar;", [95]); ("Uuml", [220]); ("uuml", [252]); ("Uuml;", [220]);
   ("uuml;", [252]); ("verbar;", [124]); ("vert;", [124]);
   ("VerticalLine;", [124]); ("Yacute", [221]); ("yacute", [253]);
   ("Yacute;", [221]); ("yacute;", [253]); ("yen", [165]); ("yen;", [165]);
   ("yuml", [255]); ("yuml;", [255])
  ].

(** The names of [html.entities.html5] that stand for a character from
    256 on and begin with a name of at least two characters that is in the
    table. *)
Definition html5_wide : list string :=
  [
   "copysr;"; "divideontimes;"; "gtcc;"; "gtcir;"; "gtdot;"; "gtlPar;";
   "gtquest;"; "gtrapprox;"; "gtrarr;"; "gtrdot;"; "gtreqless;";
   "gtreqqless;"; "gtrless;"; "gtrsim;"; "ltcc;"; "ltcir;"; "ltdot;";
   "lthree;"; "ltimes;"; "ltlarr;"; "ltquest;"; "ltri;"; "ltrie;"; "ltrif;";
   "ltrPar;"; "notin;"; "notindot;"; "notinE;"; "notinva;"; "notinvb;";
   "notinvc;"; "notni;"; "notniva;"; "notnivb;"; "notnivc;"; "parallel;";
   "timesb;"; "timesbar;"; "timesd;"
  ].

Fixpoint lookup (name : string) (tbl : list (string * list nat))
  : option string :=
  match tbl with
  | [] => None
  | (n, v) :: r => if String.eqb name n then Some (chrs v) else lookup name r
  end.

Definition mem_s (x : string) (l : list string) : bool :=
  existsb (String.eqb x) l.

(** [int (s.rstrip (';'), base)] on the digits of a numeric reference. *)
Fixpoint int_base (base acc : Z) (s : string) : Z :=
  match s with
  | EmptyString => acc
  | String c r =>
      match hex_digit c with
      | Some d => int_base base (base * acc + Z.of_nat d)%Z r
      | None => acc
      end
  end.

Definition zbetween (lo hi n : Z) : bool := ((lo <=? n) && (n <=? hi))%Z.

Definition invalid_codepoint (n : Z) : bool :=
  zbetween 1 8 n || zbetween 14 31 n || zbetween 127 159 n
  || zbetween 64976 65007 n || (n =? 11)%Z
  || (zbetween 0 1114111 n
      && ((n mod 65536 =? 65534) || (n mod 65536 =? 65535))%Z).

(** The text a numeric reference to [n] stands for; [None] when it is a
    character from 256 on: for 0, for the codes 128 to 159 that are
    replaced by Windows-1252 characters, for a surrogate, a number above
    1114111, and for any other number from 256 on that is not dropped. *)
Definition charref_text (n : Z) : option string :=
  if (n =? 13)%Z then Some (chrs [13])
  else if existsb (Z.eqb n) [129; 141; 143; 144; 157]%Z
       then Some (chrs [Z.to_nat n])
  else if (n =? 0)%Z || zbetween 128 159 n then None
  else if zbetween 55296 57343 n || (1114111 <? n)%Z then None
  else if invalid_codepoint n then Some EmptyString
  else if (n <? 256)%Z then Some (chrs [Z.to_nat n])
  else None.

(** The longest beginning [s[:x]] of a name, [x] from one less than its
    length down to 2, that is in the table. *)
Fixpoint longest_name (x : nat) (s : string) : string :=
  match x with
  | S ((S _) as x') =>
      match lookup (take x s) html5 with
      | Some v => v ++ drop x s
      | None => longest_name x' s
      end
  | _ => "&" ++ s
  end.

(** [_replace_charref] on the reference [s] without its ampersand.  A
    reference to a character from 256 on, which a string of the model
    cannot hold, is left as written. *)
Definition replace_charref (s : string) : string :=
  match s with
  | String "#"%char r =>
      let num :=
        match r with
        | String x d =>
            if Ascii.eqb x "x"%char || Ascii.eqb x "X"%char
            then int_base 16 0 d else int_base 10 0 r
        | EmptyString => 0%Z
        end in
      match charref_text num with
      | Some v => v
      | None => "&" ++ s
      end
  | _ =>
      match lookup s html5 with
      | Some v => v
      | None =>
          if mem_s s html5_wide then "&" ++ s
          else longest_name (String.length s - 1) s
      end
  end.

Definition charref : string :=
  "&(#[0-9]+;?|#[xX][0-9a-fA-F]+;?|[^\t\n\f <&#;]{1,32};?)".

(** [html.unescape].  CPython refuses to convert a decimal numeral of
    more than 4300 digits and raises [ValueError]; references that long
    are not modelled. *)
Definition unescape (s : string) : string :=
  if contains "&" s
  then re_sub NOFLAGS charref (fun mo => replace_charref (group 1 mo)) s
  else s.

(** The calls a parser makes to its handlers; [Raise] is an exception
    leaving [feed]. *)
Inductive event : Type :=
| StartTag (tag : string)
| EndTag (tag : string)
| Data (data : string)
| Raise.

(** The text before the first occurrence of [c], and the text from it. *)
Fixpoint break_at (c : ascii) (s : string) : option (string * string) :=
  match s with
  | EmptyString => None
  | String x r =>
      if Ascii.eqb x c then Some (EmptyString, s)
      else match break_at c r with
           | Some (a, b) => Some (String x a, b)
           | None => None
           end
  end.

(** The text after the first occurrence of [c]. *)
Definition after_char (c : ascii) (s : string) : option string :=
  match break_at c s with
  | Some (_, String _ r) => Some r
  | _ => None
  end.

(** The text after the first match of [pat]. *)
Definition after_re (fl : flags) (pat : string) (s : string) : option string :=
  match re_search fl pat s with
  | Some mo => Some (drop (m_end mo) s)
  | None => None
  end.

Fixpoint last_amp (s : string) : option string :=
  match s with
  | EmptyString => None
  | String c r =>
      match last_amp r with
      | Some t => Some t
      | None => if Ascii.eqb c "&"%char then Some s else None
      end
  end.

Fixpoint any_s (p : ascii -> bool) (s : string) : bool :=
  match s with
  | EmptyString => false
  | String c r => p c || any_s p r
  end.

(** Trailing text is held back while it may end inside a character
    reference: an ampersand among its last 34 characters followed by
    neither whitespace nor a semicolon. *)
Definition amp_pending (s : string) : bool :=
  match last_amp (drop (String.length s - 34) s) with
  | Some t => negb (any_s (fun c => is_space c || Ascii.eqb c ";"%char) t)
  | None => false
  end.

Definition CDATA_CONTENT_ELEMENTS : list string := ["script"; "style"].

Definition tagfind_tolerant : string :=
  "([a-zA-Z][^\t\n\r\f />\x00]*)(?:\s|/(?!>))*".

Definition attrfind_tolerant : string :=
  "((?<=[\'" ++ quot ++ "\s/])[^\s/>][^\s/=>]*)(\s*=+\s*(\'[^\']*\'|"
  ++ quot ++ "[^" ++ quot ++ "]*" ++ quot ++ "|(?![\'" ++ quot
  ++ "])[^>\s]*))?(?:\s|/(?!>))*".

(** The library writes this expression in verbose mode, over several
    lines with comments; this is its text without them. *)
Definition locatestarttagend_tolerant : string :=
  "<[a-zA-Z][^\t\n\r\f />\x00]*(?:[\s/]*(?:(?<=['" ++ quot
  ++ "\s/])[^\s/>][^\s/=>]*(?:\s*=+\s*(?:'[^']*'|" ++ quot ++ "[^" ++ quot
  ++ "]*" ++ quot ++ "|(?!['" ++ quot ++ "])[^>\s]*)\s*)?(?:\s|/(?!>))*)*)?\s*".

Definition endtagfind : string := "</\s*([a-zA-Z][-.a-zA-Z0-9:_]*)\s*>".

Definition declname : string := "[a-zA-Z][-_.a-zA-Z0-9]*\s*".

(** What the parser does with a piece of markup: it waits for more text,
    it raises, or it calls handlers, sets the raw-text element and goes on
    with the text after the markup. *)
Inductive step : Type :=
| Wait
| Fault
| Next (calls : list event) (cdata : option string) (after : string).

(** [check_for_whole_start_tag] on the text from the opening angle of a
    start tag: where the tag ends, [inl None] when it is not complete. *)
Definition check_for_whole_start_tag (s : string) : option nat + unit :=
  match re_match NOFLAGS locatestarttagend_tolerant s with
  | Some mo =>
      let j := m_end mo in
      match drop j s with
      | String ">"%char _ => inl (Some (j + 1))
      | String "/"%char (String ">"%char _) => inl (Some (j + 2))
      | String "/"%char _ => inl None
      | EmptyString => inl None
      | String c _ =>
          if is_alpha c || Ascii.eqb c "="%char then inl None
          else inl (Some (if 0 <? j then j else 1))
      end
  | None => inr tt
  end.

(** The loop over the attributes of a start tag: from [k], as long as
    an attribute is found before [endpos]. *)
Fixpoint attrs_end (fuel : nat) (s : string) (endpos k : nat) : nat :=
  match fuel with
  | O => k
  | S f =>
      if k <? endpos
      then match re_match_at NOFLAGS attrfind_tolerant s k with
           | Some mo => attrs_end f s endpos (m_end mo)
           | None => k
           end
      else k
  end.

(** [parse_starttag] on the text from the opening angle of a start
    tag. *)
Definition parse_starttag (s : string) : step :=
  match check_for_whole_start_tag s with
  | inr _ => Fault
  | inl None => Wait
  | inl (Some endpos) =>
      match re_match_at NOFLAGS tagfind_tolerant s 1 with
      | None => Fault
      | Some mo =>
          let tag := lower (group 1 mo) in
          let k := attrs_end endpos s endpos (m_end mo) in
          let end_ := strip (slice k endpos s) in
          if negb (mem_s end_ [">"; "/>"])
          then Next [Data (take endpos s)] None (drop endpos s)
          else if String.eqb end_ "/>"
          then Next [StartTag tag; EndTag tag] None (drop endpos s)
          else Next [StartTag tag]
                    (if mem_s tag CDATA_CONTENT_ELEMENTS then Some tag
                     else None)
                    (drop endpos s)
      end
  end.

(** [parse_bogus_comment] on the text from its opening angle. *)
Definition parse_bogus_comment (cdata : option string) (s : string) : step :=
  match after_char ">"%char (drop 2 s) with
  | Some after => Next [] cdata after
  | None => Wait
  end.

(** [parse_endtag] on the text from the opening angle of an end tag;
    [cdata] is the raw-text element being read, if any. *)
Definition parse_endtag (cdata : option string) (s : string) : step :=
  match after_char ">"%char (drop 1 s) with
  | None => Wait
  | Some after =>
      let gtpos := String.length s - String.length after in
      match re_match NOFLAGS endtagfind s with
      | None =>
          match cdata with
          | Some _ => Next [Data (take gtpos s)] cdata after
          | None =>
              match re_match_at NOFLAGS tagfind_tolerant s 2 with
              | None =>
                  if startswith "</>" s then Next [] cdata (drop 3 s)
                  else parse_bogus_comment cdata s
              | Some nm =>
                  match after_char ">"%char (drop (m_end nm) s) with
                  | Some after' =>
                      Next [EndTag (lower (group 1 nm))] cdata after'
                  | None => Wait
                  end
              end
          end
      | Some mo =>
          let elem := lower (group 1 mo) in
          match cdata with
          | Some c =>
              if negb (String.eqb elem c)
              then Next [Data (take gtpos s)] cdata after
              else Next [EndTag elem] None after
          | None => Next [EndTag elem] None after
          end
      end
  end.

(** [parse_comment] on the text from the opening angle. *)
Definition parse_comment (cdata : option string) (s : string) : step :=
  match after_re NOFLAGS "--\s*>" (drop 4 s) with
  | Some after => Next [] cdata after
  | None => Wait
  end.

(** [parse_pi] *)
Definition parse_pi (cdata : option string) (s : string) : step :=
  match after_char ">"%char (drop 2 s) with
  | Some after => Next [] cdata after
  | None => Wait
  end.

(** [parse_marked_section] on the text from the opening angle of
    [<![]: the keyword is scanned by [_scan_name], which waits when the
    keyword and the blanks after it run to the end of the text and raises
    when there is no keyword; the keyword decides how the section closes,
    and an unknown one raises. *)
Definition parse_marked_section (cdata : option string) (s : string) : step :=
  let r := drop 3 s in
  match r with
  | EmptyString => Wait
  | _ =>
      match re_match NOFLAGS declname r with
      | Some mo =>
          if m_end mo =? String.length r then Wait
          else
            let sectName := lower (strip (group0 mo)) in
            let close (pat : string) :=
              match after_re NOFLAGS pat r with
              | Some after => Next [] cdata after
              | None => Wait
              end in
            if mem_s sectName ["temp"; "cdata"; "ignore"; "include"; "rcdata"]
            then close "]\s*]\s*>"
            else if mem_s sectName ["if"; "else"; "endif"]
            then close "]\s*>"
            else Fault
      | None => Fault
      end
  end.

(** [parse_html_declaration] on the text from the opening angle of
    [<!]. *)
Definition parse_html_declaration (cdata : option string) (s : string)
  : step :=
  if startswith "<!--" s then parse_comment cdata s
  else if startswith "<![" s then parse_marked_section cdata s
  else if String.eqb (lower (take 9 s)) "<!doctype"
  then match after_char ">"%char (drop 9 s) with
       | Some after => Next [] cdata after
       | None => Wait
       end
  else parse_bogus_comment cdata s.

Definition data_ev (raw shown : string) : list event :=
  if nonempty raw then [Data shown] else [].

(** The text up to the next point of interest and the text from it; in
    a script or style element that point is the end tag of the element,
    else the next opening angle or, when there is none and no character
    reference may be cut at the end, the end of the text.  [None]: the
    parser waits. *)
Definition interesting (cdata : option string) (s : string)
  : option (string * string) :=
  match cdata with
  | None =>
      match break_at "<"%char s with
      | Some found => Some found
      | None => if amp_pending s then None else Some (s, EmptyString)
      end
  | Some elem =>
      match re_search IGNORECASE ("</\s*" ++ elem ++ "\s*>") s with
      | Some mo => Some (take (m_start mo) s, drop (m_start mo) s)
      | None => None
      end
  end.

(** The markup at the head of [s], which begins with an opening angle;
    [None] when the angle is plain text. *)
Definition markup_step (cdata : option string) (s : string) : option step :=
  if match re_match NOFLAGS "<[a-zA-Z]" s with Some _ => true | None => false end
  then Some (parse_starttag s)
  else if startswith "</" s then Some (parse_endtag cdata s)
  else if startswith "<!--" s then Some (parse_comment cdata s)
  else if startswith "<?" s then Some (parse_pi cdata s)
  else if startswith "<!" s then Some (parse_html_declaration cdata s)
  else None.

(** [HTMLParser.feed] on a whole document, never followed by [close]:
    the handler calls in order.  [cdata] is the script or style element
    being read, if any.  Every turn of the loop consumes a character, so
    [fuel], one more than the length of the text, is not exhausted. *)
Fixpoint goahead (fuel : nat) (cdata : option string) (s : string)
  : list event :=
  match fuel with
  | O => []
  | S f =>
      match interesting cdata s with
      | None => []
      | Some (text, markup) =>
          data_ev text (match cdata with
                        | None => unescape text
                        | Some _ => text
                        end) ++
          match markup with
          | EmptyString => []
          | String _ more =>
              match markup_step cdata markup with
              | Some Wait => []
              | Some Fault => [Raise]
              | Some (Next calls cdata' after) =>
                  calls ++ goahead f cdata' after
              | None =>
                  match more with
                  | EmptyString => []
                  | _ => Data "<" :: goahead f cdata more
                  end
              end
          end
      end
  end.

Definition feed (html : string) : list event :=
  goahead (S (String.length html)) None html.

End Html.

(** ** Helpers for Python control flow and containers *)

(** A loop whose body may return: the first iteration that yields a
    value decides. *)
Fixpoint first_some {A B : Type} (f : A -> option B) (l : list A) : option B :=
  match l with
  | [] => None
  | x :: r =>
      match f x with
      | Some y => Some y
      | None => first_some f r
      end
  end.

(** [any (word in s for word in words)] *)
Definition any_in (words : list string) (s : string) : bool :=
  existsb (fun w => Str.contains w s) words.

(** [enumerate] *)
Fixpoint enumerate_from {A : Type} (i : nat) (l : list A) : list (nat * A) :=
  match l with
  | [] => []
  | x :: r => (i, x) :: enumerate_from (S i) r
  end.

(** [l[i:j]] *)
Definition slice_l {A : Type} (i j : nat) (l : list A) : list A :=
  firstn (j - i) (skipn i l).

(** ** The body-text renderer

    [TextExtractor] and [DateExtractor] are the same parser but for the
    line cap and the name of the list of lines. *)

Module BodyText.
Import Str Html.

Record parser : Type := {
  text : list string;
  in_body : bool;
  line_count : nat;
  max_lines : nat
}.

Definition init (cap : nat) : parser :=
  {| text := []; in_body := false; line_count := 0; max_lines := cap |}.

Definition set_in_body (b : bool) (p : parser) : parser :=
  {| text := text p; in_body := b; line_count := line_count p;
     max_lines := max_lines p |}.

Definition handle_starttag (p : parser) (tag : string) : parser :=
  if String.eqb (lower tag) "body" then set_in_body true p else p.

Definition handle_endtag (p : parser) (tag : string) : parser :=
  if String.eqb (lower tag) "body" then set_in_body false p else p.

(** One turn of the loop over the lines of a chunk; once the cap is
    reached the loop has been left and nothing more is added. *)
Definition add_line (p : parser) (line : string) : parser :=
  if max_lines p <=? line_count p then p
  else
    let stripped := strip line in
    if nonempty stripped
    then {| text := text p ++ [stripped]; in_body := in_body p;
            line_count := S (line_count p); max_lines := max_lines p |}
    else p.

Definition handle_data (p : parser) (data : string) : parser :=
  if in_body p && (line_count p <? max_lines p)
  then fold_left add_line (split nl data) p
  else p.

(** [parser.feed (html_content)]; [None] when the parser raises. *)
Fixpoint run (p : parser) (evs : list event) : option parser :=
  match evs with
  | [] => Some p
  | StartTag t :: r => run (handle_starttag p t) r
  | EndTag t :: r => run (handle_endtag p t) r
  | Data d :: r => run (handle_data p d) r
  | Raise :: _ => None
  end.

(** The lines kept after feeding a document, cut to [n]; none when the
    parser raised. *)
Definition render (cap n : nat) (html_content : string) : list string :=
  match run (init cap) (feed html_content) with
  | Some p => firstn n (text p)
  | None => []
  end.

End BodyText.

(** ** JSON records and the file system *)

(** A loaded JSON value; numbers are kept as integers. *)
Inductive json : Type :=
| JNull
| JBool (b : bool)
| JNum (n : Z)
| JStr (s : string)
| JArr (l : list json)
| JObj (kv : list (string * json)).

(** Python's truth value of a loaded JSON value. *)
Definition truthy (v : json) : bool :=
  match v with
  | JNull => false
  | JBool b => b
  | JNum n => negb (n =? 0)%Z
  | JStr s => Str.nonempty s
  | JArr l => match l with [] => false | _ => true end
  | JObj kv => match kv with [] => false | _ => true end
  end.

(** [d.get (k)] on a dictionary kept in insertion order. *)
Fixpoint dict_get (k : string) (kv : list (string * json)) : option json :=
  match kv with
  | [] => None
  | (k', v) :: r => if String.eqb k k' then Some v else dict_get k r
  end.

(** [d[k] = v]: an existing key keeps its place, a new one goes last. *)
Fixpoint dict_set (k : string) (v : json) (kv : list (string * json))
  : list (string * json) :=
  match kv with
  | [] => [(k, v)]
  | (k', v') :: r =>
      if String.eqb k k' then (k, v) :: r else (k', v') :: dict_set k v r
  end.

(** The documents on disk: the text of the file at a path, if there is
    one. *)
Definition files : Type := string -> option string.

(** [os.path.join] of two POSIX paths. *)
Definition path_join (a b : string) : string :=
  if Str.startswith "/" b then b
  else if negb (Str.nonempty a) || Str.startswith "/" (Str.rev a) then a ++ b
  else a ++ "/" ++ b.

(** [os.path.basename] *)
Definition basename (p : string) : string :=
  last (Str.split "/" p) EmptyString.

(** What a call of [update_json_file] leaves behind: the record written
    back to the JSON file, if it was rewritten, and the value returned. *)
Record outcome : Type := {
  written : option json;
  updated : bool
}.

Definition skipped : outcome := {| written := None; updated := false |}.

Definition outcome_updated (o : outcome) : bool := updated o.

(** A directory of record files as [glob] lists it: each path with the
    value [json.load] gives for the file, or [None] when loading raises. *)
Definition record_files : Type := list (string * option json).

(** The counts [main] prints when it is done. *)
Record report : Type := {
  total : nat;
  n_updated : nat;
  n_failed : nat
}.

(** What one call of [update_json_file] leaves in the record file. *)
Definition file_after (content : option json) (o : outcome) : option json :=
  match written o with
  | Some d => Some d
  | None => content
  end.

(** [data.get ('metadata', {}).get ('sourcePath', '')]; [None] when the
    value under [metadata] is not a dictionary and the lookup raises. *)
Definition source_path_of_raw (kv : list (string * json)) : option json :=
  match dict_get "metadata" kv with
  | None => Some (JStr EmptyString)
  | Some (JObj md) =>
      match dict_get "sourcePath" md with
      | None => Some (JStr EmptyString)
      | Some v => Some v
      end
  | Some _ => None
  end.

(** ** [extract_trial_dates.py] *)

Module ExtractTrialDates.
Import Str Re Datetime Html.

Definition DateExtractor : BodyText.parser := BodyText.init 150.

Definition extract_text_first_150_lines (html_content : string) : list string :=
  BodyText.render 150 150 html_content.

Definition date_formats : list (string * option string) :=
  [("(\d{1,2})(?:st|nd|rd|th)?\s+(January|February|March|April|May|June|July|August|September|October|November|December),?\s+(\d{4})", Some "%d %B %Y");
   ("(January|February|March|April|May|June|July|August|September|October|November|December)\s+(\d{1,2})(?:st|nd|rd|th)?,?\s+(\d{4})", Some "%B %d %Y");
   ("(\d{1,2})(?:ST|ND|RD|TH)?\s+(JANUARY|FEBRUARY|MARCH|APRIL|MAY|JUNE|JULY|AUGUST|SEPTEMBER|OCTOBER|NOVEMBER|DECEMBER),?\s+(\d{4})", Some "%d %B %Y");
   ("(\d{1,2})/(\d{1,2})/(\d{4})", None);
   ("(\d{4})-(\d{1,2})-(\d{1,2})", Some "%Y-%m-%d")].

(** [datetime (int (y), int (m), int (d)).strftime ('%Y-%m-%d')], or
    [None] on [ValueError]. *)
Definition ymd (y m d : string) : option string :=
  match int y, int m, int d with
  | Some y', Some m', Some d' => option_map strftime (datetime y' m' d')
  | _, _, _ => None
  end.

(** The special handling of a slash-numeric match: day/month/year, then
    month/day/year. *)
Definition slash_date (day month year : string) : option string :=
  match ymd year month day with
  | Some r => Some r
  | None => ymd year day month
  end.

(** The clean-up of a written match before [strptime]. *)
Definition clean_written (matched : string) : string :=
  let clean_date := re_sub IGNORECASE "(\d+)(st|nd|rd|th)" (group 1) matched in
  let clean_date := replace "," "" clean_date in
  title clean_date.

(** One turn of the loop over [date_formats]; [None] is [continue]. *)
Definition try_format (date_str : string) (pf : string * option string)
  : option string :=
  let (pattern, fmt) := pf in
  match re_search IGNORECASE pattern date_str with
  | Some mo =>
      match fmt with
      | None => slash_date (group 1 mo) (group 2 mo) (group 3 mo)
      | Some f =>
          option_map strftime (strptime (strip (clean_written (group0 mo))) f)
      end
  | None => None
  end.

Definition parse_date_from_text (date_str : string) : string :=
  let date_str := strip date_str in
  match first_some (try_format date_str) date_formats with
  | Some iso => iso
  | None => strip date_str
  end.

(** [if parsed and len (parsed) >= 10: return parsed] *)
Definition accept (parsed : string) : option string :=
  if nonempty parsed && (10 <=? String.length parsed) then Some parsed
  else None.

Definition strip_script_style (html_content : string) : string :=
  let html_clean :=
    re_sub DOTALL_IGNORECASE "<script[^>]*>.*?</script>" (fun _ => "")
           html_content in
  re_sub DOTALL_IGNORECASE "<style[^>]*>.*?</style>" (fun _ => "") html_clean.

Definition html_date_patterns : list string :=
  ["<[^>]*>(\d{1,2})<[^>]*>(?:ST|ND|RD|TH)<[^>]*>\s*(JANUARY|FEBRUARY|MARCH|APRIL|MAY|JUNE|JULY|AUGUST|SEPTEMBER|OCTOBER|NOVEMBER|DECEMBER),?\s*(\d{4})";
   "<u[^>]*>(\d{1,2}(?:ST|ND|RD|TH)?\s+(?:JANUARY|FEBRUARY|MARCH|APRIL|MAY|JUNE|JULY|AUGUST|SEPTEMBER|OCTOBER|NOVEMBER|DECEMBER),?\s+\d{4})"].

Definition month_map : list (string * string) :=
  [("JANUARY", "January"); ("FEBRUARY", "February"); ("MARCH", "March");
   ("APRIL", "April"); ("MAY", "May"); ("JUNE", "June");
   ("JULY", "July"); ("AUGUST", "August"); ("SEPTEMBER", "September");
   ("OCTOBER", "October"); ("NOVEMBER", "November");
   ("DECEMBER", "December")].

Fixpoint map_get (k : string) (l : list (string * string)) (dflt : string)
  : string :=
  match l with
  | [] => dflt
  | (k', v) :: r => if String.eqb k k' then v else map_get k r dflt
  end.

(** The date of a match with day, month and year in groups of their
    own. *)
Definition superscript_date (day month year : string) : option string :=
  let month_name := map_get (upper month) month_map (title month) in
  match int year, strptime month_name "%B", int day with
  | Some y, Some mdt, Some d => option_map strftime (datetime y (Datetime.month mdt) d)
  | _, _, _ => None
  end.

(** One turn of the loop over [html_date_patterns]. *)
Definition html_date (html_clean pattern : string) : option string :=
  match re_search IGNORECASE pattern html_clean with
  | Some mo =>
      if ngroups pattern =? 3
      then superscript_date (group 1 mo) (group 2 mo) (group 3 mo)
      else accept (parse_date_from_text (group 1 mo))
  | None => None
  end.

Definition bracket_patterns : list string :=
  ["\[(\d{1,2}/\d{1,2}/\d{4})\]";
   "\[(\d{1,2}(?:st|nd|rd|th)?\s+(?:January|February|March|April|May|June|July|August|September|October|November|December),?\s+\d{4})\]"].

Definition written_date_patterns : list string :=
  ["(?:H\d+/\d+/\d+|NO\.?\s*[A-Z]?\.?\d+/\d+|J\.\d+/\d+)[^.]*?(\d{1,2}(?:st|nd|rd|th)?\s+(?:January|February|March|April|May|June|July|August|September|October|November|December),?\s+\d{4})";
   "(?:Coram|CORAM)[^.]*?(\d{1,2}(?:st|nd|rd|th)?\s+(?:January|February|March|April|May|June|July|August|September|October|November|December),?\s+\d{4})";
   "(?:JUDGMENT|Judgment)[^.]*?(\d{1,2}(?:st|nd|rd|th)?\s+(?:January|February|March|April|May|June|July|August|September|October|November|December),?\s+\d{4})";
   "(\d{1,2}(?:ST|ND|RD|TH)?\s+(?:JANUARY|FEBRUARY|MARCH|APRIL|MAY|JUNE|JULY|AUGUST|SEPTEMBER|OCTOBER|NOVEMBER|DECEMBER),?\s+\d{4})"].

(** One turn of the loops over [bracket_patterns] and
    [written_date_patterns]. *)
Definition header_date (header_text pattern : string) : option string :=
  match re_search IGNORECASE pattern header_text with
  | Some mo => accept (parse_date_from_text (group 1 mo))
  | None => None
  end.

Definition standalone_patterns : list string :=
  ["^(\d{1,2}(?:ST|ND|RD|TH)?\s+(?:JANUARY|FEBRUARY|MARCH|APRIL|MAY|JUNE|JULY|AUGUST|SEPTEMBER|OCTOBER|NOVEMBER|DECEMBER),?\s+\d{4})";
   "^(\d{1,2}(?:st|nd|rd|th)?\s+(?:January|February|March|April|May|June|July|August|September|October|November|December),?\s+\d{4})";
   "<u>(\d{1,2}(?:ST|ND|RD|TH)?\s+(?:JANUARY|FEBRUARY|MARCH|APRIL|MAY|JUNE|JULY|AUGUST|SEPTEMBER|OCTOBER|NOVEMBER|DECEMBER),?\s+\d{4})"].

Definition connectors : list string :=
  ["FROM"; "TO"; "ON"; "AT"; "BEFORE"; "AFTER"; "DURING"].

(** One turn of the inner loop of the standalone stage. *)
Definition standalone_date (line pattern : string) : option string :=
  match re_match IGNORECASE pattern line with
  | Some mo =>
      if any_in connectors (upper line) then None
      else accept (parse_date_from_text (group 1 mo))
  | None => None
  end.

Definition early_date_pattern : string := "(\d{1,2}/\d{1,2}/\d{4})".

Definition case_tokens : list string :=
  ["V."; "VRS"; "VERSUS"; "H1/"; "NO."; "CASE"].

(** One turn of the loop of the early slash-numeric stage. *)
Definition early_date (lines : list string) (il : nat * string)
  : option string :=
  let (i, line) := il in
  match re_search NOFLAGS early_date_pattern line with
  | Some mo =>
      let context := join " " (slice_l (i - 2) (i + 3) lines) in
      if any_in case_tokens (upper context)
      then accept (parse_date_from_text (group 1 mo))
      else None
  | None => None
  end.

(** The stages that read the rendered lines, in order. *)
Definition bracket_stage (lines : list string) : option string :=
  first_some (header_date (join " " (firstn 50 lines))) bracket_patterns.

Definition written_stage (lines : list string) : option string :=
  first_some (header_date (join " " (firstn 50 lines))) written_date_patterns.

Definition standalone_stage (lines : list string) : option string :=
  first_some (fun line => first_some (standalone_date line) standalone_patterns)
             (firstn 30 lines).

Definition early_stage (lines : list string) : option string :=
  first_some (early_date lines) (enumerate_from 0 (firstn 20 lines)).

Definition html_stage (html_content : string) : option string :=
  first_some (html_date (strip_script_style html_content)) html_date_patterns.

Definition find_judgment_date_in_html (html_content : string) : option string :=
  match html_stage html_content with
  | Some d => Some d
  | None =>
      match extract_text_first_150_lines html_content with
      | [] => None
      | lines =>
          match bracket_stage lines with
          | Some d => Some d
          | None =>
              match written_stage lines with
              | Some d => Some d
              | None =>
                  match standalone_stage lines with
                  | Some d => Some d
                  | None => early_stage lines
                  end
              end
          end
      end
  end.

Definition extract_trial_date (fs : files) (html_path : string) : option string :=
  match fs html_path with
  | None => None
  | Some html_content => find_judgment_date_in_html html_content
  end.

Definition update_json_file (fs : files) (data : json) (law_finder_path : string)
  : outcome :=
  match data with
  | JObj kv =>
      if match dict_get "trialDate" kv with
         | Some v => truthy v
         | None => false
         end
      then skipped
      else
        match source_path_of_raw kv with
        | None => skipped
        | Some v =>
            if negb (truthy v) then skipped
            else
              match v with
              | JStr source_path =>
                  let html_path := path_join law_finder_path source_path in
                  match extract_trial_date fs html_path with
                  | Some date =>
                      if nonempty date
                      then {| written := Some (JObj (dict_set "trialDate"
                                                       (JStr date) kv));
                              updated := true |}
                      else skipped
                  | None => skipped
                  end
              | _ => skipped
              end
        end
  | _ => skipped
  end.

(** [update_json_file] on a record file; a file that does not load makes
    the call return [False]. *)
Definition update_file (fs : files) (content : option json)
  (law_finder_path : string) : outcome :=
  match content with
  | Some data => update_json_file fs data law_finder_path
  | None => skipped
  end.

(** The loop of [main]: the record files after it, and the numbers of
    calls that returned [True] and [False]. *)
Fixpoint process (fs : files) (law_finder_dir : string) (json_files : record_files)
  : record_files * (nat * nat) :=
  match json_files with
  | [] => ([], (0, 0))
  | (json_file, content) :: rest =>
      let o := update_file fs content law_finder_dir in
      let '(rest', (updated, failed)) := process fs law_finder_dir rest in
      ((json_file, file_after content o) :: rest',
       if outcome_updated o then (S updated, failed) else (updated, S failed))
  end.

(** [main]: nothing is done when either directory is missing. *)
Definition main (fs : files) (json_dir : option record_files)
  (law_finder_dir : option string) : option (record_files * report) :=
  match json_dir, law_finder_dir with
  | Some json_files, Some law =>
      let '(after, (updated, failed)) := process fs law json_files in
      Some (after, {| total := List.length json_files;
                      n_updated := updated; n_failed := failed |})
  | _, _ => None
  end.

End ExtractTrialDates.

(** ** [extract_case_titles.py] *)

Module ExtractCaseTitles.
Import Str Re Html.

Definition TextExtractor : BodyText.parser := BodyText.init 50.

Definition extract_plain_text_first_50_lines (html_content : string) : string :=
  join nl (BodyText.render 50 50 html_content).

Definition single_line_patterns : list string :=
  ["^([A-Z][A-Z\s&.,\'\-\d()]+(?:\s+&(?:\s+ANO?\.?)?)?(?:\s+&(?:\s+ORS?\.?)?)?(?:\s+ETC\.?)?)\s+v\.?\s+([A-Z][A-Z\s&.,\'\-\d()]+(?:\s+&(?:\s+ANO?\.?)?)?(?:\s+&(?:\s+ORS?\.?)?)?(?:\s+ETC\.?)?)(?:\s+\[.*?\])?";
   "^([A-Z][A-Z\s&.,\'\-\d()]+(?:\s+&(?:\s+ANO?\.?)?)?(?:\s+&(?:\s+ORS?\.?)?)?(?:\s+ETC\.?)?)\s+VRS\.?\s+([A-Z][A-Z\s&.,\'\-\d()]+(?:\s+&(?:\s+ANO?\.?)?)?(?:\s+&(?:\s+ORS?\.?)?)?(?:\s+ETC\.?)?)";
   "^(THE\s+REPUBLIC)\s+v\.?\s+([A-Z][A-Z\s&.,\'\-\d()]+(?:\s+&(?:\s+ANO?\.?)?)?(?:\s+&(?:\s+ORS?\.?)?)?(?:\s+ETC\.?)?)"].

(** The clean-up shared by the single-line and raw-HTML strategies
    after their own first step. *)
Definition strip_bracket (t : string) : string :=
  re_sub NOFLAGS "\s*\[.*?\]\s*$" (fun _ => "") t.

Definition strip_case_number (t : string) : string :=
  re_sub NOFLAGS "\s*H\d+/\d+/\d+.*?$" (fun _ => "") t.

Definition collapse (t : string) : string :=
  re_sub NOFLAGS "\s+" (fun _ => " ") t.

Definition long_enough (t : string) : bool := 10 <? String.length t.

(** One turn of the inner loop of strategy 1. *)
Definition single_line_title (line pattern : string) : option string :=
  match re_match IGNORECASE pattern line with
  | Some mo =>
      let title := strip (group0 mo) in
      let title := strip_bracket title in
      let title := strip_case_number title in
      let title := collapse title in
      let title := replace "&amp;" "&" title in
      if long_enough title && negb (contains "pages.gif" (lower title))
      then Some title
      else None
  | None => None
  end.

Definition plaintiff_words : list string :=
  ["PLAINTIFF"; "RESPONDENT"; "APPELLANT"; "CORAM"; "JUDGMENT"].

Definition defendant_words : list string :=
  ["DEFENDANT"; "RESPONDENT"; "APPELLANT"].

Definition party_pattern : string := "^([A-Z][A-Z\s&.,\'\-\d()]+)".

(** The separator written into a split title, chosen from the
    upper-cased middle line. *)
Definition v_word (line2 : string) : string :=
  if contains "V\." line2 || contains "V " line2 then "v."
  else if contains "VRS" line2 then "VRS"
  else "VERSUS".

(** One turn of the loop of strategy 2, at index [i]. *)
Definition split_title (lines : list string) (i : nat) : option string :=
  let line2 := upper (nth (i + 1) lines "") in
  match re_search NOFLAGS "\b(V\.?|VRS\.?|VERSUS)\b" line2 with
  | Some _ =>
      match re_match NOFLAGS party_pattern (nth i lines ""),
            re_match NOFLAGS party_pattern (nth (i + 2) lines "") with
      | Some pm, Some dm =>
          let plaintiff := collapse (strip (group 1 pm)) in
          let defendant := collapse (strip (group 1 dm)) in
          if any_in plaintiff_words (upper plaintiff) then None
          else if any_in defendant_words (upper defendant) then None
          else
            let title := plaintiff ++ " " ++ v_word line2 ++ " " ++ defendant in
            let title := replace "&amp;" "&" title in
            if long_enough title then Some title else None
      | _, _ => None
      end
  | None => None
  end.

Definition matter_pattern : string := "(IN\s+THE\s+MATTER\s+OF[^\.]+)".

Definition matter_title (lines : list string) : option string :=
  match re_search IGNORECASE matter_pattern (join " " (firstn 30 lines)) with
  | Some mo =>
      let title := collapse (strip (group 1 mo)) in
      if long_enough title then Some title else None
  | None => None
  end.

Definition text_lines (text : string) : list string :=
  map strip (filter (fun line => nonempty (strip line)) (split nl text)).

Definition single_line_stage (lines : list string) : option string :=
  first_some (fun line => first_some (single_line_title line) single_line_patterns)
             (firstn 30 lines).

Definition split_stage (lines : list string) : option string :=
  first_some (split_title lines) (seq 0 (Nat.min 20 (List.length lines - 2))).

Definition find_case_title_in_text (text : string) : option string :=
  let text := unescape text in
  let lines := text_lines text in
  match single_line_stage lines with
  | Some t => Some t
  | None =>
      match split_stage lines with
      | Some t => Some t
      | None => matter_title lines
      end
  end.

Definition html_patterns : list string :=
  ["([A-Z][A-Z\s&.,\'\-\d()]+(?:\s+&(?:\s+ANO?\.?)?)?(?:\s+&(?:\s+ORS?\.?)?)?)\s+v\.?\s+([A-Z][A-Z\s&.,\'\-\d()]+(?:\s+&(?:\s+ANO?\.?)?)?(?:\s+&(?:\s+ORS?\.?)?)?)";
   "([A-Z][A-Z\s&.,\'\-\d()]+(?:\s+&(?:\s+ANO?\.?)?)?(?:\s+&(?:\s+ORS?\.?)?)?)\s+VRS\.?\s+([A-Z][A-Z\s&.,\'\-\d()]+(?:\s+&(?:\s+ANO?\.?)?)?(?:\s+&(?:\s+ORS?\.?)?)?)";
   "(THE\s+REPUBLIC)\s+v\.?\s+([A-Z][A-Z\s&.,\'\-\d()]+(?:\s+&(?:\s+ANO?\.?)?)?(?:\s+&(?:\s+ORS?\.?)?)?)"].

(** The body of the loop over the matches of one raw-HTML pattern. *)
Definition html_title (mo : mobj) : option string :=
  let title := group0 mo in
  let title := re_sub NOFLAGS "<[^>]+>" (fun _ => "") title in
  let title := unescape title in
  let title := strip (collapse title) in
  let title := strip_bracket title in
  let title := strip_case_number title in
  let title := replace "&amp;" "&" title in
  if long_enough title && negb (contains "pages.gif" (lower title))
  then Some title
  else None.

Definition strip_script_style (html_content : string) : string :=
  let html_content :=
    re_sub DOTALL_IGNORECASE "<script[^>]*>.*?</script>" (fun _ => "")
           html_content in
  re_sub DOTALL_IGNORECASE "<style[^>]*>.*?</style>" (fun _ => "") html_content.

Definition extract_title_from_html (html_content : string) : option string :=
  let html_content := strip_script_style html_content in
  let html_snippet := take 5000 html_content in
  first_some (fun pattern =>
                first_some html_title (re_finditer IGNORECASE pattern html_snippet))
             html_patterns.

Definition prefixes : list string :=
  ["COURT OF APPEAL__"; "SUPREME COURT__"; "WACA__"; "WALR__"].

(** The last part that is non-empty, not a number, does not begin with
    20 and is not TEMP. *)
Definition meaningful (part : string) : bool :=
  nonempty part && negb (isdigit part) && negb (startswith "20" part)
  && negb (String.eqb part "TEMP").

Definition last_meaningful (parts : list string) : option string :=
  find meaningful (List.rev parts).

(** One turn of the loop over [prefixes]. *)
Definition drop_prefix (base prefix : string) : string :=
  if startswith prefix base then
    let base := drop (String.length prefix) base in
    let parts := split "__" base in
    if 1 <? List.length parts
    then match last_meaningful parts with
         | Some part => part
         | None => base
         end
    else base
  else base.

Definition extract_title_from_filename (filename : string) : option string :=
  let base := basename filename in
  let base := replace ".json" "" base in
  let base := fold_left drop_prefix prefixes base in
  let base := replace "__" " " base in
  let base := collapse base in
  if long_enough base && negb (String.eqb base "pages.gif")
  then Some (strip base)
  else None.

(** [if title and title != 'pages.gif': return title] *)
Definition usable (title : option string) : option string :=
  match title with
  | Some t =>
      if nonempty t && negb (String.eqb t "pages.gif") then Some t else None
  | None => None
  end.

Definition extract_case_title (fs : files) (html_path json_filename : string)
  : option string :=
  let from_document :=
    match fs html_path with
    | Some html_content =>
        let plain_text := extract_plain_text_first_50_lines html_content in
        match (if nonempty plain_text
               then usable (find_case_title_in_text plain_text)
               else None) with
        | Some t => Some t
        | None => usable (extract_title_from_html html_content)
        end
    | None => None
    end in
  match from_document with
  | Some t => Some t
  | None => usable (extract_title_from_filename json_filename)
  end.

Definition update_json_file (fs : files) (data : json)
  (json_path law_finder_path : string) : outcome :=
  match data with
  | JObj kv =>
      if match dict_get "caseTitle" kv with
         | Some v => truthy v && negb (match v with
                                       | JStr s => String.eqb s "pages.gif"
                                       | _ => false
                                       end)
         | None => false
         end
      then skipped
      else
        let store title :=
          {| written := Some (JObj (dict_set "caseTitle" (JStr title) kv));
             updated := true |} in
        match source_path_of_raw kv with
        | None => skipped
        | Some v =>
            if negb (truthy v) then
              match extract_title_from_filename json_path with
              | Some title => if nonempty title then store title else skipped
              | None => skipped
              end
            else
              match v with
              | JStr source_path =>
                  let html_path := path_join law_finder_path source_path in
                  match extract_case_title fs html_path json_path with
                  | Some title =>
                      if nonempty title then store title else skipped
                  | None => skipped
                  end
              | _ => skipped
              end
        end
  | _ => skipped
  end.

(** [update_json_file] on a record file; a file that does not load makes
    the call return [False]. *)
Definition update_file (fs : files) (json_file : string)
  (content : option json) (law_finder_path : string) : outcome :=
  match content with
  | Some data => update_json_file fs data json_file law_finder_path
  | None => skipped
  end.

(** The loop of [main]: the record files after it, and the numbers of
    calls that returned [True] and [False]. *)
Fixpoint process (fs : files) (law_finder_dir : string) (json_files : record_files)
  : record_files * (nat * nat) :=
  match json_files with
  | [] => ([], (0, 0))
  | (json_file, content) :: rest =>
      let o := update_file fs json_file content law_finder_dir in
      let '(rest', (updated, failed)) := process fs law_finder_dir rest in
      ((json_file, file_after content o) :: rest',
       if outcome_updated o then (S updated, failed) else (updated, S failed))
  end.

(** [main]: nothing is done when either directory is missing. *)
Definition main (fs : files) (json_dir : option record_files)
  (law_finder_dir : option string) : option (record_files * report) :=
  match json_dir, law_finder_dir with
  | Some json_files, Some law =>
      let '(after, (updated, failed)) := process fs law json_files in
      Some (after, {| total := List.length json_files;
                      n_updated := updated; n_failed := failed |})
  | _, _ => None
  end.

End ExtractCaseTitles.

(** * Notions used to state the properties *)

Module ReNotions.
Import Str Re.

(** Where group 1 begins when the pattern is a run of literal
    characters and start anchors followed by the group. *)
Fixpoint group1_offset (r : re) : option nat :=
  match r with
  | Grp 1 _ => Some 0
  | Cat Bol b => group1_offset b
  | Cat (Chr _) b => option_map S (group1_offset b)
  | _ => None
  end.

(** The pattern lies in the syntax the matcher reads. *)
Definition parses (pat : string) : bool :=
  match parse pat with
  | Some _ => true
  | None => false
  end.

End ReNotions.

Module DateNotions.
Import Str Re Datetime ExtractTrialDates.

(** The shape YYYY-MM-DD. *)
Definition canonical (s : string) : bool :=
  match s with
  | String y1 (String y2 (String y3 (String y4 (String h1
      (String m1 (String m2 (String h2 (String d1 (String d2 EmptyString))))))))) =>
      all_s is_digit (String y1 (String y2 (String y3 (String y4
                       (String m1 (String m2 (String d1 (String d2 EmptyString))))))))
      && Ascii.eqb h1 "-"%char && Ascii.eqb h2 "-"%char
  | _ => false
  end.

(** A date of the calendar. *)
Definition calendar (dt : date) : Prop :=
  valid (year dt) (month dt) (day dt) = true.

(** What none of the date formats could read. *)
Definition unparsed (t : string) : Prop :=
  first_some (try_format (strip t)) date_formats = None.

(** The calendar date [dt] is read from the text [t]: one of the date
    formats has a pattern that matches in [t], and the fields of [dt] are
    what [strptime] reads in the cleaned match, or, for the slash-numeric
    format, the numbers of the three groups with the first group as the
    day or as the month. *)
Definition read_from (t : string) (dt : date) : Prop :=
  exists pattern fmt mo,
    In (pattern, fmt) date_formats
    /\ re_search IGNORECASE pattern t = Some mo
    /\ calendar dt
    /\ match fmt with
       | Some f => strptime (strip (clean_written (group0 mo))) f = Some dt
       | None =>
           exists a b y,
             int (group 1 mo) = Some a /\ int (group 2 mo) = Some b
             /\ int (group 3 mo) = Some y
             /\ (dt = mk_date y b a \/ dt = mk_date y a b)
       end.

(** How [parse_date_from_text] turns a matched text [t] into the value
    [v] that a stage returns: as the date read from [t], written in
    canonical form, or, when no format reads [t], as [t] itself with the
    whitespace at its ends removed. *)
Definition text_reading (t v : string) : Prop :=
  (exists dt, read_from (strip t) dt /\ v = strftime dt /\ canonical v = true)
  \/ (unparsed t /\ v = strip t).

(** The month a month name stands for on the split-tag path. *)
Definition month_of (name : string) : option Z :=
  option_map month
    (strptime (map_get (upper name) month_map (title name)) "%B").

(** [dt] is a date of the calendar whose day, month and year are the
    three groups of a match of a split-tag pattern in the document cleaned
    of scripts and styles. *)
Definition split_tag_date (html_content : string) (dt : date) : Prop :=
  exists p mo,
    In p html_date_patterns /\ ngroups p = 3
    /\ re_search IGNORECASE p (strip_script_style html_content) = Some mo
    /\ calendar dt
    /\ int (group 1 mo) = Some (day dt)
    /\ month_of (group 2 mo) = Some (month dt)
    /\ int (group 3 mo) = Some (year dt).

(** [t] is a text matched in the document by a pattern of one of the
    stages that hand their match to [parse_date_from_text]: the
    underlined-date pattern in the cleaned document, a bracket or written
    pattern in the first 50 rendered lines joined by blanks, a standalone
    pattern at the start of one of the first 30 rendered lines, or the
    slash-numeric pattern in one of the first 20. *)
Definition matched_text (html_content t : string) : Prop :=
  (exists p mo,
      In p html_date_patterns /\ ngroups p <> 3
      /\ re_search IGNORECASE p (strip_script_style html_content) = Some mo
      /\ t = group 1 mo)
  \/ (exists p mo,
         In p (bracket_patterns ++ written_date_patterns)%list
         /\ re_search IGNORECASE p
              (join " " (firstn 50 (extract_text_first_150_lines html_content)))
            = Some mo
         /\ t = group 1 mo)
  \/ (exists line p mo,
         In line (firstn 30 (extract_text_first_150_lines html_content))
         /\ In p standalone_patterns
         /\ re_match IGNORECASE p line = Some mo
         /\ t = group 1 mo)
  \/ (exists line mo,
         In line (firstn 20 (extract_text_first_150_lines html_content))
         /\ re_search NOFLAGS early_date_pattern line = Some mo
         /\ t = group 1 mo).

(** No pattern of any stage matches anything in the document. *)
Definition no_match (html_content : string) : Prop :=
  (forall p, In p html_date_patterns ->
     re_search IGNORECASE p (strip_script_style html_content) = None)
  /\ (forall p, In p (bracket_patterns ++ written_date_patterns)%list ->
        re_search IGNORECASE p
          (join " " (firstn 50 (extract_text_first_150_lines html_content)))
        = None)
  /\ (forall line p,
        In line (firstn 30 (extract_text_first_150_lines html_content)) ->
        In p standalone_patterns ->
        re_match IGNORECASE p line = None)
  /\ (forall line,
        In line (firstn 20 (extract_text_first_150_lines html_content)) ->
        re_search NOFLAGS early_date_pattern line = None).

(** The formats tried before the slash-numeric one. *)
Definition written_formats : list (string * option string) :=
  firstn 3 date_formats.

Definition slash_pattern : string := "(\d{1,2})/(\d{1,2})/(\d{4})".

(** A document whose only date stands in the middle of a sentence. *)
Definition travel_doc : string :=
  "<html><body><p>He travelled from Accra on 5 March 2004.</p></body></html>".

(** The written-date patterns that begin with an anchor. *)
Definition anchored_patterns : list string := firstn 3 written_date_patterns.

End DateNotions.

Module RenderNotions.
Import Str Re Html.

(** A call of [handle_starttag] for a body element. *)
Definition body_start (e : event) : bool :=
  match e with
  | StartTag t => String.eqb (lower t) "body"
  | _ => false
  end.

(** A body whose first element is a script. *)
Definition script_doc : string :=
  "<html><body><script>var d = '[01/02/2003]';</script><p>Hello</p></body></html>".

End RenderNotions.

Module TitleNotions.
Import Str Re Html ExtractCaseTitles.

Definition no_files : files := fun _ => None.

(** The clean-up of the single-line strategy, applied to the text
    matched. *)
Definition single_line_cleanup (matched : string) : string :=
  replace "&amp;" "&"
          (collapse (strip_case_number (strip_bracket (strip matched)))).

(** The clean-up of the raw-HTML strategy, applied to the text matched. *)
Definition html_cleanup (matched : string) : string :=
  replace "&amp;" "&"
    (strip_case_number
       (strip_bracket
          (strip (collapse
                    (unescape (re_sub NOFLAGS "<[^>]+>" (fun _ => "") matched)))))).

(** What the strategies with the full acceptance rule return for the
    text [matched] by their pattern: its clean-up, of more than 10
    characters and without the sentinel. *)
Definition fully_accepted (cleanup : string -> string) (matched t : string)
  : Prop :=
  t = cleanup matched
  /\ 10 < String.length t
  /\ lower t <> "pages.gif"
  /\ contains "pages.gif" (lower t) = false.

(** A header that is an in-the-matter-of caption followed by a
    bracketed year. *)
Definition matter_doc : string :=
  "<html><body><p>IN THE MATTER OF JOHN DOE [2004]</p></body></html>".

(** The party fragments of the triple at [i]: the text the party pattern
    matches at the start of the first and of the third line, stripped and
    with whitespace collapsed. *)
Definition fragment (line : string) : option string :=
  option_map (fun mo => collapse (strip (group 1 mo)))
             (re_match NOFLAGS party_pattern line).

End TitleNotions.

Module RecordNotions.
Import Str.

(** The field of a record is vacant: the record has no such key, or the
    value under it is false in Python's sense (null, empty, zero), or it
    is the sentinel. *)
Definition vacant (field : string) (data : json) : Prop :=
  forall kv, data = JObj kv ->
    dict_get field kv = None
    \/ exists v, dict_get field kv = Some v
                 /\ (truthy v = false \/ v = JStr "pages.gif").

(** The field holds a value that is neither empty nor the sentinel. *)
Definition settled (field : string) (data : json) : Prop :=
  exists kv v,
    data = JObj kv /\ dict_get field kv = Some v
    /\ truthy v = true /\ v <> JStr "pages.gif".

(** A record with a title, and a document that would give another. *)
Definition titled_record : json :=
  JObj [("caseTitle", JStr "ADJEI v. MENSAH");
        ("metadata", JObj [("sourcePath", JStr "sc/doe.htm")])].

Definition one_file : files :=
  fun path =>
    if String.eqb path "LAW FINDER/sc/doe.htm"
    then Some "<html><body><p>JOHN DOE v. JANE ROE</p></body></html>"
    else None.

End RecordNotions.

Module ExtraNotions.
Import Str Html.

(** The string does not begin with whitespace. *)
Definition no_lead (s : string) : Prop :=
  match s with
  | String c _ => is_space c = false
  | EmptyString => True
  end.

(** A line as the renderers keep them: not empty, and with no whitespace
    at either end. *)
Definition trimmed (l : string) : Prop := l <> "" /\ strip l = l.

(** A line of the text some [handle_data] call of the parse received. *)
Definition data_line (evs : list event) (raw : string) : Prop :=
  exists d, In (Data d) evs /\ In raw (split nl d).

(** A line kept from the events [evs]: trimmed, and the stripped form of
    a line of text handed to [handle_data]. *)
Definition kept (evs : list event) (l : string) : Prop :=
  trimmed l /\ exists raw, data_line evs raw /\ l = strip raw.

(** What the handlers keep true of a parser: the counter is the number
    of lines held, it stays within the cap, and every line held is kept
    from the events seen so far. *)
Definition sound (evs : list event) (p : BodyText.parser) : Prop :=
  BodyText.line_count p = List.length (BodyText.text p)
  /\ BodyText.line_count p <= BodyText.max_lines p
  /\ forall l, In l (BodyText.text p) -> kept evs l.

(** The shape of a record file rewritten for [field]: the old record
    with a non-empty string [value] under [field], every other key with
    the value it had, and the keys in the order they had, a new key
    last. *)
Definition rewritten (field value : string) (data data' : json) : Prop :=
  exists kv,
    data = JObj kv
    /\ data' = JObj (dict_set field (JStr value) kv)
    /\ value <> ""
    /\ dict_get field (dict_set field (JStr value) kv) = Some (JStr value)
    /\ (forall k, k <> field ->
          dict_get k (dict_set field (JStr value) kv) = dict_get k kv)
    /\ map fst (dict_set field (JStr value) kv)
       = if existsb (String.eqb field) (map fst kv) then map fst kv
         else (map fst kv ++ [field])%list.

(** A document with a title line and a bracketed date, and two records
    that name it. *)
Definition dated_file : files :=
  fun path =>
    if String.eqb path "LAW FINDER/sc/doe.htm"
    then Some "<html><body><p>JOHN DOE v. JANE ROE [26/03/2004]</p></body></html>"
    else None.

Definition undated_record : json :=
  JObj [("caseTitle", JStr "DOE v. ROE");
        ("metadata", JObj [("sourcePath", JStr "sc/doe.htm")])].

Definition untitled_record : json :=
  JObj [("caseTitle", JStr "pages.gif");
        ("metadata", JObj [("sourcePath", JStr "sc/doe.htm")])].

End ExtraNotions.

(** * Properties *)

(** ** Loops that return *)

Lemma first_some_found {A B : Type} (f : A -> option B) (l : list A) (y : B) :
  first_some f l = Some y -> exists x, In x l /\ f x = Some y.
Proof.
  induction l as [|a l IH]; simpl; [discriminate|].
  destruct (f a) eqn:Ha.
  - intros E; injection E as <-. exists a; auto.
  - intros E. destruct (IH E) as (x & Hin & Hx). exists x; auto.
Qed.

Lemma first_some_none {A B : Type} (f : A -> option B) (l : list A) :
  first_some f l = None -> forall x, In x l -> f x = None.
Proof.
  induction l as [|a l IH]; simpl; [tauto|].
  destruct (f a) eqn:Ha; [discriminate|].
  intros E x [<-|Hin]; auto.
Qed.

Lemma first_some_all_none {A B : Type} (f : A -> option B) (l : list A) :
  (forall x, In x l -> f x = None) -> first_some f l = None.
Proof.
  induction l as [|a l IH]; simpl; [reflexivity|].
  intros H. rewrite (H a) by auto. apply IH; auto.
Qed.

(** ** Strings *)

Module StrFacts.
Import Str ExtraNotions.

Lemma append_nil_r (s : string) : (s ++ "")%string = s.
Proof. induction s as [|c s IH]; cbn [String.append]; congruence. Qed.

Lemma append_assoc (a b c : string) :
  ((a ++ b) ++ c)%string = (a ++ (b ++ c))%string.
Proof. induction a as [|x a IH]; cbn [String.append]; congruence. Qed.

Lemma rev_acc_append (s acc : string) :
  rev_acc s acc = (rev s ++ acc)%string.
Proof.
  unfold rev. revert acc.
  induction s as [|c s IH]; intros acc; cbn [rev_acc]; [reflexivity|].
  rewrite IH, (IH (String c "")), append_assoc. reflexivity.
Qed.

Lemma rev_cons (c : ascii) (s : string) :
  rev (String c s) = (rev s ++ String c "")%string.
Proof. unfold rev at 1. cbn [rev_acc]. apply rev_acc_append. Qed.

Lemma rev_append (a b : string) :
  rev (a ++ b) = (rev b ++ rev a)%string.
Proof.
  induction a as [|c a IH]; cbn [String.append].
  - rewrite append_nil_r. reflexivity.
  - rewrite !rev_cons, IH, append_assoc. reflexivity.
Qed.

Lemma rev_involutive (s : string) : rev (rev s) = s.
Proof.
  induction s as [|c s IH]; [reflexivity|].
  rewrite rev_cons, rev_append, IH. reflexivity.
Qed.

Lemma lstrip_no_lead (s : string) : no_lead (lstrip s).
Proof.
  induction s as [|c s IH]; cbn [lstrip]; [exact I|].
  destruct (is_space c) eqn:E; [exact IH|exact E].
Qed.

Lemma no_lead_lstrip (s : string) : no_lead s -> lstrip s = s.
Proof.
  destruct s as [|c s]; [reflexivity|]. cbn [no_lead lstrip]. intros ->.
  reflexivity.
Qed.

Lemma lstrip_idempotent (s : string) : lstrip (lstrip s) = lstrip s.
Proof. apply no_lead_lstrip, lstrip_no_lead. Qed.

(** Stripping on the left keeps a last character that is not
    whitespace. *)
Lemma lstrip_keeps_last (a : string) (c : ascii) :
  is_space c = false ->
  exists w, lstrip (a ++ String c "") = (w ++ String c "")%string.
Proof.
  intros Hc. induction a as [|x a IH]; cbn [String.append lstrip].
  - rewrite Hc. exists ""%string. reflexivity.
  - destruct (is_space x); [exact IH|].
    exists (String x a). reflexivity.
Qed.

Lemma rstrip_no_lead (s : string) : no_lead s -> no_lead (rstrip s).
Proof.
  destruct s as [|c s]; [intros _; exact I|].
  cbn [no_lead]. intros Hc. unfold rstrip. rewrite rev_cons.
  destruct (lstrip_keeps_last (rev s) c Hc) as (w & ->).
  rewrite rev_append. cbn [String.append]. exact Hc.
Qed.

(** [strip] leaves a stripped string as it is. *)
Lemma strip_idempotent (s : string) : strip (strip s) = strip s.
Proof.
  unfold strip.
  rewrite (no_lead_lstrip (rstrip (lstrip s)))
    by (apply rstrip_no_lead, lstrip_no_lead).
  unfold rstrip. rewrite rev_involutive, lstrip_idempotent. reflexivity.
Qed.

Lemma nonempty_true (s : string) : nonempty s = true -> s <> "".
Proof.
  unfold nonempty. intros H E. subst s. discriminate H.
Qed.

Lemma nonempty_false (s : string) : nonempty s = false -> s = "".
Proof.
  unfold nonempty. destruct s; [reflexivity|discriminate].
Qed.

Lemma startswith_contains (sub s : string) :
  startswith sub s = true -> contains sub s = true.
Proof. destruct s; cbn [contains]; intros ->; reflexivity. Qed.

Lemma contains_cons (sub : string) (c : ascii) (s : string) :
  contains sub s = true -> contains sub (String c s) = true.
Proof. intros H. cbn [contains]. rewrite H. apply orb_true_r. Qed.

Lemma in_firstn {A : Type} (n : nat) (l : list A) (x : A) :
  In x (firstn n l) -> In x l.
Proof.
  intros H. rewrite <- (firstn_skipn n l). apply in_or_app. left; exact H.
Qed.

End StrFacts.

(** ** The matcher *)

Module ReFacts.
Import Str Re ReNotions.

Lemma step_char_through (ok : ascii -> bool) (st : mstate)
  (k : mstate -> option mstate) (x : mstate) :
  step_char ok st k = Some x -> exists st', k st' = Some x.
Proof.
  unfold step_char. destruct (rest st) as [|c r]; [discriminate|].
  destruct (ok c); [|discriminate]. eauto.
Qed.

Lemma rep_loop_through
  (body : mstate -> (mstate -> option mstate) -> option mstate)
  (greedy : bool) (lo : nat) (hi : option nat) (k : mstate -> option mstate)
  (x : mstate) :
  (forall st k' y, body st k' = Some y -> exists st', k' st' = Some y) ->
  forall fuel i st,
    rep_loop body greedy lo hi k fuel i st = Some x ->
    exists st', k st' = Some x.
Proof.
  intros Hbody.
  induction fuel as [|f IHf]; intros i st; cbn [rep_loop]; [discriminate|].
  assert (More : (if below i hi
                  then body st (fun st' =>
                         if pos st' =? pos st then None
                         else rep_loop body greedy lo hi k f (S i) st')
                  else None) = Some x -> exists st', k st' = Some x).
  { destruct (below i hi); [|discriminate].
    intros H. apply Hbody in H. destruct H as (st' & H).
    destruct (pos st' =? pos st); [discriminate|].
    eapply IHf; eauto. }
  assert (Stop : (if lo <=? i then k st else None) = Some x ->
                 exists st', k st' = Some x).
  { destruct (lo <=? i); [eauto|discriminate]. }
  cbv zeta. unfold orelse. cbv beta.
  set (A := if below i hi then _ else None) in *.
  set (B := if lo <=? i then k st else None) in *.
  clearbody A B.
  destruct greedy; [destruct A | destruct B]; auto.
Qed.

(** A successful match has gone through its continuation. *)
Lemma m_through (fl : flags) (r : re) :
  forall st k x, m fl r st k = Some x -> exists st', k st' = Some x.
Proof.
  induction r as [| c | | neg items | a IHa b IHb | a IHa b IHb
                 | greedy lo hi a IHa | n a IHa | | | |
                 | neg a IHa | neg a IHa ];
    intros st k x; cbn [m].
  - eauto.
  - apply step_char_through.
  - apply step_char_through.
  - apply step_char_through.
  - intros H. apply IHa in H. destruct H as (st' & H). eapply IHb; eauto.
  - unfold orelse. destruct (m fl a st k) eqn:E.
    + intros H; injection H as <-. eapply IHa; eauto.
    + apply IHb.
  - apply rep_loop_through. exact IHa.
  - intros H. apply IHa in H. destruct H as (st' & H). eauto.
  - destruct (pos st =? 0); [eauto|discriminate].
  - destruct (rest st) as [|c [|c' r']]; [eauto| |discriminate].
    destruct (Ascii.eqb c (ascii_of_nat 10)); [eauto|discriminate].
  - destruct (xorb _ _); [eauto|discriminate].
  - discriminate.
  - destruct (m fl a st Some); destruct neg; eauto; discriminate.
  - cbv zeta. destruct (xorb _ _); [eauto|discriminate].
Qed.

Lemma try_at_src (fl : flags) (r : re) (src : string) (p : option ascii)
  (s : string) (i : nat) (mo : mobj) (st : mstate) :
  try_at fl r src p s i = Some (mo, st) -> m_src mo = src /\ m_start mo = i.
Proof.
  unfold try_at. destruct (m fl r _ Some); [|discriminate].
  intros E; injection E as <- _. auto.
Qed.

Lemma search_from_src (fl : flags) (r : re) (src : string) :
  forall s p i mo, search_from fl r src p s i = Some mo -> m_src mo = src.
Proof.
  induction s as [|c s IH]; intros p i mo; cbn [search_from].
  - destruct (try_at fl r src p "" i) as [[mo' st]|] eqn:E; [|discriminate].
    intros H; injection H as <-. eapply try_at_src; eauto.
  - destruct (try_at fl r src p (String c s) i) as [[mo' st]|] eqn:E.
    + intros H; injection H as <-. eapply try_at_src; eauto.
    + apply IH.
Qed.

(** The text searched is the text the match object refers to. *)
Lemma re_search_src (fl : flags) (pat s : string) (mo : mobj) :
  re_search fl pat s = Some mo -> m_src mo = s.
Proof. apply search_from_src. Qed.

Lemma re_match_src (fl : flags) (pat s : string) (mo : mobj) :
  re_match fl pat s = Some mo -> m_src mo = s /\ m_start mo = 0.
Proof.
  unfold re_match.
  destruct (try_at fl (compile pat) s None s 0) as [[mo' st]|] eqn:E;
    [|discriminate].
  cbn [option_map fst]. intros H; injection H as <-. eapply try_at_src; eauto.
Qed.

(** A group is a span of the text. *)
Lemma group_span (n : nat) (mo : mobj) :
  exists i j, group n mo = slice i j (m_src mo).
Proof.
  unfold group. destruct (cap_of n (m_caps mo)) as [[i j]|].
  - exists i, j; reflexivity.
  - exists 0, 0. reflexivity.
Qed.

Lemma group1_begins (fl : flags) (r : re) :
  forall w st x,
    group1_offset r = Some w ->
    m fl r st Some = Some x ->
    exists j, cap_of 1 (caps x) = Some (pos st + w, j).
Proof.
  induction r as [| c | | neg items | a IHa b IHb | a IHa b IHb
                 | greedy lo hi a IHa | n a IHa | | | |
                 | neg a IHa | neg a IHa ];
    intros w st x; cbn [group1_offset]; try discriminate.
  - destruct a; try discriminate.
    + destruct (group1_offset b) as [w'|] eqn:Eb; [|discriminate].
      cbn [option_map]. intros Hw; injection Hw as <-.
      cbn [m]. unfold step_char.
      destruct (rest st) as [|y r']; [discriminate|].
      destruct (char_eq fl c y); [|discriminate].
      intros H. apply (IHb w') in H; [|reflexivity].
      destruct H as (j & H). exists j. rewrite H. cbn [pos].
      f_equal. f_equal. lia.
    + intros Hw. cbn [m]. destruct (pos st =? 0); [|discriminate].
      apply IHb; exact Hw.
  - destruct n as [|[|n]]; try discriminate.
    intros Hw; injection Hw as <-. cbn [m]. intros H.
    apply m_through in H. destruct H as (st' & H). injection H as <-.
    exists (pos st'). unfold set_cap; cbn [caps cap_of Nat.eqb].
    rewrite Nat.add_0_r. reflexivity.
Qed.

(** Group 1 of a match of such a pattern from the start of a text. *)
Lemma re_match_group1 (fl : flags) (pat s : string) (mo : mobj) (w : nat) :
  group1_offset (compile pat) = Some w ->
  re_match fl pat s = Some mo ->
  exists j, group 1 mo = slice w j s.
Proof.
  intros Hw. unfold re_match, try_at.
  destruct (m fl (compile pat) _ Some) as [x|] eqn:E; [|discriminate].
  cbn [option_map fst]. intros H; injection H as <-.
  apply (group1_begins _ _ _ _ _ Hw) in E. destruct E as (j & E).
  exists j. unfold group. cbn [m_caps m_src pos] in *. rewrite E. reflexivity.
Qed.

End ReFacts.

(** ** The patterns of the source *)

Module PatternFacts.
Import Str Re ReNotions.

(** Every pattern of the two scripts lies in the syntax the matcher
    reads, so none is compiled to the pattern that matches nothing. *)
Lemma source_patterns_parse :
  forallb parses
    (map fst ExtractTrialDates.date_formats
     ++ ExtractTrialDates.html_date_patterns
     ++ ExtractTrialDates.bracket_patterns
     ++ ExtractTrialDates.written_date_patterns
     ++ ExtractTrialDates.standalone_patterns
     ++ [ExtractTrialDates.early_date_pattern;
         "(\d+)(st|nd|rd|th)";
         "<script[^>]*>.*?</script>"; "<style[^>]*>.*?</style>"]
     ++ ExtractCaseTitles.single_line_patterns
     ++ ExtractCaseTitles.html_patterns
     ++ [ExtractCaseTitles.party_pattern; ExtractCaseTitles.matter_pattern;
         "\b(V\.?|VRS\.?|VERSUS)\b"; "\s*\[.*?\]\s*$";
         "\s*H\d+/\d+/\d+.*?$"; "\s+"; "<[^>]+>"])%list
  = true.
Proof. vm_compute; reflexivity. Qed.

(** So does every pattern of the parser and of [html.unescape]. *)
Lemma library_patterns_parse :
  forallb parses
    [Html.charref; Html.tagfind_tolerant; Html.attrfind_tolerant;
     Html.locatestarttagend_tolerant; Html.endtagfind; Html.declname;
     "<[a-zA-Z]"; "--\s*>"; "]\s*]\s*>"; "]\s*>";
     "</\s*script\s*>"; "</\s*style\s*>"]
  = true.
Proof. vm_compute; reflexivity. Qed.

End PatternFacts.

(** ** Calendar dates and their canonical form *)

Module DateFacts.
Import Str Re Datetime ExtractTrialDates DateNotions.

Lemma digit_is_digit (n : Z) : is_digit (digit n) = true.
Proof.
  unfold digit, is_digit, code, between.
  assert (H : (0 <= n mod 10 < 10)%Z) by (apply Z.mod_pos_bound; lia).
  rewrite nat_ascii_embedding by lia.
  apply andb_true_iff; split; apply Nat.leb_le; lia.
Qed.

(** From the year 1000 on the text of a date has the canonical shape. *)
Lemma strftime_canonical (dt : date) :
  (1000 <= year dt)%Z -> canonical (strftime dt) = true.
Proof.
  intros H. unfold strftime, year_text.
  destruct (year dt <? 10)%Z eqn:E1; [apply Z.ltb_lt in E1; lia|].
  destruct (year dt <? 100)%Z eqn:E2; [apply Z.ltb_lt in E2; lia|].
  destruct (year dt <? 1000)%Z eqn:E3; [apply Z.ltb_lt in E3; lia|].
  unfold pad4, pad2.
  cbn [String.append canonical all_s].
  rewrite !digit_is_digit. reflexivity.
Qed.

(** Before the year 1000 it has fewer than ten characters. *)
Lemma strftime_short (dt : date) :
  (year dt < 1000)%Z -> String.length (strftime dt) < 10.
Proof.
  intros H. unfold strftime, year_text.
  destruct (year dt <? 10)%Z; [cbn; lia|].
  destruct (year dt <? 100)%Z; [cbn; lia|].
  destruct (year dt <? 1000)%Z eqn:E3; [cbn; lia|].
  apply Z.ltb_ge in E3. lia.
Qed.

Lemma strftime_long_canonical (dt : date) :
  10 <= String.length (strftime dt) -> canonical (strftime dt) = true.
Proof.
  intros L. apply strftime_canonical.
  destruct (Z.lt_ge_cases (year dt) 1000) as [H|H]; [|exact H].
  apply strftime_short in H. lia.
Qed.

Lemma datetime_calendar (y m d : Z) (dt : date) :
  datetime y m d = Some dt -> calendar dt /\ dt = mk_date y m d.
Proof.
  unfold datetime, calendar. destruct (valid y m d) eqn:V; [|discriminate].
  intros E; injection E as <-. simpl; auto.
Qed.

Lemma strptime_calendar (data fmt : string) (dt : date) :
  strptime data fmt = Some dt -> calendar dt.
Proof.
  unfold strptime.
  destruct (format_re fmt) as [[pat ds]|]; [|discriminate].
  destruct (re_match IGNORECASE pat data) as [mo|]; [|discriminate].
  destruct (m_end mo =? String.length data); [|discriminate].
  destruct (fields ds 1 mo (1900, 1, 1)%Z) as [[[y m] d]|]; [|discriminate].
  intros E. apply datetime_calendar in E. tauto.
Qed.

Lemma ymd_inv (y m d r : string) :
  ymd y m d = Some r ->
  exists y' m' d',
    int y = Some y' /\ int m = Some m' /\ int d = Some d'
    /\ calendar (mk_date y' m' d') /\ r = strftime (mk_date y' m' d').
Proof.
  unfold ymd.
  destruct (int y) as [y'|]; [|discriminate].
  destruct (int m) as [m'|]; [|discriminate].
  destruct (int d) as [d'|]; [|discriminate].
  destruct (datetime y' m' d') as [dt|] eqn:E; [|discriminate].
  cbn [option_map]. intros H; injection H as <-.
  apply datetime_calendar in E. destruct E as (C & ->).
  exists y', m', d'. auto 10.
Qed.

(** A format that answers has read a date of the calendar in the text. *)
Lemma try_format_reads (s : string) (pf : string * option string) (r : string) :
  In pf date_formats ->
  try_format s pf = Some r ->
  exists dt, read_from s dt /\ r = strftime dt.
Proof.
  destruct pf as [pattern fmt]. intros Hin. unfold try_format.
  destruct (re_search IGNORECASE pattern s) as [mo|] eqn:Es; [|discriminate].
  destruct fmt as [f|].
  - destruct (strptime _ f) as [dt|] eqn:E; [|discriminate].
    cbn [option_map]. intros H; injection H as <-.
    exists dt. split; [|reflexivity].
    exists pattern, (Some f), mo.
    split; [exact Hin|]. split; [exact Es|].
    split; [eapply strptime_calendar; eauto | exact E].
  - unfold slash_date.
    destruct (ymd (group 3 mo) (group 2 mo) (group 1 mo)) as [r1|] eqn:E.
    + intros H; injection H as <-.
      apply ymd_inv in E. destruct E as (y & b & a & Hy & Hb & Ha & C & ->).
      exists (mk_date y b a). split; [|reflexivity].
      exists pattern, None, mo.
      split; [exact Hin|]. split; [exact Es|]. split; [exact C|].
      exists a, b, y. auto 10.
    + intros E2.
      apply ymd_inv in E2. destruct E2 as (y & a & b & Hy & Ha & Hb & C & ->).
      exists (mk_date y a b). split; [|reflexivity].
      exists pattern, None, mo.
      split; [exact Hin|]. split; [exact Es|]. split; [exact C|].
      exists a, b, y. auto 10.
Qed.

Lemma parse_date_cases (t : string) :
  (exists dt, read_from (strip t) dt /\ parse_date_from_text t = strftime dt)
  \/ (unparsed t /\ parse_date_from_text t = strip (strip t)).
Proof.
  unfold parse_date_from_text, unparsed.
  destruct (first_some (try_format (strip t)) date_formats) as [r|] eqn:E.
  - left. apply first_some_found in E. destruct E as (pf & Hin & Hpf).
    eapply try_format_reads; eauto.
  - right; auto.
Qed.

Lemma accept_inv (parsed v : string) :
  accept parsed = Some v -> v = parsed /\ 10 <= String.length v.
Proof.
  unfold accept.
  destruct (nonempty parsed && (10 <=? String.length parsed)) eqn:C;
    [|discriminate].
  intros E; injection E as <-. split; [reflexivity|].
  apply andb_true_iff in C. destruct C as [_ L]. apply Nat.leb_le; exact L.
Qed.

(** What a stage returns for a matched text: at least ten characters,
    read from the text or the text itself. *)
Lemma accept_parse_reading (t v : string) :
  accept (parse_date_from_text t) = Some v ->
  10 <= String.length v /\ text_reading t v.
Proof.
  intros H. apply accept_inv in H. destruct H as [-> L].
  split; [exact L|].
  destruct (parse_date_cases t) as [(dt & R & E)|[U E]].
  - left. exists dt. split; [exact R|]. split; [exact E|].
    rewrite E in L |- *. apply strftime_long_canonical; exact L.
  - right. split; [exact U|]. rewrite E. apply StrFacts.strip_idempotent.
Qed.

Lemma superscript_date_inv (d m y v : string) :
  superscript_date d m y = Some v ->
  exists dt,
    calendar dt /\ int d = Some (day dt) /\ month_of m = Some (month dt)
    /\ int y = Some (year dt) /\ v = strftime dt.
Proof.
  unfold superscript_date, month_of.
  destruct (int y) as [y'|]; [|discriminate].
  destruct (strptime _ "%B") as [mdt|]; [|discriminate].
  destruct (int d) as [d'|]; [|discriminate].
  destruct (datetime y' (month mdt) d') as [dt|] eqn:E; [|discriminate].
  cbn [option_map]. intros H; injection H as <-.
  apply datetime_calendar in E. destruct E as (C & ->).
  exists (mk_date y' (month mdt) d'). cbn [day month year]. auto 10.
Qed.

(** What the loop over the raw-HTML patterns returns. *)
Lemma html_date_inv (html_content p v : string) :
  In p html_date_patterns ->
  html_date (strip_script_style html_content) p = Some v ->
  (exists dt, split_tag_date html_content dt /\ v = strftime dt)
  \/ (exists t, matched_text html_content t
                /\ 10 <= String.length v /\ text_reading t v).
Proof.
  intros Hin. unfold html_date.
  destruct (re_search IGNORECASE p (strip_script_style html_content))
    as [mo|] eqn:Es; [|discriminate].
  destruct (ngroups p =? 3) eqn:G.
  - apply Nat.eqb_eq in G. intros H. left.
    apply superscript_date_inv in H.
    destruct H as (dt & C & Hd & Hm & Hy & ->).
    exists dt. split; [|reflexivity].
    exists p, mo. auto 10.
  - apply Nat.eqb_neq in G. intros H. right.
    exists (group 1 mo). split.
    + left. exists p, mo. auto.
    + apply accept_parse_reading; exact H.
Qed.

Lemma in_enumerate_from {A : Type} (l : list A) :
  forall k i x, In (i, x) (enumerate_from k l) -> In x l.
Proof.
  induction l as [|a l IH]; intros k i x; cbn [enumerate_from In];
    [contradiction|].
  intros [E|H]; [injection E as _ <-; left; reflexivity|].
  right. eapply IH; eauto.
Qed.

End DateFacts.

(** ** The date extractor *)

Module DateClaims.
Import Str Re Datetime ExtractTrialDates DateNotions DateFacts.

(** C1, as stated, fails: a bracketed slash-numeric date that is no
    calendar date in either order, 31/02/2004, is returned as it was
    matched, and that text is not of the form YYYY-MM-DD. *)
Lemma unparsed_date_is_returned :
  find_judgment_date_in_html "<html><body><p>[31/02/2004]</p></body></html>"
    = Some "31/02/2004"
  /\ canonical "31/02/2004" = false.
Proof. split; vm_compute; reflexivity. Qed.

(** C1, amended: whenever [find_judgment_date_in_html] returns a value,
    the value comes from text a stage pattern matched in the document.
    Either it is the date whose day, month and year are the groups of a
    split-tag match, written by [strftime] (in canonical YYYY-MM-DD form
    from the year 1000 on); or it has at least 10 characters and is what
    [parse_date_from_text] makes of a matched text: the canonical form of
    the calendar date a date format reads in it, or, when every format
    fails, the matched text itself with the whitespace at its ends
    removed.  And when no stage pattern matches anything in the document,
    no value is returned. *)
Theorem returned_date_is_read_from_matched_text (html_content : string) :
  (forall v,
      find_judgment_date_in_html html_content = Some v ->
      (exists dt,
          split_tag_date html_content dt /\ v = strftime dt
          /\ ((1000 <= year dt)%Z -> canonical v = true))
      \/ (exists t,
             matched_text html_content t
             /\ 10 <= String.length v
             /\ ((exists dt,
                     read_from (strip t) dt /\ v = strftime dt
                     /\ canonical v = true)
                 \/ (unparsed t /\ v = strip t))))
  /\ (no_match html_content ->
      find_judgment_date_in_html html_content = None).
Proof.
  split.
  - intros v. unfold find_judgment_date_in_html.
    destruct (html_stage html_content) as [d|] eqn:H1.
    { intros E; injection E as <-. unfold html_stage in H1.
      apply first_some_found in H1. destruct H1 as (p & Hin & Hp).
      apply html_date_inv in Hp; [|exact Hin].
      destruct Hp as [(dt & S & ->)|R]; [left|right; exact R].
      exists dt. split; [exact S|]. split; [reflexivity|].
      apply strftime_canonical. }
    destruct (extract_text_first_150_lines html_content) as [|l0 ls] eqn:EL;
      [discriminate|].
    rewrite <- EL.
    assert (Found : forall t, matched_text html_content t ->
                    accept (parse_date_from_text t) = Some v ->
                    (exists dt,
                        split_tag_date html_content dt /\ v = strftime dt
                        /\ ((1000 <= year dt)%Z -> canonical v = true))
                    \/ (exists t,
                           matched_text html_content t
                           /\ 10 <= String.length v /\ text_reading t v)).
    { intros t M A. right. exists t. split; [exact M|].
      apply accept_parse_reading; exact A. }
    destruct (bracket_stage _) as [d|] eqn:H2.
    { intros E; injection E as <-. unfold bracket_stage, header_date in H2.
      apply first_some_found in H2. destruct H2 as (p & Hin & Hp).
      destruct (re_search IGNORECASE p _) as [mo|] eqn:Es; [|discriminate].
      apply (Found (group 1 mo)); [|exact Hp].
      right; left. exists p, mo. split; [apply in_or_app; left; exact Hin|].
      auto. }
    destruct (written_stage _) as [d|] eqn:H3.
    { intros E; injection E as <-. unfold written_stage, header_date in H3.
      apply first_some_found in H3. destruct H3 as (p & Hin & Hp).
      destruct (re_search IGNORECASE p _) as [mo|] eqn:Es; [|discriminate].
      apply (Found (group 1 mo)); [|exact Hp].
      right; left. exists p, mo. split; [apply in_or_app; right; exact Hin|].
      auto. }
    destruct (standalone_stage _) as [d|] eqn:H4.
    { intros E; injection E as <-. unfold standalone_stage in H4.
      apply first_some_found in H4. destruct H4 as (line & Hline & Hl).
      apply first_some_found in Hl. destruct Hl as (p & Hin & Hp).
      unfold standalone_date in Hp.
      destruct (re_match IGNORECASE p line) as [mo|] eqn:Em; [|discriminate].
      destruct (any_in connectors (upper line)); [discriminate|].
      apply (Found (group 1 mo)); [|exact Hp].
      right; right; left. exists line, p, mo. auto. }
    intros H5. unfold early_stage in H5.
    apply first_some_found in H5. destruct H5 as ([i line] & Hil & Hp).
    apply in_enumerate_from in Hil.
    unfold early_date in Hp.
    destruct (re_search NOFLAGS early_date_pattern line) as [mo|] eqn:Es;
      [|discriminate].
    destruct (any_in case_tokens _); [|discriminate].
    apply (Found (group 1 mo)); [|exact Hp].
    right; right; right. exists line, mo. auto.
  - intros (N1 & N2 & N3 & N4). unfold find_judgment_date_in_html.
    assert (H1 : html_stage html_content = None).
    { unfold html_stage. apply first_some_all_none. intros p Hin.
      unfold html_date. rewrite (N1 p Hin). reflexivity. }
    rewrite H1.
    assert (H2 : bracket_stage (extract_text_first_150_lines html_content) = None).
    { unfold bracket_stage. apply first_some_all_none. intros p Hin.
      unfold header_date.
      rewrite (N2 p) by (apply in_or_app; left; exact Hin). reflexivity. }
    assert (H3 : written_stage (extract_text_first_150_lines html_content) = None).
    { unfold written_stage. apply first_some_all_none. intros p Hin.
      unfold header_date.
      rewrite (N2 p) by (apply in_or_app; right; exact Hin). reflexivity. }
    assert (H4 : standalone_stage (extract_text_first_150_lines html_content)
                 = None).
    { unfold standalone_stage. apply first_some_all_none. intros line Hl.
      apply first_some_all_none. intros p Hin.
      unfold standalone_date. rewrite (N3 line p Hl Hin). reflexivity. }
    assert (H5 : early_stage (extract_text_first_150_lines html_content) = None).
    { unfold early_stage. apply first_some_all_none. intros [i line] Hil.
      apply in_enumerate_from in Hil.
      unfold early_date. rewrite (N4 line Hil). reflexivity. }
    destruct (extract_text_first_150_lines html_content) as [|l0 ls];
      [reflexivity|].
    rewrite H2, H3, H4. exact H5.
Qed.

Lemma returned_date_is_read_from_matched_text_witness :
  (exists dt,
      split_tag_date "<html><body><p>DOE v. ROE [26/03/2004]</p></body></html>" dt
      /\ "2004-03-26" = strftime dt
      /\ ((1000 <= year dt)%Z -> canonical "2004-03-26" = true))
  \/ (exists t,
         matched_text
           "<html><body><p>DOE v. ROE [26/03/2004]</p></body></html>" t
         /\ 10 <= String.length "2004-03-26"
         /\ ((exists dt,
                 read_from (strip t) dt /\ "2004-03-26" = strftime dt
                 /\ canonical "2004-03-26" = true)
             \/ (unparsed t /\ "2004-03-26" = strip t))).
Proof.
  apply (proj1 (returned_date_is_read_from_matched_text
                  "<html><body><p>DOE v. ROE [26/03/2004]</p></body></html>")).
  vm_compute; reflexivity.
Defined.

(** A document without a date: no stage pattern matches in it, and no
    value is returned for it. *)
Example plain_document_has_no_match :
  no_match "<html><body><p>Hello</p></body></html>"
  /\ find_judgment_date_in_html "<html><body><p>Hello</p></body></html>"
     = None.
Proof.
  split; [|vm_compute; reflexivity].
  assert (L : extract_text_first_150_lines
                "<html><body><p>Hello</p></body></html>" = ["Hello"])
    by (vm_compute; reflexivity).
  unfold no_match. rewrite L. repeat apply conj.
  - intros p Hp. unfold html_date_patterns in Hp. cbn [In] in Hp.
    repeat (destruct Hp as [<-|Hp]; [vm_compute; reflexivity|]).
    destruct Hp.
  - intros p Hp.
    unfold bracket_patterns, written_date_patterns in Hp.
    cbn [In app] in Hp.
    repeat (destruct Hp as [<-|Hp]; [vm_compute; reflexivity|]).
    destruct Hp.
  - intros line p Hl Hp. cbn [firstn In] in Hl. destruct Hl as [<-|[]].
    unfold standalone_patterns in Hp. cbn [In] in Hp.
    repeat (destruct Hp as [<-|Hp]; [vm_compute; reflexivity|]).
    destruct Hp.
  - intros line Hl. cbn [firstn In] in Hl. destruct Hl as [<-|[]].
    vm_compute; reflexivity.
Qed.

(** C5: a text that reaches the slash-numeric format, matched there as
    D1/D2/YYYY, is read as day D1 of month D2 when that is a date of the
    calendar, and as month D1, day D2 only when it is not; so 03/04/2004
    is the third of April and 13/04/2004 the thirteenth of April. *)
Theorem slash_numeric_day_first :
  (forall (t : string) (mo : mobj) (a b y : Z),
      (forall pf, In pf written_formats -> try_format (strip t) pf = None) ->
      re_search IGNORECASE slash_pattern (strip t) = Some mo ->
      int (group 1 mo) = Some a ->
      int (group 2 mo) = Some b ->
      int (group 3 mo) = Some y ->
      (valid y b a = true ->
       parse_date_from_text t = strftime (mk_date y b a))
      /\ (valid y b a = false -> valid y a b = true ->
          parse_date_from_text t = strftime (mk_date y a b)))
  /\ parse_date_from_text "03/04/2004" = "2004-04-03"
  /\ parse_date_from_text "13/04/2004" = "2004-04-13".
Proof.
  split; [|split; vm_compute; reflexivity].
  intros t mo a b y Hw Hs Ha Hb Hy.
  assert (E : first_some (try_format (strip t)) date_formats
              = match slash_date (group 1 mo) (group 2 mo) (group 3 mo) with
                | Some r => Some r
                | None => first_some (try_format (strip t))
                                     (skipn 4 date_formats)
                end).
  { unfold date_formats. cbn [first_some skipn].
    rewrite !Hw by (unfold written_formats, date_formats; cbn [firstn In]; auto).
    unfold try_format at 1. fold slash_pattern. rewrite Hs. reflexivity. }
  unfold parse_date_from_text. rewrite E.
  unfold slash_date, ymd. rewrite Ha, Hb, Hy. unfold datetime.
  split.
  - intros V. rewrite V. reflexivity.
  - intros V1 V2. rewrite V1, V2. reflexivity.
Qed.

Lemma slash_numeric_day_first_witness :
  parse_date_from_text "03/04/2004" = strftime (mk_date 2004 4 3).
Proof.
  assert (S : exists mo,
             re_search IGNORECASE slash_pattern (strip "03/04/2004") = Some mo
             /\ int (group 1 mo) = Some 3%Z
             /\ int (group 2 mo) = Some 4%Z
             /\ int (group 3 mo) = Some 2004%Z).
  { eexists. split; [vm_compute; reflexivity|].
    repeat split; vm_compute; reflexivity. }
  destruct S as (mo & Hs & Ha & Hb & Hy).
  refine (proj1 (proj1 slash_numeric_day_first "03/04/2004" mo 3%Z 4%Z 2004%Z
                   _ Hs Ha Hb Hy) _).
  - intros pf [<-|[<-|[<-|[]]]]; vm_compute; reflexivity.
  - vm_compute; reflexivity.
Defined.

(** C6, as stated, fails: the date of [travel_doc] is returned from the
    rendered text although no anchor pattern matches the header, the
    date does not begin its line and the line holds the connectors FROM
    and ON. *)
Lemma unanchored_written_date_is_returned :
  find_judgment_date_in_html travel_doc = Some "2004-03-05"
  /\ html_stage travel_doc = None
  /\ extract_text_first_150_lines travel_doc
       = ["He travelled from Accra on 5 March 2004."]
  /\ bracket_stage (extract_text_first_150_lines travel_doc) = None
  /\ first_some (fun p => re_search IGNORECASE p
                            "He travelled from Accra on 5 March 2004.")
                anchored_patterns = None
  /\ standalone_stage (extract_text_first_150_lines travel_doc) = None
  /\ any_in connectors (upper "He travelled from Accra on 5 March 2004.") = true.
Proof. repeat split; vm_compute; reflexivity. Qed.

(** C6, amended: a date returned from the rendered text after the
    bracketed stage found none is the reading of a span of the first 50
    rendered lines joined by blanks that one of the four written-date
    patterns matched (three of them after an anchor, the fourth with no
    anchor at all), or of a span matched by a standalone pattern on one of
    the first 30 rendered lines that holds no connector word, the span
    beginning at the first character of the line or right after a
    three-character underline tag, or it comes from the slash-numeric
    stage. *)
Theorem rendered_date_provenance (html_content v : string) :
  html_stage html_content = None ->
  bracket_stage (extract_text_first_150_lines html_content) = None ->
  find_judgment_date_in_html html_content = Some v ->
  (exists p mo i j,
      In p written_date_patterns
      /\ re_search IGNORECASE p
           (join " " (firstn 50 (extract_text_first_150_lines html_content)))
         = Some mo
      /\ group 1 mo
         = slice i j
             (join " " (firstn 50 (extract_text_first_150_lines html_content)))
      /\ accept (parse_date_from_text (group 1 mo)) = Some v)
  \/ (exists line p mo w j,
         In line (firstn 30 (extract_text_first_150_lines html_content))
         /\ any_in connectors (upper line) = false
         /\ In p standalone_patterns
         /\ re_match IGNORECASE p line = Some mo
         /\ group 1 mo = slice w j line
         /\ (w = 0 \/ w = 3)
         /\ accept (parse_date_from_text (group 1 mo)) = Some v)
  \/ early_stage (extract_text_first_150_lines html_content) = Some v.
Proof.
  intros H1 H2. unfold find_judgment_date_in_html. rewrite H1.
  destruct (extract_text_first_150_lines html_content) as [|l0 ls];
    [discriminate|].
  set (lines := l0 :: ls) in *. rewrite H2.
  destruct (written_stage lines) as [d|] eqn:H3.
  { intros E; injection E as <-. left. unfold written_stage in H3.
    apply first_some_found in H3. destruct H3 as (p & Hin & Hp).
    unfold header_date in Hp.
    destruct (re_search IGNORECASE p _) as [mo|] eqn:Es; [|discriminate].
    destruct (ReFacts.group_span 1 mo) as (i & j & Hg).
    rewrite (ReFacts.re_search_src _ _ _ _ Es) in Hg.
    exists p, mo, i, j. auto. }
  destruct (standalone_stage lines) as [d|] eqn:H4.
  { intros E; injection E as <-. right; left. unfold standalone_stage in H4.
    apply first_some_found in H4. destruct H4 as (line & Hline & Hl).
    apply first_some_found in Hl. destruct Hl as (p & Hin & Hp).
    unfold standalone_date in Hp.
    destruct (re_match IGNORECASE p line) as [mo|] eqn:Em; [|discriminate].
    destruct (any_in connectors (upper line)) eqn:Ec; [discriminate|].
    assert (Hoff : exists w, (w = 0 \/ w = 3)
                             /\ ReNotions.group1_offset (compile p) = Some w).
    { destruct Hin as [<-|[<-|[<-|[]]]];
        [exists 0 | exists 0 | exists 3]; split; auto;
        vm_compute; reflexivity. }
    destruct Hoff as (w & Hw & Hoff).
    destruct (ReFacts.re_match_group1 _ _ _ _ _ Hoff Em) as (j & Hg).
    exists line, p, mo, w, j. auto 10. }
  intros H5. right; right. exact H5.
Qed.

Lemma rendered_date_provenance_witness :
  exists p mo i j,
    In p written_date_patterns
    /\ re_search IGNORECASE p
         (join " " (firstn 50 (extract_text_first_150_lines travel_doc)))
       = Some mo
    /\ group 1 mo
       = slice i j
           (join " " (firstn 50 (extract_text_first_150_lines travel_doc)))
    /\ accept (parse_date_from_text (group 1 mo)) = Some "2004-03-05".
Proof.
  destruct (rendered_date_provenance travel_doc "2004-03-05") as [H|[H|H]].
  - vm_compute; reflexivity.
  - vm_compute; reflexivity.
  - vm_compute; reflexivity.
  - exact H.
  - exfalso. destruct H as (line & p & mo & w & j & Hl & Hc & _).
    assert (L : firstn 30 (extract_text_first_150_lines travel_doc)
                = ["He travelled from Accra on 5 March 2004."])
      by (vm_compute; reflexivity).
    rewrite L in Hl. destruct Hl as [<-|[]].
    vm_compute in Hc. discriminate Hc.
  - exfalso. vm_compute in H. discriminate H.
Defined.

End DateClaims.

(** ** The renderer *)

Module RenderClaims.
Import Str Re Html BodyText RenderNotions.

Lemma handle_endtag_text (p : parser) (t : string) :
  text (handle_endtag p t) = text p
  /\ (in_body p = false -> in_body (handle_endtag p t) = false).
Proof.
  unfold handle_endtag. destruct (String.eqb (lower t) "body"); auto.
Qed.

Lemma handle_data_outside (p : parser) (d : string) :
  in_body p = false -> handle_data p d = p.
Proof. unfold handle_data. intros ->. reflexivity. Qed.

(** Without a body start tag the parser never enters the body and keeps
    no line. *)
Lemma run_outside_body (evs : list event) :
  forall p p',
    in_body p = false ->
    existsb body_start evs = false ->
    run p evs = Some p' ->
    text p' = text p.
Proof.
  induction evs as [|e evs IH]; intros p p' Hout Hno; cbn [run].
  - intros E; injection E as <-. reflexivity.
  - cbn [existsb] in Hno. apply orb_false_iff in Hno. destruct Hno as [He Hno].
    destruct e as [t|t|d|]; cbn [body_start] in He.
    + unfold handle_starttag. rewrite He. apply IH; assumption.
    + intros E. destruct (handle_endtag_text p t) as [Ht Hb].
      rewrite <- Ht. apply IH with (p := handle_endtag p t); auto.
    + rewrite handle_data_outside by assumption. apply IH; assumption.
    + discriminate.
Qed.

Lemma render_without_body (cap n : nat) (html_content : string) :
  existsb body_start (feed html_content) = false ->
  render cap n html_content = [].
Proof.
  intros Hno. unfold render.
  destruct (run (init cap) (feed html_content)) as [p|] eqn:E; [|reflexivity].
  apply run_outside_body in E; auto.
  rewrite E. cbn [init text]. apply firstn_nil.
Qed.

(** C4 fails on the code: the text of a script element inside the body
    is handed to [handle_data] like any other text and becomes a rendered
    line of both renderers, while the raw-HTML strategies of the same
    files remove script and style elements first; the date extractor then
    returns the date written in the script. *)
Lemma script_text_is_rendered :
  ExtractTrialDates.extract_text_first_150_lines script_doc
    = ["var d = '[01/02/2003]';"; "Hello"]
  /\ ExtractCaseTitles.extract_plain_text_first_50_lines script_doc
     = join nl ["var d = '[01/02/2003]';"; "Hello"]
  /\ ExtractTrialDates.strip_script_style script_doc
     = "<html><body><p>Hello</p></body></html>"
  /\ ExtractTrialDates.find_judgment_date_in_html script_doc
     = Some "2003-02-01".
Proof. repeat split; vm_compute; reflexivity. Qed.

(** C10: a document whose parse has no body start tag renders to no
    line, in both renderers; its date can then only come from the raw-HTML
    patterns, and its title only from the raw-HTML strategy or, failing
    that, the file name. *)
Theorem no_body_no_rendered_text (html_content : string) :
  existsb body_start (feed html_content) = false ->
  ExtractTrialDates.extract_text_first_150_lines html_content = []
  /\ ExtractCaseTitles.extract_plain_text_first_50_lines html_content = ""
  /\ ExtractTrialDates.find_judgment_date_in_html html_content
     = ExtractTrialDates.html_stage html_content
  /\ forall (fs : files) (html_path json_filename : string),
       fs html_path = Some html_content ->
       ExtractCaseTitles.extract_case_title fs html_path json_filename
       = match ExtractCaseTitles.usable
                 (ExtractCaseTitles.extract_title_from_html html_content) with
         | Some t => Some t
         | None =>
             ExtractCaseTitles.usable
               (ExtractCaseTitles.extract_title_from_filename json_filename)
         end.
Proof.
  intros Hno.
  assert (D : ExtractTrialDates.extract_text_first_150_lines html_content = [])
    by (apply render_without_body; exact Hno).
  assert (T : ExtractCaseTitles.extract_plain_text_first_50_lines html_content = "").
  { unfold ExtractCaseTitles.extract_plain_text_first_50_lines.
    rewrite render_without_body by exact Hno. reflexivity. }
  repeat split; auto.
  - unfold ExtractTrialDates.find_judgment_date_in_html. rewrite D.
    destruct (ExtractTrialDates.html_stage html_content); reflexivity.
  - intros fs html_path json_filename Hfs.
    unfold ExtractCaseTitles.extract_case_title. rewrite Hfs, T.
    reflexivity.
Qed.

Lemma no_body_no_rendered_text_witness :
  ExtractTrialDates.extract_text_first_150_lines
    "<html><p>DOE v. ROE</p><p>[26/03/2004]</p></html>" = [].
Proof.
  apply (no_body_no_rendered_text
           "<html><p>DOE v. ROE</p><p>[26/03/2004]</p></html>").
  vm_compute; reflexivity.
Defined.

End RenderClaims.

(** ** The title extractor *)

Module TitleClaims.
Import Str Re Html ExtractCaseTitles TitleNotions.

(** C3 fails on the code: the file-name fallback measures the name
    before it strips it.  With no document on disk, the record file
    [SMITH__JONE__.json] gives the eleven characters [SMITH JONE ], which
    pass the length test, and the title returned is the ten characters
    [SMITH JONE]. *)
Lemma filename_title_of_ten_characters :
  extract_case_title no_files "LAW FINDER/absent.htm"
                     "law-finder-json/SMITH__JONE__.json"
    = Some "SMITH JONE"
  /\ String.length "SMITH JONE" = 10.
Proof. split; vm_compute; reflexivity. Qed.

Lemma length_map_s (f : ascii -> ascii) (s : string) :
  String.length (map_s f s) = String.length s.
Proof. induction s as [|c s IH]; cbn [map_s String.length]; congruence. Qed.

Lemma long_enough_not_sentinel (t : string) :
  long_enough t = true ->
  10 < String.length t /\ lower t <> "pages.gif".
Proof.
  unfold long_enough. intros H. apply Nat.ltb_lt in H. split; [exact H|].
  intros E. assert (L : String.length (lower t) = 9) by (rewrite E; reflexivity).
  unfold lower in L. rewrite length_map_s in L. lia.
Qed.

Lemma single_line_title_accepted (line pattern t : string) :
  single_line_title line pattern = Some t ->
  exists mo,
    re_match IGNORECASE pattern line = Some mo
    /\ fully_accepted single_line_cleanup (group0 mo) t.
Proof.
  unfold single_line_title.
  destruct (re_match IGNORECASE pattern line) as [mo|]; [|discriminate].
  fold (single_line_cleanup (group0 mo)).
  destruct (long_enough _ && negb _) eqn:C; [|discriminate].
  intros E; injection E as <-.
  apply andb_true_iff in C. destruct C as [L N].
  apply negb_true_iff in N.
  destruct (long_enough_not_sentinel _ L) as [L1 L2].
  exists mo. split; [reflexivity|]. repeat split; auto.
Qed.

Lemma html_title_accepted (mo : mobj) (t : string) :
  html_title mo = Some t -> fully_accepted html_cleanup (group0 mo) t.
Proof.
  unfold html_title. fold (html_cleanup (group0 mo)).
  destruct (long_enough _ && negb _) eqn:C; [|discriminate].
  intros E; injection E as <-.
  apply andb_true_iff in C. destruct C as [L N].
  apply negb_true_iff in N.
  destruct (long_enough_not_sentinel _ L) as [L1 L2].
  repeat split; auto.
Qed.

Lemma split_title_long (lines : list string) (i : nat) (t : string) :
  split_title lines i = Some t -> long_enough t = true.
Proof.
  unfold split_title.
  destruct (re_search NOFLAGS _ _); [|discriminate].
  destruct (re_match NOFLAGS party_pattern (nth i lines ""));
    [|discriminate].
  destruct (re_match NOFLAGS party_pattern (nth (i + 2) lines ""));
    [|discriminate].
  destruct (any_in plaintiff_words _); [discriminate|].
  destruct (any_in defendant_words _); [discriminate|].
  destruct (long_enough _) eqn:L; [|discriminate].
  intros E; injection E as <-. exact L.
Qed.

Lemma matter_title_long (lines : list string) (t : string) :
  matter_title lines = Some t -> long_enough t = true.
Proof.
  unfold matter_title.
  destruct (re_search IGNORECASE matter_pattern _); [|discriminate].
  destruct (long_enough _) eqn:L; [|discriminate].
  intros E; injection E as <-. exact L.
Qed.

(** C7 fails on the code: the acceptance rule is not applied after
    every strategy.  The in-the-matter-of strategy returns its candidate
    with the trailing bracketed suffix still in place, where the
    single-line strategy of the same function strips it from its own
    candidate. *)
Lemma matter_title_keeps_bracket_suffix :
  extract_case_title (fun _ => Some matter_doc) "LAW FINDER/doe.htm" "doe.json"
    = Some "IN THE MATTER OF JOHN DOE [2004]"
  /\ matter_title ["IN THE MATTER OF JOHN DOE [2004]"]
     = Some "IN THE MATTER OF JOHN DOE [2004]"
  /\ strip_bracket "IN THE MATTER OF JOHN DOE [2004]"
     = "IN THE MATTER OF JOHN DOE"
  /\ find_case_title_in_text "JOHN DOE v. JANE ROE [2004]"
     = Some "JOHN DOE v. JANE ROE".
Proof. repeat split; vm_compute; reflexivity. Qed.

(** What the strategies do apply: a title of the single-line or
    raw-HTML strategy is the full clean-up of the text its pattern matched
    (trailing bracketed suffix and case-number suffix stripped, whitespace
    collapsed, entity replaced), has more than 10 characters and does not
    contain the sentinel; a title of the split-line or in-the-matter-of
    strategy has more than 10 characters. *)
Lemma strategy_titles (lines : list string) (html_content t : string) :
  (single_line_stage lines = Some t ->
   exists line pattern mo,
     In line (firstn 30 lines) /\ In pattern single_line_patterns
     /\ re_match IGNORECASE pattern line = Some mo
     /\ fully_accepted single_line_cleanup (group0 mo) t)
  /\ (extract_title_from_html html_content = Some t ->
      exists pattern mo,
        In pattern html_patterns
        /\ In mo (re_finditer IGNORECASE pattern
                    (take 5000 (strip_script_style html_content)))
        /\ fully_accepted html_cleanup (group0 mo) t)
  /\ (split_stage lines = Some t ->
      10 < String.length t /\ lower t <> "pages.gif")
  /\ (matter_title lines = Some t ->
      10 < String.length t /\ lower t <> "pages.gif").
Proof.
  repeat apply conj.
  - unfold single_line_stage. intros H.
    apply first_some_found in H. destruct H as (line & Hl & H).
    apply first_some_found in H. destruct H as (p & Hp & H).
    apply single_line_title_accepted in H. destruct H as (mo & Hm & A).
    exists line, p, mo. auto.
  - unfold extract_title_from_html. intros H.
    apply first_some_found in H. destruct H as (p & Hp & H).
    apply first_some_found in H. destruct H as (mo & Hm & H).
    apply html_title_accepted in H. exists p, mo. auto.
  - unfold split_stage. intros H.
    apply first_some_found in H. destruct H as (i & _ & H).
    apply long_enough_not_sentinel. eapply split_title_long; eauto.
  - intros H. apply long_enough_not_sentinel. eapply matter_title_long; eauto.
Qed.

(** C8, as stated, fails: a defendant fragment containing CORAM does
    not reject the triple. *)
Lemma defendant_with_coram_is_accepted :
  split_title ["JOHN DOE"; "VRS"; "JANE ROE CORAM"] 0
    = Some "JOHN DOE VRS JANE ROE CORAM"
  /\ contains "CORAM" "JANE ROE CORAM" = true
  /\ find_case_title_in_text (join nl ["JOHN DOE"; "VRS"; "JANE ROE CORAM"])
     = Some "JOHN DOE VRS JANE ROE CORAM".
Proof. repeat split; vm_compute; reflexivity. Qed.

(** C8, amended: in the split-line strategy a triple is rejected
    whenever the plaintiff fragment contains one of PLAINTIFF, RESPONDENT,
    APPELLANT, CORAM, JUDGMENT, or the defendant fragment contains one of
    DEFENDANT, RESPONDENT, APPELLANT. *)
Theorem scaffolding_triple_is_rejected (lines : list string) (i : nat)
  (plaintiff defendant word : string) :
  fragment (nth i lines "") = Some plaintiff ->
  fragment (nth (i + 2) lines "") = Some defendant ->
  (In word ["PLAINTIFF"; "RESPONDENT"; "APPELLANT"; "CORAM"; "JUDGMENT"]
   /\ contains word (upper plaintiff) = true)
  \/ (In word ["DEFENDANT"; "RESPONDENT"; "APPELLANT"]
      /\ contains word (upper defendant) = true) ->
  split_title lines i = None.
Proof.
  unfold fragment, split_title. intros Hp Hd Hw.
  destruct (re_search NOFLAGS _ _); [|reflexivity].
  destruct (re_match NOFLAGS party_pattern (nth i lines "")) as [pm|];
    [|discriminate].
  destruct (re_match NOFLAGS party_pattern (nth (i + 2) lines "")) as [dm|];
    [|discriminate].
  cbn [option_map] in Hp, Hd. injection Hp as Hp. injection Hd as Hd.
  rewrite Hp, Hd.
  destruct Hw as [[Hin Hc]|[Hin Hc]].
  - assert (A : any_in plaintiff_words (upper plaintiff) = true).
    { unfold any_in. apply existsb_exists. exists word. split; [exact Hin|exact Hc]. }
    rewrite A. reflexivity.
  - assert (A : any_in defendant_words (upper defendant) = true).
    { unfold any_in. apply existsb_exists. exists word. split; [exact Hin|exact Hc]. }
    rewrite A. destruct (any_in plaintiff_words (upper plaintiff)); reflexivity.
Qed.

Lemma scaffolding_triple_is_rejected_witness :
  split_title ["JOHN DOE"; "VRS"; "THE RESPONDENT"] 0 = None.
Proof.
  apply (scaffolding_triple_is_rejected
           ["JOHN DOE"; "VRS"; "THE RESPONDENT"] 0
           "JOHN DOE" "THE RESPONDENT" "RESPONDENT").
  - vm_compute; reflexivity.
  - vm_compute; reflexivity.
  - right. split; [cbn [In]; auto | vm_compute; reflexivity].
Defined.

(** C9 fails on the code: the test for the token [v.] looks for the
    three characters V, backslash, full stop in the upper-cased middle
    line, which a line reading [v.] does not contain, so the separator
    written is VERSUS; the lines JOHN DOE, VRS, JANE ROE do give
    JOHN DOE VRS JANE ROE. *)
Lemma v_dot_becomes_versus :
  find_case_title_in_text (join nl ["JOHN DOE"; "v."; "JANE ROE"])
    = Some "JOHN DOE VERSUS JANE ROE"
  /\ v_word (upper "v.") = "VERSUS"
  /\ find_case_title_in_text (join nl ["JOHN DOE"; "VRS"; "JANE ROE"])
     = Some "JOHN DOE VRS JANE ROE".
Proof. repeat split; vm_compute; reflexivity. Qed.

End TitleClaims.

(** ** The record updaters *)

Module RecordClaims.
Import Str RecordNotions.

Lemma not_sentinel_test (v : json) :
  v <> JStr "pages.gif" ->
  match v with
  | JStr s => String.eqb s "pages.gif"
  | _ => false
  end = false.
Proof.
  destruct v as [| b | n | s | l | kv]; try reflexivity.
  intros H. destruct (String.eqb s "pages.gif") eqn:E; [|reflexivity].
  apply String.eqb_eq in E. subst s. contradiction H; reflexivity.
Qed.

Lemma title_update_settled (fs : files) (data : json)
  (json_path law_finder_path : string) :
  settled "caseTitle" data ->
  ExtractCaseTitles.update_json_file fs data json_path law_finder_path = skipped.
Proof.
  intros (kv & v & -> & Hget & Ht & Hs).
  unfold ExtractCaseTitles.update_json_file.
  rewrite Hget, Ht, (not_sentinel_test v Hs). reflexivity.
Qed.

Lemma date_update_settled (fs : files) (data : json)
  (law_finder_path : string) :
  settled "trialDate" data ->
  ExtractTrialDates.update_json_file fs data law_finder_path = skipped.
Proof.
  intros (kv & v & -> & Hget & Ht & Hs).
  unfold ExtractTrialDates.update_json_file.
  rewrite Hget, Ht. reflexivity.
Qed.

Lemma title_update_vacant (fs : files) (data : json)
  (json_path law_finder_path : string) :
  written (ExtractCaseTitles.update_json_file fs data json_path law_finder_path)
    <> None ->
  vacant "caseTitle" data.
Proof.
  intros W kv ->. unfold ExtractCaseTitles.update_json_file in W.
  destruct (dict_get "caseTitle" kv) as [v|]; [|left; reflexivity].
  right. exists v. split; [reflexivity|].
  destruct (truthy v); [|left; reflexivity].
  destruct v as [| b | n | s | l | kv']; cbn [andb negb] in W;
    try (exfalso; apply W; reflexivity).
  destruct (String.eqb s "pages.gif") eqn:E.
  - apply String.eqb_eq in E. subst s. right; reflexivity.
  - exfalso; apply W; reflexivity.
Qed.

Lemma date_update_vacant (fs : files) (data : json)
  (law_finder_path : string) :
  written (ExtractTrialDates.update_json_file fs data law_finder_path) <> None ->
  vacant "trialDate" data.
Proof.
  intros W kv ->. unfold ExtractTrialDates.update_json_file in W.
  destruct (dict_get "trialDate" kv) as [v|]; [|left; reflexivity].
  right. exists v. split; [reflexivity|].
  destruct (truthy v); [|left; reflexivity].
  exfalso; apply W; reflexivity.
Qed.

(** C2: either updater rewrites the record only if the field it
    targets is vacant; on a record whose field holds a value that is
    neither empty nor the sentinel it writes nothing and returns false. *)
Theorem update_never_overwrites (fs : files) (data : json)
  (json_path law_finder_path : string) :
  (written (ExtractCaseTitles.update_json_file fs data json_path law_finder_path)
     <> None -> vacant "caseTitle" data)
  /\ (written (ExtractTrialDates.update_json_file fs data law_finder_path)
        <> None -> vacant "trialDate" data)
  /\ (settled "caseTitle" data ->
      ExtractCaseTitles.update_json_file fs data json_path law_finder_path
        = {| written := None; updated := false |})
  /\ (settled "trialDate" data ->
      ExtractTrialDates.update_json_file fs data law_finder_path
        = {| written := None; updated := false |}).
Proof.
  repeat apply conj.
  - apply title_update_vacant.
  - apply date_update_vacant.
  - apply title_update_settled.
  - apply date_update_settled.
Qed.

(** The same document fills in a record whose title is the sentinel, and
    no other field changes. *)
Example sentinel_title_is_replaced :
  ExtractCaseTitles.update_json_file one_file
    (JObj [("caseTitle", JStr "pages.gif");
           ("metadata", JObj [("sourcePath", JStr "sc/doe.htm")])])
    "law-finder-json/doe.json" "LAW FINDER"
  = {| written :=
         Some (JObj [("caseTitle", JStr "JOHN DOE v. JANE ROE");
                     ("metadata", JObj [("sourcePath", JStr "sc/doe.htm")])]);
       updated := true |}.
Proof. vm_compute; reflexivity. Qed.

Lemma update_never_overwrites_witness :
  ExtractCaseTitles.update_json_file one_file titled_record
    "law-finder-json/doe.json" "LAW FINDER"
  = {| written := None; updated := false |}.
Proof.
  apply (proj1 (proj2 (proj2 (update_never_overwrites
                                one_file titled_record
                                "law-finder-json/doe.json" "LAW FINDER")))).
  exists [("caseTitle", JStr "ADJEI v. MENSAH");
          ("metadata", JObj [("sourcePath", JStr "sc/doe.htm")])],
         (JStr "ADJEI v. MENSAH").
  repeat split; try reflexivity. discriminate.
Defined.

End RecordClaims.


(** ** More on the renderer *)

Module RenderExtras.
Import Str Html BodyText ExtraNotions StrFacts.

Lemma data_line_more (evs more : list event) (raw : string) :
  data_line evs raw -> data_line (evs ++ more) raw.
Proof.
  intros (d & Hd & Hr). exists d. split; [|exact Hr].
  apply in_or_app. left; exact Hd.
Qed.

Lemma kept_more (evs more : list event) (l : string) :
  kept evs l -> kept (evs ++ more) l.
Proof.
  intros (T & raw & Hr & E). split; [exact T|].
  exists raw. split; [apply data_line_more; exact Hr | exact E].
Qed.

Lemma sound_more (evs more : list event) (p : parser) :
  sound evs p -> sound (evs ++ more) p.
Proof.
  intros (H1 & H2 & H3). split; [exact H1|]. split; [exact H2|].
  intros l Hl. apply kept_more, H3, Hl.
Qed.

Lemma add_line_sound (evs : list event) (p : parser) (line : string) :
  sound evs p ->
  data_line evs line ->
  sound evs (add_line p line)
  /\ max_lines (add_line p line) = max_lines p
  /\ in_body (add_line p line) = in_body p.
Proof.
  intros Hs Hline. unfold add_line.
  destruct (max_lines p <=? line_count p) eqn:Efull; [auto|].
  apply Nat.leb_gt in Efull.
  destruct (nonempty (strip line)) eqn:Ene; [|auto].
  destruct Hs as (H1 & H2 & H3).
  split; [|auto]. unfold sound. cbn [text line_count max_lines in_body].
  split; [|split].
  - rewrite length_app, H1. cbn [List.length]. lia.
  - lia.
  - intros l Hl. apply in_app_or in Hl. destruct Hl as [Hl|[<-|[]]].
    + apply H3; exact Hl.
    + split.
      * split; [apply nonempty_true; exact Ene | apply strip_idempotent].
      * exists line. split; [exact Hline|reflexivity].
Qed.

Lemma fold_add_line_sound (evs : list event) (lines : list string) :
  forall p,
    sound evs p ->
    (forall line, In line lines -> data_line evs line) ->
    sound evs (fold_left add_line lines p)
    /\ max_lines (fold_left add_line lines p) = max_lines p
    /\ in_body (fold_left add_line lines p) = in_body p.
Proof.
  induction lines as [|line lines IH]; intros p Hs Hall; cbn [fold_left].
  - auto.
  - destruct (add_line_sound evs p line Hs) as (Hs' & Hmax & Hbody).
    { apply Hall. left; reflexivity. }
    destruct (IH (add_line p line) Hs') as (A & B & C).
    { intros l Hl. apply Hall. right; exact Hl. }
    split; [exact A|]. split; congruence.
Qed.

Lemma handler_sound (seen : list event) (e : event) (p q : parser) :
  sound seen p ->
  match e with
  | StartTag t => q = handle_starttag p t
  | EndTag t => q = handle_endtag p t
  | Data d => q = handle_data p d
  | Raise => False
  end ->
  sound (seen ++ [e]) q /\ max_lines q = max_lines p.
Proof.
  intros Hs. destruct e as [t|t|d|].
  - intros ->. unfold handle_starttag.
    destruct (String.eqb (lower t) "body");
      (split; [apply sound_more; exact Hs | reflexivity]).
  - intros ->. unfold handle_endtag.
    destruct (String.eqb (lower t) "body");
      (split; [apply sound_more; exact Hs | reflexivity]).
  - intros ->. unfold handle_data.
    destruct (in_body p && (line_count p <? max_lines p)).
    + destruct (fold_add_line_sound (seen ++ [Data d]) (split nl d) p)
        as (A & B & _).
      * apply sound_more; exact Hs.
      * intros line Hl. exists d. split; [|exact Hl].
        apply in_or_app. right. left. reflexivity.
      * split; assumption.
    + split; [apply sound_more; exact Hs | reflexivity].
  - contradiction.
Qed.

Lemma run_sound (evs : list event) :
  forall seen p p',
    sound seen p ->
    run p evs = Some p' ->
    sound (seen ++ evs) p' /\ max_lines p' = max_lines p.
Proof.
  induction evs as [|e evs IH]; intros seen p p' Hs; cbn [run].
  - intros E; injection E as <-. rewrite app_nil_r. auto.
  - assert (Hseen : ((seen ++ [e]) ++ evs = seen ++ e :: evs)%list)
      by (rewrite <- app_assoc; reflexivity).
    rewrite <- Hseen.
    destruct e as [t|t|d|]; [| | |discriminate]; intros E.
    + destruct (handler_sound seen (StartTag t) p _ Hs eq_refl) as (A & B).
      destruct (IH _ _ _ A E) as (A' & B'). split; [exact A'|congruence].
    + destruct (handler_sound seen (EndTag t) p _ Hs eq_refl) as (A & B).
      destruct (IH _ _ _ A E) as (A' & B'). split; [exact A'|congruence].
    + destruct (handler_sound seen (Data d) p _ Hs eq_refl) as (A & B).
      destruct (IH _ _ _ A E) as (A' & B'). split; [exact A'|congruence].
Qed.

Lemma init_sound (cap : nat) : sound [] (init cap).
Proof.
  unfold sound, init; cbn [text line_count max_lines List.length].
  split; [reflexivity|]. split; [lia|]. intros l [].
Qed.

(** X1: the renderers never keep more lines than their cap, 150 for the
    date extractor and 50 for the title extractor, whatever the document;
    the counter of the parser is the number of lines it holds. *)
Theorem rendered_lines_within_cap (cap : nat) (evs : list event) (p : parser)
  (html_content : string) :
  (run (init cap) evs = Some p ->
   line_count p = List.length (text p) /\ List.length (text p) <= cap)
  /\ List.length (ExtractTrialDates.extract_text_first_150_lines html_content)
     <= 150
  /\ List.length (render 50 50 html_content) <= 50.
Proof.
  assert (R : forall c q es, run (init c) es = Some q ->
              line_count q = List.length (text q) /\ List.length (text q) <= c).
  { intros c q es E.
    destruct (run_sound es [] (init c) q (init_sound c) E) as (A & C).
    destruct A as (A1 & A2 & _). cbn [init max_lines] in C.
    split; [exact A1 | lia]. }
  split; [apply R|].
  split.
  - unfold ExtractTrialDates.extract_text_first_150_lines, render.
    destruct (run (init 150) (feed html_content)); cbn [List.length];
      [|lia].
    rewrite length_firstn. lia.
  - unfold render.
    destruct (run (init 50) (feed html_content)); cbn [List.length]; [|lia].
    rewrite length_firstn. lia.
Qed.

Lemma rendered_lines_within_cap_witness :
  line_count {| text := ["a"; "b"]; in_body := true;
                line_count := 2; max_lines := 2 |}
  = List.length ["a"; "b"]
  /\ List.length ["a"; "b"] <= 2.
Proof.
  apply (proj1 (rendered_lines_within_cap
                  2 [StartTag "body"; Data "a"; Data "b"; Data "c"]
                  {| text := ["a"; "b"]; in_body := true;
                     line_count := 2; max_lines := 2 |} "")).
  vm_compute; reflexivity.
Defined.

(** X2: every line a renderer returns is non-empty, has no whitespace
    at either end, and is the stripped form of one newline-separated line
    of a chunk of text the parser handed to [handle_data]. *)
Theorem rendered_lines_are_trimmed_text (cap n : nat) (html_content l : string) :
  In l (render cap n html_content) ->
  trimmed l
  /\ exists raw, data_line (feed html_content) raw /\ l = strip raw.
Proof.
  unfold render.
  destruct (run (init cap) (feed html_content)) as [p|] eqn:E;
    [|contradiction].
  intros Hl. apply in_firstn in Hl.
  destruct (run_sound _ [] (init cap) p (init_sound cap) E) as (A & _).
  destruct A as (_ & _ & A). apply A; exact Hl.
Qed.

Lemma rendered_lines_are_trimmed_text_witness :
  trimmed "Hello"
  /\ exists raw,
       data_line (feed "<body><p>  Hello </p></body>") raw
       /\ "Hello" = strip raw.
Proof.
  apply (rendered_lines_are_trimmed_text 150 150
           "<body><p>  Hello </p></body>" "Hello").
  vm_compute. left; reflexivity.
Defined.

Lemma run_raise (evs : list event) :
  forall p, In Raise evs -> run p evs = None.
Proof.
  induction evs as [|e evs IH]; intros p; [contradiction|].
  intros [->|H]; [reflexivity|].
  cbn [run]. destruct e; auto.
Qed.

(** X3: when the parser raises while reading the document, both
    renderers return nothing, also the lines read before the error. *)
Theorem parser_error_drops_all_lines (html_content : string) :
  In Raise (feed html_content) ->
  ExtractTrialDates.extract_text_first_150_lines html_content = []
  /\ ExtractCaseTitles.extract_plain_text_first_50_lines html_content = "".
Proof.
  intros H.
  unfold ExtractTrialDates.extract_text_first_150_lines,
    ExtractCaseTitles.extract_plain_text_first_50_lines, render.
  rewrite !run_raise by exact H. split; reflexivity.
Qed.

Lemma parser_error_drops_all_lines_witness :
  ExtractTrialDates.extract_text_first_150_lines
    "<body><p>DOE v. ROE</p><![endnote]></body>" = []
  /\ ExtractCaseTitles.extract_plain_text_first_50_lines
       "<body><p>DOE v. ROE</p><![endnote]></body>" = "".
Proof.
  apply (parser_error_drops_all_lines
           "<body><p>DOE v. ROE</p><![endnote]></body>").
  vm_compute. right; right; right; right. left; reflexivity.
Defined.

End RenderExtras.

(** ** Lists and loops *)

Module ListFacts.

Lemma first_some_ext {A B : Type} (f g : A -> option B) (l : list A) :
  (forall x, In x l -> f x = g x) -> first_some f l = first_some g l.
Proof.
  induction l as [|a l IH]; intros H; cbn [first_some]; [reflexivity|].
  rewrite (H a) by (left; reflexivity).
  destruct (g a); [reflexivity|]. apply IH. intros x Hx. apply H. right; exact Hx.
Qed.

Lemma firstn_agree {A : Type} (m n : nat) (l l' : list A) :
  firstn n l = firstn n l' -> m <= n -> firstn m l = firstn m l'.
Proof.
  intros E Hmn.
  rewrite <- (Nat.min_l m n Hmn), <- !firstn_firstn, E. reflexivity.
Qed.

Lemma slice_l_agree {A : Type} (i j n : nat) (l l' : list A) :
  firstn n l = firstn n l' -> j <= n -> slice_l i j l = slice_l i j l'.
Proof.
  intros E Hj. unfold slice_l.
  destruct (Nat.le_gt_cases i j) as [Hij|Hij].
  - rewrite !firstn_skipn_comm.
    replace (i + (j - i)) with j by lia.
    rewrite (firstn_agree j n l l' E Hj). reflexivity.
  - replace (j - i) with 0 by lia. reflexivity.
Qed.

Lemma enumerate_from_bound {A : Type} (l : list A) :
  forall k i x, In (i, x) (enumerate_from k l) -> k <= i < k + List.length l.
Proof.
  induction l as [|a l IH]; intros k i x; cbn [enumerate_from In List.length];
    [contradiction|].
  intros [E|H].
  - injection E as <- _. lia.
  - apply IH in H. lia.
Qed.

Lemma length_agree {A : Type} (n : nat) (l l' : list A) :
  firstn n l = firstn n l' ->
  List.length l < n ->
  List.length l' = List.length l.
Proof.
  intros E Hl.
  assert (H : List.length (firstn n l) = List.length (firstn n l'))
    by (rewrite E; reflexivity).
  rewrite !length_firstn in H. lia.
Qed.

End ListFacts.

(** ** More on the date extractor *)

Module DateExtras.
Import Str Re Datetime ExtractTrialDates DateNotions DateFacts StrFacts
       ListFacts.

(** X4: [parse_date_from_text] never makes a date up: its result is
    the text [strftime] writes for a date of the calendar that one of the
    date formats reads in the input (canonical YYYY-MM-DD from the year
    1000 on, shorter than ten characters before it, the year being written
    without leading zeros), or, when no format reads the input, the input
    itself with the whitespace at its ends removed. *)
Theorem parse_date_is_date_or_input (t : string) :
  (exists dt,
      read_from (strip t) dt
      /\ parse_date_from_text t = strftime dt
      /\ ((1000 <= year dt)%Z -> canonical (parse_date_from_text t) = true)
      /\ ((year dt < 1000)%Z -> String.length (parse_date_from_text t) < 10))
  \/ (unparsed t /\ parse_date_from_text t = strip t).
Proof.
  destruct (parse_date_cases t) as [(dt & R & E)|[U E]].
  - left. exists dt. split; [exact R|]. split; [exact E|]. rewrite E. split.
    + apply strftime_canonical.
    + apply strftime_short.
  - right. split; [exact U|]. rewrite E. apply strip_idempotent.
Qed.

(** The date 1 January 999 comes out with a three-digit year. *)
Example parse_date_before_year_1000 :
  parse_date_from_text "01/01/0999" = "999-01-01".
Proof. vm_compute; reflexivity. Qed.

(** X5: a record whose document is not on disk gets no date: the
    extractor returns nothing and the updater leaves the record file
    alone and returns false. *)
Theorem missing_document_gives_no_date (fs : files) (kv : list (string * json))
  (source_path law_finder_path : string) :
  source_path_of_raw kv = Some (JStr source_path) ->
  fs (path_join law_finder_path source_path) = None ->
  extract_trial_date fs (path_join law_finder_path source_path) = None
  /\ update_json_file fs (JObj kv) law_finder_path = skipped.
Proof.
  intros Hsp Hfs.
  assert (E : extract_trial_date fs (path_join law_finder_path source_path) = None)
    by (unfold extract_trial_date; rewrite Hfs; reflexivity).
  split; [exact E|].
  unfold update_json_file. rewrite Hsp.
  destruct (match dict_get "trialDate" kv with
            | Some v => truthy v
            | None => false
            end); [reflexivity|].
  destruct (negb (truthy (JStr source_path))); [reflexivity|].
  rewrite E. reflexivity.
Qed.

Lemma missing_document_gives_no_date_witness :
  extract_trial_date (fun _ => None) (path_join "LAW FINDER" "sc/doe.htm") = None
  /\ update_json_file (fun _ => None)
       (JObj [("metadata", JObj [("sourcePath", JStr "sc/doe.htm")])])
       "LAW FINDER" = skipped.
Proof.
  apply (missing_document_gives_no_date
           (fun _ => None)
           [("metadata", JObj [("sourcePath", JStr "sc/doe.htm")])]
           "sc/doe.htm" "LAW FINDER").
  - reflexivity.
  - reflexivity.
Defined.

Lemma october_holds_to (s : string) :
  contains "OCTOBER" s = true -> contains "TO" s = true.
Proof.
  induction s as [|c s IH]; [discriminate|].
  intros H. cbn [contains] in H. apply orb_true_iff in H.
  destruct H as [H|H].
  - destruct s as [|c1 [|c2 [|c3 s]]];
      try (cbn in H; rewrite ?andb_false_r in H; discriminate H).
    cbn [startswith] in H.
    apply andb_true_iff in H. destruct H as [_ H].
    apply andb_true_iff in H. destruct H as [_ H].
    apply contains_cons, contains_cons, startswith_contains.
    apply andb_true_iff in H. destruct H as [H2 H].
    apply andb_true_iff in H. destruct H as [H3 _].
    cbn [startswith]. rewrite H2, H3. reflexivity.
  - apply contains_cons, IH, H.
Qed.

(** X6: the standalone-line stage never yields a date from a line that
    mentions October in any letter case: the connector TO it screens
    lines for is part of the month's name. *)
Theorem standalone_stage_skips_october (lines : list string) (v : string) :
  standalone_stage lines = Some v ->
  exists line,
    In line (firstn 30 lines)
    /\ first_some (standalone_date line) standalone_patterns = Some v
    /\ contains "OCTOBER" (upper line) = false
    /\ any_in connectors (upper line) = false.
Proof.
  unfold standalone_stage. intros H.
  apply first_some_found in H. destruct H as (line & Hin & H).
  pose proof H as Hline.
  apply first_some_found in H. destruct H as (p & _ & H).
  unfold standalone_date in H.
  destruct (re_match IGNORECASE p line); [|discriminate].
  destruct (any_in connectors (upper line)) eqn:Ec; [discriminate|].
  exists line. split; [exact Hin|]. split; [exact Hline|]. split; [|exact Ec].
  destruct (contains "OCTOBER" (upper line)) eqn:Eo; [|reflexivity].
  apply october_holds_to in Eo.
  unfold any_in, connectors in Ec. cbn [existsb] in Ec.
  rewrite Eo in Ec. rewrite orb_true_r in Ec. discriminate Ec.
Qed.

Lemma standalone_stage_skips_october_witness :
  exists line,
    In line (firstn 30 ["15TH NOVEMBER, 2006"])
    /\ first_some (standalone_date line) standalone_patterns
       = Some "2006-11-15"
    /\ contains "OCTOBER" (upper line) = false
    /\ any_in connectors (upper line) = false.
Proof.
  apply (standalone_stage_skips_october ["15TH NOVEMBER, 2006"] "2006-11-15").
  vm_compute; reflexivity.
Defined.

(** X7: the stages that read the rendered text look at the first 50
    lines only: two renderings that agree on their first 50 lines give
    the same result at every such stage, although 150 lines are kept. *)
Theorem date_stages_read_fifty_lines (lines lines' : list string) :
  firstn 50 lines = firstn 50 lines' ->
  bracket_stage lines = bracket_stage lines'
  /\ written_stage lines = written_stage lines'
  /\ standalone_stage lines = standalone_stage lines'
  /\ early_stage lines = early_stage lines'.
Proof.
  intros E.
  assert (E30 : firstn 30 lines = firstn 30 lines')
    by (apply (firstn_agree 30 50); [exact E|lia]).
  assert (E20 : firstn 20 lines = firstn 20 lines')
    by (apply (firstn_agree 20 50); [exact E|lia]).
  unfold bracket_stage, written_stage, standalone_stage, early_stage.
  rewrite E, E30, E20. repeat split.
  apply first_some_ext. intros [i line] Hin.
  apply enumerate_from_bound in Hin.
  assert (Hi : i < 20).
  { pose proof (firstn_le_length 20 lines'). lia. }
  unfold early_date.
  rewrite (slice_l_agree (i - 2) (i + 3) 50 lines lines' E) by lia.
  reflexivity.
Qed.

Lemma date_stages_read_fifty_lines_witness :
  bracket_stage (repeat "x" 50 ++ ["[26/03/2004]"])
  = bracket_stage (repeat "x" 50).
Proof.
  apply (date_stages_read_fifty_lines
           (repeat "x" 50 ++ ["[26/03/2004]"]) (repeat "x" 50)).
  vm_compute; reflexivity.
Defined.

End DateExtras.

(** ** More on the title extractor *)

Module TitleExtras.
Import Str Re Html ExtractCaseTitles TitleNotions TitleClaims StrFacts ListFacts.

Lemma usable_inv (o : option string) (t : string) :
  usable o = Some t -> o = Some t /\ t <> "" /\ t <> "pages.gif".
Proof.
  unfold usable. destruct o as [x|]; [|discriminate].
  destruct (nonempty x) eqn:N; [|discriminate].
  destruct (String.eqb x "pages.gif") eqn:E; [discriminate|].
  cbn [negb andb]. intros H; injection H as <-.
  split; [reflexivity|]. split; [apply nonempty_true; exact N|].
  apply String.eqb_neq; exact E.
Qed.

Lemma text_title_long (text t : string) :
  find_case_title_in_text text = Some t -> 10 < String.length t.
Proof.
  unfold find_case_title_in_text.
  destruct (single_line_stage _) as [x|] eqn:E1.
  { intros H; injection H as <-. unfold single_line_stage in E1.
    apply first_some_found in E1. destruct E1 as (line & _ & E1).
    apply first_some_found in E1. destruct E1 as (p & _ & E1).
    apply single_line_title_accepted in E1. destruct E1 as (mo & _ & E1).
    apply E1. }
  destruct (split_stage _) as [x|] eqn:E2.
  { intros H; injection H as <-. unfold split_stage in E2.
    apply first_some_found in E2. destruct E2 as (i & _ & E2).
    apply split_title_long, long_enough_not_sentinel in E2. apply E2. }
  intros H. apply matter_title_long, long_enough_not_sentinel in H. apply H.
Qed.

Lemma html_title_long (html_content t : string) :
  extract_title_from_html html_content = Some t -> 10 < String.length t.
Proof.
  unfold extract_title_from_html. intros H.
  apply first_some_found in H. destruct H as (p & _ & H).
  apply first_some_found in H. destruct H as (mo & _ & H).
  apply html_title_accepted in H. apply H.
Qed.

Lemma case_title_facts (fs : files) (html_path json_filename t : string) :
  extract_case_title fs html_path json_filename = Some t ->
  t <> "" /\ t <> "pages.gif"
  /\ (10 < String.length t
      \/ extract_title_from_filename json_filename = Some t).
Proof.
  unfold extract_case_title.
  destruct (fs html_path) as [html_content|].
  - destruct (nonempty (extract_plain_text_first_50_lines html_content)).
    + destruct (usable (find_case_title_in_text _)) as [x|] eqn:E1.
      { intros H; injection H as <-. apply usable_inv in E1.
        destruct E1 as (E1 & A & B). repeat split; auto.
        left. eapply text_title_long; eauto. }
      destruct (usable (extract_title_from_html html_content)) as [x|] eqn:E2.
      { intros H; injection H as <-. apply usable_inv in E2.
        destruct E2 as (E2 & A & B). repeat split; auto.
        left. eapply html_title_long; eauto. }
      intros H. apply usable_inv in H. destruct H as (H & A & B). auto.
    + destruct (usable (extract_title_from_html html_content)) as [x|] eqn:E2.
      { intros H; injection H as <-. apply usable_inv in E2.
        destruct E2 as (E2 & A & B). repeat split; auto.
        left. eapply html_title_long; eauto. }
      intros H. apply usable_inv in H. destruct H as (H & A & B). auto.
  - intros H. apply usable_inv in H. destruct H as (H & A & B). auto.
Qed.

(** X8: a title returned by [extract_case_title] is never empty and
    never the sentinel as written; and unless it is the one the file-name
    fallback gives, it has more than 10 characters. *)
Theorem case_title_is_usable (fs : files) (html_path json_filename t : string) :
  extract_case_title fs html_path json_filename = Some t ->
  t <> "" /\ t <> "pages.gif"
  /\ (10 < String.length t
      \/ extract_title_from_filename json_filename = Some t).
Proof. apply case_title_facts. Qed.

Lemma case_title_is_usable_witness :
  "JOHN DOE v. JANE ROE" <> "" /\ "JOHN DOE v. JANE ROE" <> "pages.gif"
  /\ (10 < String.length "JOHN DOE v. JANE ROE"
      \/ extract_title_from_filename "doe.json" = Some "JOHN DOE v. JANE ROE").
Proof.
  apply (case_title_is_usable
           (fun _ => Some "<html><body><p>JOHN DOE v. JANE ROE</p></body></html>")
           "LAW FINDER/doe.htm" "doe.json").
  vm_compute; reflexivity.
Defined.

(** When the document is not on disk the title comes from the record's
    file name alone. *)
Lemma missing_document_title_from_filename (fs : files)
  (html_path json_filename : string) :
  fs html_path = None ->
  extract_case_title fs html_path json_filename
  = usable (extract_title_from_filename json_filename).
Proof.
  intros H. unfold extract_case_title. rewrite H. reflexivity.
Qed.

Lemma missing_document_title_from_filename_witness :
  extract_case_title no_files "LAW FINDER/doe.htm"
    "law-finder-json/ADJEI v. MENSAH.json"
  = usable (extract_title_from_filename "law-finder-json/ADJEI v. MENSAH.json").
Proof.
  apply (missing_document_title_from_filename no_files).
  reflexivity.
Defined.

(** X9: the three strategies on rendered text look at the first 30
    lines only: two texts whose lines agree there give the same result at
    each of them, although 50 lines are kept. *)
Theorem title_stages_read_thirty_lines (lines lines' : list string) :
  firstn 30 lines = firstn 30 lines' ->
  single_line_stage lines = single_line_stage lines'
  /\ split_stage lines = split_stage lines'
  /\ matter_title lines = matter_title lines'.
Proof.
  intros E. unfold single_line_stage, matter_title. rewrite E.
  split; [reflexivity|]. split; [|reflexivity].
  unfold split_stage.
  assert (Hnth : forall k, k < 30 -> nth k lines "" = nth k lines' "").
  { intros k Hk.
    assert (L : (k <? 30) = true) by (apply Nat.ltb_lt; exact Hk).
    pose proof (nth_firstn 30 lines k "") as A.
    pose proof (nth_firstn 30 lines' k "") as B.
    rewrite L in A, B. rewrite <- A, <- B, E. reflexivity. }
  assert (Hlen : Nat.min 20 (List.length lines - 2)
                 = Nat.min 20 (List.length lines' - 2)).
  { destruct (Nat.le_gt_cases 30 (List.length lines)) as [L|L].
    - assert (L' : 30 <= List.length lines').
      { assert (H : List.length (firstn 30 lines)
                    = List.length (firstn 30 lines')) by (rewrite E; reflexivity).
        rewrite !length_firstn in H. lia. }
      lia.
    - rewrite (length_agree 30 lines lines' E L). reflexivity. }
  rewrite <- Hlen. apply first_some_ext. intros i Hi.
  apply in_seq in Hi.
  unfold split_title.
  rewrite (Hnth i), (Hnth (i + 1)), (Hnth (i + 2)) by lia. reflexivity.
Qed.

Lemma title_stages_read_thirty_lines_witness :
  single_line_stage (repeat "x" 30 ++ ["JOHN DOE v. JANE ROE"])
  = single_line_stage (repeat "x" 30).
Proof.
  apply (title_stages_read_thirty_lines
           (repeat "x" 30 ++ ["JOHN DOE v. JANE ROE"]) (repeat "x" 30)).
  vm_compute; reflexivity.
Defined.

End TitleExtras.

(** ** More on the record updaters *)

Module RecordExtras.
Import Str ExtraNotions StrFacts TitleExtras.

Lemma dict_get_set_same (k : string) (v : json) (kv : list (string * json)) :
  dict_get k (dict_set k v kv) = Some v.
Proof.
  induction kv as [|[k' v'] kv IH]; cbn [dict_set dict_get].
  - rewrite String.eqb_refl. reflexivity.
  - destruct (String.eqb k k') eqn:E; cbn [dict_get].
    + rewrite String.eqb_refl. reflexivity.
    + rewrite E. exact IH.
Qed.

Lemma dict_get_set_other (k k' : string) (v : json) (kv : list (string * json)) :
  k' <> k -> dict_get k' (dict_set k v kv) = dict_get k' kv.
Proof.
  intros Hne. apply String.eqb_neq in Hne.
  induction kv as [|[k0 v0] kv IH]; cbn [dict_set dict_get].
  - rewrite Hne. reflexivity.
  - destruct (String.eqb k k0) eqn:E; cbn [dict_get].
    + apply String.eqb_eq in E. subst k0. rewrite Hne. reflexivity.
    + destruct (String.eqb k' k0); [reflexivity|exact IH].
Qed.

Lemma dict_set_twice (k : string) (v : json) (kv : list (string * json)) :
  dict_set k v (dict_set k v kv) = dict_set k v kv.
Proof.
  induction kv as [|[k0 v0] kv IH]; cbn [dict_set].
  - rewrite String.eqb_refl. reflexivity.
  - destruct (String.eqb k k0) eqn:E; cbn [dict_set].
    + rewrite String.eqb_refl. reflexivity.
    + rewrite E, IH. reflexivity.
Qed.

(** The keys of a dictionary after an assignment: unchanged, or with
    the new key last. *)
Lemma dict_set_keys (k : string) (v : json) (kv : list (string * json)) :
  map fst (dict_set k v kv)
  = if existsb (String.eqb k) (map fst kv) then map fst kv
    else (map fst kv ++ [k])%list.
Proof.
  induction kv as [|[k0 v0] kv IH]; cbn [dict_set map fst existsb app];
    [reflexivity|].
  destruct (String.eqb k k0) eqn:E; cbn [map fst orb].
  - apply String.eqb_eq in E. subst k0. reflexivity.
  - rewrite IH. destruct (existsb (String.eqb k) (map fst kv)); reflexivity.
Qed.

Lemma source_path_after_set (k : string) (v : json) (kv : list (string * json)) :
  k <> "metadata" ->
  source_path_of_raw (dict_set k v kv) = source_path_of_raw kv.
Proof.
  intros Hne. unfold source_path_of_raw.
  rewrite dict_get_set_other by (intros E; apply Hne; symmetry; exact E).
  reflexivity.
Qed.

Lemma rewritten_intro (field value : string) (kv : list (string * json)) :
  nonempty value = true ->
  rewritten field value (JObj kv) (JObj (dict_set field (JStr value) kv)).
Proof.
  intros N. exists kv. split; [reflexivity|]. split; [reflexivity|].
  split; [apply nonempty_true; exact N|].
  split; [apply dict_get_set_same|].
  split; [intros k Hk; apply dict_get_set_other; exact Hk|].
  apply dict_set_keys.
Qed.

(** X10: when the date updater rewrites a record file, it returns
    true; the record names a source document under [metadata.sourcePath],
    and the new record is the old one with, under [trialDate], the date
    the extractor finds in that very document, a non-empty string; no
    other key changes and the order of the keys is kept.  When it does not
    write it returns false. *)
Theorem date_update_writes_only_the_date (fs : files) (data : json)
  (law_finder_path : string) :
  let o := ExtractTrialDates.update_json_file fs data law_finder_path in
  (forall data', written o = Some data' ->
     updated o = true
     /\ exists kv source_path date,
          data = JObj kv
          /\ source_path_of_raw kv = Some (JStr source_path)
          /\ source_path <> ""
          /\ ExtractTrialDates.extract_trial_date
               fs (path_join law_finder_path source_path) = Some date
          /\ rewritten "trialDate" date data data')
  /\ (written o = None -> updated o = false).
Proof.
  cbv zeta. unfold ExtractTrialDates.update_json_file.
  destruct data as [| b | n | s | l | kv];
    try (split; [discriminate|reflexivity]).
  destruct (match dict_get "trialDate" kv with
            | Some v => truthy v
            | None => false
            end); [split; [discriminate|reflexivity]|].
  destruct (source_path_of_raw kv) as [v|] eqn:Hsp;
    [|split; [discriminate|reflexivity]].
  destruct (truthy v) eqn:Tv; cbn [negb];
    [|split; [discriminate|reflexivity]].
  destruct v as [| b | n | sp | l | kv'];
    try (split; [discriminate|reflexivity]).
  destruct (ExtractTrialDates.extract_trial_date fs _) as [date|] eqn:E;
    [|split; [discriminate|reflexivity]].
  destruct (nonempty date) eqn:N; [|split; [discriminate|reflexivity]].
  cbn [written updated]. split; [|discriminate].
  intros data' H; injection H as <-. split; [reflexivity|].
  exists kv, sp, date. split; [reflexivity|]. split; [exact Hsp|].
  split; [apply nonempty_true; exact Tv|].
  split; [exact E|]. apply rewritten_intro; exact N.
Qed.

Lemma date_update_writes_only_the_date_witness :
  updated (ExtractTrialDates.update_json_file dated_file undated_record
             "LAW FINDER") = true
  /\ exists kv source_path date,
       undated_record = JObj kv
       /\ source_path_of_raw kv = Some (JStr source_path)
       /\ source_path <> ""
       /\ ExtractTrialDates.extract_trial_date
            dated_file (path_join "LAW FINDER" source_path) = Some date
       /\ rewritten "trialDate" date undated_record
            (JObj [("caseTitle", JStr "DOE v. ROE");
                   ("metadata", JObj [("sourcePath", JStr "sc/doe.htm")]);
                   ("trialDate", JStr "2004-03-26")]).
Proof.
  apply (proj1 (date_update_writes_only_the_date
                  dated_file undated_record "LAW FINDER")).
  vm_compute; reflexivity.
Defined.

(** X11: when the title updater rewrites a record file, it returns
    true, and the new record is the old one with a non-empty title under
    [caseTitle]; no other key changes and the order of the keys is kept.
    When the record names no source document (no [metadata.sourcePath], or
    an empty one) the title is the one the record's file name gives;
    otherwise it is the one [extract_case_title] returns for the very
    document the record names.  When it does not write it returns
    false. *)
Theorem title_update_writes_only_the_title (fs : files) (data : json)
  (json_path law_finder_path : string) :
  let o := ExtractCaseTitles.update_json_file fs data json_path
             law_finder_path in
  (forall data', written o = Some data' ->
     updated o = true
     /\ exists kv v title,
          data = JObj kv
          /\ source_path_of_raw kv = Some v
          /\ rewritten "caseTitle" title data data'
          /\ ((truthy v = false
               /\ ExtractCaseTitles.extract_title_from_filename json_path
                  = Some title)
              \/ (exists source_path,
                     v = JStr source_path /\ source_path <> ""
                     /\ ExtractCaseTitles.extract_case_title
                          fs (path_join law_finder_path source_path) json_path
                        = Some title)))
  /\ (written o = None -> updated o = false).
Proof.
  cbv zeta. unfold ExtractCaseTitles.update_json_file.
  destruct data as [| b | n | s | l | kv];
    try (split; [discriminate|reflexivity]).
  destruct (match dict_get "caseTitle" kv with
            | Some v => _
            | None => false
            end); [split; [discriminate|reflexivity]|].
  destruct (source_path_of_raw kv) as [v|] eqn:Hsp;
    [|split; [discriminate|reflexivity]].
  destruct (truthy v) eqn:Tv; cbn [negb].
  - destruct v as [| b | n | sp | l | kv'];
      try (split; [discriminate|reflexivity]).
    destruct (ExtractCaseTitles.extract_case_title fs _ json_path)
      as [title|] eqn:E; [|split; [discriminate|reflexivity]].
    destruct (nonempty title) eqn:N; [|split; [discriminate|reflexivity]].
    cbn [written updated]. split; [|discriminate].
    intros data' H; injection H as <-. split; [reflexivity|].
    exists kv, (JStr sp), title.
    split; [reflexivity|]. split; [exact Hsp|].
    split; [apply rewritten_intro; exact N|].
    right. exists sp. split; [reflexivity|].
    split; [apply nonempty_true; exact Tv | exact E].
  - destruct (ExtractCaseTitles.extract_title_from_filename json_path)
      as [title|] eqn:E; [|split; [discriminate|reflexivity]].
    destruct (nonempty title) eqn:N; [|split; [discriminate|reflexivity]].
    cbn [written updated]. split; [|discriminate].
    intros data' H; injection H as <-. split; [reflexivity|].
    exists kv, v, title.
    split; [reflexivity|]. split; [exact Hsp|].
    split; [apply rewritten_intro; exact N|].
    left. split; [exact Tv|reflexivity].
Qed.

Lemma title_update_writes_only_the_title_witness :
  updated (ExtractCaseTitles.update_json_file dated_file untitled_record
             "law-finder-json/doe.json" "LAW FINDER") = true
  /\ exists kv v title,
       untitled_record = JObj kv
       /\ source_path_of_raw kv = Some v
       /\ rewritten "caseTitle" title untitled_record
            (JObj [("caseTitle", JStr "JOHN DOE v. JANE ROE");
                   ("metadata", JObj [("sourcePath", JStr "sc/doe.htm")])])
       /\ ((truthy v = false
            /\ ExtractCaseTitles.extract_title_from_filename
                 "law-finder-json/doe.json" = Some title)
           \/ (exists source_path,
                  v = JStr source_path /\ source_path <> ""
                  /\ ExtractCaseTitles.extract_case_title
                       dated_file (path_join "LAW FINDER" source_path)
                       "law-finder-json/doe.json"
                     = Some title)).
Proof.
  apply (proj1 (title_update_writes_only_the_title
                  dated_file untitled_record "law-finder-json/doe.json"
                  "LAW FINDER")).
  vm_compute; reflexivity.
Defined.

Lemma date_update_cases (fs : files) (data : json) (law_finder_path : string) :
  ExtractTrialDates.update_json_file fs data law_finder_path = skipped
  \/ exists kv date,
       data = JObj kv /\ nonempty date = true
       /\ ExtractTrialDates.update_json_file fs data law_finder_path
          = {| written := Some (JObj (dict_set "trialDate" (JStr date) kv));
               updated := true |}.
Proof.
  unfold ExtractTrialDates.update_json_file.
  destruct data as [| b | n | s | l | kv]; try (left; reflexivity).
  destruct (match dict_get "trialDate" kv with
            | Some v => truthy v
            | None => false
            end); [left; reflexivity|].
  destruct (source_path_of_raw kv) as [v|]; [|left; reflexivity].
  destruct (negb (truthy v)); [left; reflexivity|].
  destruct v as [| b | n | sp | l | kv']; try (left; reflexivity).
  destruct (ExtractTrialDates.extract_trial_date fs _) as [date|];
    [|left; reflexivity].
  destruct (nonempty date) eqn:N; [|left; reflexivity].
  right. exists kv, date. auto.
Qed.

Lemma title_update_cases (fs : files) (data : json)
  (json_path law_finder_path : string) :
  ExtractCaseTitles.update_json_file fs data json_path law_finder_path = skipped
  \/ exists kv title,
       data = JObj kv /\ nonempty title = true
       /\ ExtractCaseTitles.update_json_file fs data json_path law_finder_path
          = {| written := Some (JObj (dict_set "caseTitle" (JStr title) kv));
               updated := true |}
       /\ (title <> "pages.gif"
           \/ exists v, source_path_of_raw kv = Some v /\ truthy v = false
                        /\ ExtractCaseTitles.extract_title_from_filename json_path
                           = Some title).
Proof.
  unfold ExtractCaseTitles.update_json_file.
  destruct data as [| b | n | s | l | kv]; try (left; reflexivity).
  destruct (match dict_get "caseTitle" kv with
            | Some v => _
            | None => false
            end); [left; reflexivity|].
  destruct (source_path_of_raw kv) as [v|] eqn:Hsp; [|left; reflexivity].
  destruct (truthy v) eqn:T; cbn [negb].
  - destruct v as [| b | n | sp | l | kv']; try (left; reflexivity).
    destruct (ExtractCaseTitles.extract_case_title fs _ json_path)
      as [title|] eqn:E; [|left; reflexivity].
    destruct (nonempty title) eqn:N; [|left; reflexivity].
    right. exists kv, title.
    split; [reflexivity|]. split; [exact N|]. split; [reflexivity|].
    left. apply case_title_facts in E. apply E.
  - destruct (ExtractCaseTitles.extract_title_from_filename json_path)
      as [title|] eqn:E; [|left; reflexivity].
    destruct (nonempty title) eqn:N; [|left; reflexivity].
    right. exists kv, title.
    split; [reflexivity|]. split; [exact N|]. split; [reflexivity|].
    right. exists v. split; [exact Hsp|]. split; [exact T|reflexivity].
Qed.

Lemma date_update_again (fs : files) (data data' : json)
  (law_finder_path : string) :
  written (ExtractTrialDates.update_json_file fs data law_finder_path)
    = Some data' ->
  ExtractTrialDates.update_json_file fs data' law_finder_path
    = {| written := None; updated := false |}.
Proof.
  destruct (date_update_cases fs data law_finder_path)
    as [->|(kv & date & -> & N & ->)]; [discriminate|].
  cbn [written]. intros H; injection H as <-.
  unfold ExtractTrialDates.update_json_file.
  rewrite dict_get_set_same. cbn [truthy]. rewrite N. reflexivity.
Qed.

(** X12: the date updater is idempotent: a record file it has
    rewritten holds a date, and a second call on it writes nothing and
    returns false. *)
Theorem date_update_twice (fs : files) (data data' : json)
  (law_finder_path : string) :
  written (ExtractTrialDates.update_json_file fs data law_finder_path)
    = Some data' ->
  ExtractTrialDates.update_json_file fs data' law_finder_path
    = {| written := None; updated := false |}.
Proof. apply date_update_again. Qed.

Lemma date_update_twice_witness :
  ExtractTrialDates.update_json_file dated_file
    (JObj [("caseTitle", JStr "DOE v. ROE");
           ("metadata", JObj [("sourcePath", JStr "sc/doe.htm")]);
           ("trialDate", JStr "2004-03-26")])
    "LAW FINDER"
  = {| written := None; updated := false |}.
Proof.
  apply (date_update_twice dated_file undated_record).
  vm_compute; reflexivity.
Defined.

Lemma title_update_again (fs : files) (data data' : json)
  (json_path law_finder_path : string) :
  written (ExtractCaseTitles.update_json_file fs data json_path law_finder_path)
    = Some data' ->
  file_after (Some data')
    (ExtractCaseTitles.update_json_file fs data' json_path law_finder_path)
  = Some data'
  /\ (ExtractCaseTitles.update_json_file fs data' json_path law_finder_path
      = {| written := None; updated := false |}
      \/ ExtractCaseTitles.extract_title_from_filename json_path
         = Some "pages.gif").
Proof.
  destruct (title_update_cases fs data json_path law_finder_path)
    as [->|(kv & title & -> & N & -> & Ht)]; [discriminate|].
  cbn [written]. intros H; injection H as <-.
  destruct (String.eqb title "pages.gif") eqn:Es.
  - apply String.eqb_eq in Es. subst title.
    destruct Ht as [Ht|(v & Hv & Tv & Ef)]; [contradiction Ht; reflexivity|].
    assert (E : ExtractCaseTitles.update_json_file
                  fs (JObj (dict_set "caseTitle" (JStr "pages.gif") kv))
                  json_path law_finder_path
                = {| written := Some (JObj (dict_set "caseTitle"
                                              (JStr "pages.gif") kv));
                     updated := true |}).
    { unfold ExtractCaseTitles.update_json_file.
      rewrite dict_get_set_same.
      rewrite source_path_after_set by discriminate.
      rewrite Hv, Tv, Ef. cbn. rewrite dict_set_twice. reflexivity. }
    rewrite E. split; [reflexivity|]. right; exact Ef.
  - assert (E : ExtractCaseTitles.update_json_file
                  fs (JObj (dict_set "caseTitle" (JStr title) kv))
                  json_path law_finder_path = skipped).
    { unfold ExtractCaseTitles.update_json_file.
      rewrite dict_get_set_same. cbn [truthy]. rewrite N, Es. reflexivity. }
    rewrite E. split; [reflexivity|]. left; reflexivity.
Qed.

(** X13: a second call of the title updater on a record file it has
    rewritten leaves the file as it is.  It writes nothing and returns
    false, except when the title written is the sentinel itself, which
    only the file-name branch taken for a record with no source path can
    write: then it writes the same record again. *)
Theorem title_update_twice (fs : files) (data data' : json)
  (json_path law_finder_path : string) :
  written (ExtractCaseTitles.update_json_file fs data json_path law_finder_path)
    = Some data' ->
  file_after (Some data')
    (ExtractCaseTitles.update_json_file fs data' json_path law_finder_path)
  = Some data'
  /\ (ExtractCaseTitles.update_json_file fs data' json_path law_finder_path
      = {| written := None; updated := false |}
      \/ ExtractCaseTitles.extract_title_from_filename json_path
         = Some "pages.gif").
Proof. apply title_update_again. Qed.

Lemma title_update_twice_witness :
  file_after
    (Some (JObj [("caseTitle", JStr "JOHN DOE v. JANE ROE");
                 ("metadata", JObj [("sourcePath", JStr "sc/doe.htm")])]))
    (ExtractCaseTitles.update_json_file dated_file
       (JObj [("caseTitle", JStr "JOHN DOE v. JANE ROE");
              ("metadata", JObj [("sourcePath", JStr "sc/doe.htm")])])
       "law-finder-json/doe.json" "LAW FINDER")
  = Some (JObj [("caseTitle", JStr "JOHN DOE v. JANE ROE");
                ("metadata", JObj [("sourcePath", JStr "sc/doe.htm")])]).
Proof.
  apply (proj1 (title_update_twice dated_file untitled_record
                  (JObj [("caseTitle", JStr "JOHN DOE v. JANE ROE");
                         ("metadata", JObj [("sourcePath", JStr "sc/doe.htm")])])
                  "law-finder-json/doe.json" "LAW FINDER"
                  ltac:(vm_compute; reflexivity))).
Defined.

(** The file-name branch does write the sentinel: a record with no
    source path whose file is named [__pages.gif__.json] gets the title
    [pages.gif]. *)
Example sentinel_written_from_filename :
  ExtractCaseTitles.update_json_file (fun _ => None) (JObj [])
    "law-finder-json/__pages.gif__.json" "LAW FINDER"
  = {| written := Some (JObj [("caseTitle", JStr "pages.gif")]);
       updated := true |}.
Proof. vm_compute; reflexivity. Qed.

(** X14: a record that names no source document gets its title from
    the file name alone: the title updater then gives the same outcome
    whatever documents are on disk. *)
Theorem title_update_without_source_ignores_documents (fs fs' : files)
  (kv : list (string * json)) (v : json) (json_path law_finder_path : string) :
  source_path_of_raw kv = Some v ->
  truthy v = false ->
  ExtractCaseTitles.update_json_file fs (JObj kv) json_path law_finder_path
  = ExtractCaseTitles.update_json_file fs' (JObj kv) json_path law_finder_path.
Proof.
  intros Hv Tv. unfold ExtractCaseTitles.update_json_file.
  rewrite Hv, Tv. reflexivity.
Qed.

Lemma title_update_without_source_ignores_documents_witness :
  ExtractCaseTitles.update_json_file dated_file (JObj [])
    "law-finder-json/ADJEI v. MENSAH.json" "LAW FINDER"
  = ExtractCaseTitles.update_json_file (fun _ => None) (JObj [])
      "law-finder-json/ADJEI v. MENSAH.json" "LAW FINDER".
Proof.
  apply (title_update_without_source_ignores_documents
           dated_file (fun _ => None) [] (JStr "")).
  - reflexivity.
  - reflexivity.
Defined.

End RecordExtras.

(** ** The batch drivers *)

Module BatchExtras.
Import Str ExtraNotions RecordExtras.

Lemma date_second_call (fs : files) (content : option json) (law : string) :
  ExtractTrialDates.update_file fs
    (file_after content (ExtractTrialDates.update_file fs content law)) law
  = skipped.
Proof.
  destruct content as [data|]; [|reflexivity].
  cbn [ExtractTrialDates.update_file].
  destruct (date_update_cases fs data law) as [E|(kv & date & -> & N & E)].
  - rewrite E. cbn [file_after written skipped ExtractTrialDates.update_file].
    exact E.
  - rewrite E. cbn [file_after written ExtractTrialDates.update_file].
    apply (date_update_again fs (JObj kv)). rewrite E. reflexivity.
Qed.

Lemma title_second_call (fs : files) (json_file : string)
  (content : option json) (law : string) :
  file_after
    (file_after content (ExtractCaseTitles.update_file fs json_file content law))
    (ExtractCaseTitles.update_file fs json_file
       (file_after content
          (ExtractCaseTitles.update_file fs json_file content law)) law)
  = file_after content (ExtractCaseTitles.update_file fs json_file content law).
Proof.
  destruct content as [data|]; [|reflexivity].
  cbn [ExtractCaseTitles.update_file].
  destruct (ExtractCaseTitles.update_json_file fs data json_file law)
    as [[data'|] u] eqn:E; cbn [file_after written].
  - cbn [ExtractCaseTitles.update_file].
    apply (title_update_again fs data data' json_file law).
    rewrite E. reflexivity.
  - cbn [ExtractCaseTitles.update_file]. rewrite E. reflexivity.
Qed.

Lemma date_process_counts (fs : files) (law : string) (json_files : record_files) :
  forall after u f,
    ExtractTrialDates.process fs law json_files = (after, (u, f)) ->
    u + f = List.length json_files
    /\ map fst after = map fst json_files.
Proof.
  induction json_files as [|[path content] rest IH]; intros after u f;
    cbn [ExtractTrialDates.process].
  - intros E; injection E as <- <- <-. split; reflexivity.
  - destruct (ExtractTrialDates.process fs law rest) as [rest' [u' f']].
    destruct (IH rest' u' f' eq_refl) as (A & B).
    destruct (outcome_updated _); intros E; injection E as <- <- <-;
      cbn [List.length map fst]; (split; [lia|congruence]).
Qed.

Lemma title_process_counts (fs : files) (law : string) (json_files : record_files) :
  forall after u f,
    ExtractCaseTitles.process fs law json_files = (after, (u, f)) ->
    u + f = List.length json_files
    /\ map fst after = map fst json_files.
Proof.
  induction json_files as [|[path content] rest IH]; intros after u f;
    cbn [ExtractCaseTitles.process].
  - intros E; injection E as <- <- <-. split; reflexivity.
  - destruct (ExtractCaseTitles.process fs law rest) as [rest' [u' f']].
    destruct (IH rest' u' f' eq_refl) as (A & B).
    destruct (outcome_updated _); intros E; injection E as <- <- <-;
      cbn [List.length map fst]; (split; [lia|congruence]).
Qed.

(** X15: either [main] counts every record file once: the numbers of
    updated and of failed files add up to the total, the total is the
    number of files found, and the files are the same paths in the same
    order afterwards.  With a directory missing nothing is processed. *)
Theorem main_counts_every_file (fs : files) (json_files : record_files)
  (law_finder_dir : string) :
  (forall after rep,
      ExtractTrialDates.main fs (Some json_files) (Some law_finder_dir)
        = Some (after, rep) ->
      n_updated rep + n_failed rep = total rep
      /\ total rep = List.length json_files
      /\ map fst after = map fst json_files)
  /\ (forall after rep,
        ExtractCaseTitles.main fs (Some json_files) (Some law_finder_dir)
          = Some (after, rep) ->
        n_updated rep + n_failed rep = total rep
        /\ total rep = List.length json_files
        /\ map fst after = map fst json_files)
  /\ ExtractTrialDates.main fs None (Some law_finder_dir) = None
  /\ ExtractTrialDates.main fs (Some json_files) None = None
  /\ ExtractCaseTitles.main fs None (Some law_finder_dir) = None
  /\ ExtractCaseTitles.main fs (Some json_files) None = None.
Proof.
  split; [|split; [|repeat split]].
  - intros after rep. unfold ExtractTrialDates.main.
    destruct (ExtractTrialDates.process fs law_finder_dir json_files)
      as [after' [u f]] eqn:E.
    intros H; injection H as <- <-. cbn [total n_updated n_failed].
    destruct (date_process_counts _ _ _ _ _ _ E) as (A & B). auto.
  - intros after rep. unfold ExtractCaseTitles.main.
    destruct (ExtractCaseTitles.process fs law_finder_dir json_files)
      as [after' [u f]] eqn:E.
    intros H; injection H as <- <-. cbn [total n_updated n_failed].
    destruct (title_process_counts _ _ _ _ _ _ E) as (A & B). auto.
Qed.

Lemma main_counts_every_file_witness :
  n_updated {| total := 2; n_updated := 1; n_failed := 1 |}
  + n_failed {| total := 2; n_updated := 1; n_failed := 1 |}
  = total {| total := 2; n_updated := 1; n_failed := 1 |}
  /\ total {| total := 2; n_updated := 1; n_failed := 1 |}
     = List.length [("law-finder-json/doe.json", Some undated_record);
                    ("law-finder-json/bad.json", @None json)]
  /\ map fst [("law-finder-json/doe.json",
               Some (JObj [("caseTitle", JStr "DOE v. ROE");
                           ("metadata", JObj [("sourcePath", JStr "sc/doe.htm")]);
                           ("trialDate", JStr "2004-03-26")]));
              ("law-finder-json/bad.json", @None json)]
     = map fst [("law-finder-json/doe.json", Some undated_record);
                ("law-finder-json/bad.json", @None json)].
Proof.
  apply (proj1 (main_counts_every_file
                  dated_file
                  [("law-finder-json/doe.json", Some undated_record);
                   ("law-finder-json/bad.json", None)]
                  "LAW FINDER")).
  vm_compute; reflexivity.
Defined.

Lemma date_process_twice (fs : files) (law : string) (json_files : record_files) :
  ExtractTrialDates.process fs law
    (fst (ExtractTrialDates.process fs law json_files))
  = (fst (ExtractTrialDates.process fs law json_files),
     (0, List.length json_files)).
Proof.
  induction json_files as [|[path content] rest IH];
    cbn [ExtractTrialDates.process]; [reflexivity|].
  destruct (ExtractTrialDates.process fs law rest) as [rest' [u f]].
  cbn [fst] in IH.
  destruct (outcome_updated (ExtractTrialDates.update_file fs content law));
    cbn [fst ExtractTrialDates.process];
    rewrite IH, date_second_call; reflexivity.
Qed.

(** X16: running the date batch a second time changes nothing: after
    a run of [main], another run over the same documents updates no
    record, counts every file as failed and leaves every record file as
    it was. *)
Theorem date_main_twice (fs : files) (json_files after : record_files)
  (law_finder_dir : string) (rep : report) :
  ExtractTrialDates.main fs (Some json_files) (Some law_finder_dir)
    = Some (after, rep) ->
  ExtractTrialDates.main fs (Some after) (Some law_finder_dir)
  = Some (after, {| total := total rep; n_updated := 0;
                    n_failed := total rep |}).
Proof.
  unfold ExtractTrialDates.main.
  destruct (ExtractTrialDates.process fs law_finder_dir json_files)
    as [after' [u f]] eqn:E.
  intros H; injection H as <- <-. cbn [total].
  pose proof (date_process_twice fs law_finder_dir json_files) as T.
  rewrite E in T. cbn [fst] in T. rewrite T.
  destruct (date_process_counts _ _ _ _ _ _ E) as (_ & B).
  assert (L : List.length after' = List.length json_files).
  { rewrite <- (length_map fst after'), B, length_map. reflexivity. }
  rewrite L. reflexivity.
Qed.

Lemma date_main_twice_witness :
  ExtractTrialDates.main dated_file
    (Some [("law-finder-json/doe.json",
            Some (JObj [("caseTitle", JStr "DOE v. ROE");
                        ("metadata", JObj [("sourcePath", JStr "sc/doe.htm")]);
                        ("trialDate", JStr "2004-03-26")]))])
    (Some "LAW FINDER")
  = Some ([("law-finder-json/doe.json",
            Some (JObj [("caseTitle", JStr "DOE v. ROE");
                        ("metadata", JObj [("sourcePath", JStr "sc/doe.htm")]);
                        ("trialDate", JStr "2004-03-26")]))],
          {| total := 1; n_updated := 0; n_failed := 1 |}).
Proof.
  apply (date_main_twice dated_file
           [("law-finder-json/doe.json", Some undated_record)]
           _ "LAW FINDER" {| total := 1; n_updated := 1; n_failed := 0 |}).
  vm_compute; reflexivity.
Defined.

Lemma title_process_twice (fs : files) (law : string) (json_files : record_files) :
  fst (ExtractCaseTitles.process fs law
         (fst (ExtractCaseTitles.process fs law json_files)))
  = fst (ExtractCaseTitles.process fs law json_files).
Proof.
  induction json_files as [|[path content] rest IH];
    cbn [ExtractCaseTitles.process]; [reflexivity|].
  destruct (ExtractCaseTitles.process fs law rest) as [rest' [u f]].
  cbn [fst] in IH |- *. cbn [ExtractCaseTitles.process].
  destruct (ExtractCaseTitles.process fs law rest') as [rest'' [u' f']].
  cbn [fst] in IH |- *. subst rest''.
  rewrite title_second_call. reflexivity.
Qed.

(** X17: running the title batch a second time leaves every record
    file as the first run left it. *)
Theorem title_main_twice (fs : files) (json_files after : record_files)
  (law_finder_dir : string) (rep : report) :
  ExtractCaseTitles.main fs (Some json_files) (Some law_finder_dir)
    = Some (after, rep) ->
  exists rep',
    ExtractCaseTitles.main fs (Some after) (Some law_finder_dir)
    = Some (after, rep')
    /\ total rep' = total rep.
Proof.
  unfold ExtractCaseTitles.main.
  destruct (ExtractCaseTitles.process fs law_finder_dir json_files)
    as [after' [u f]] eqn:E.
  intros H; injection H as <- <-. cbn [total].
  pose proof (title_process_twice fs law_finder_dir json_files) as T.
  rewrite E in T. cbn [fst] in T.
  destruct (ExtractCaseTitles.process fs law_finder_dir after')
    as [after'' [u' f']] eqn:E'.
  cbn [fst] in T. subst after''.
  eexists. split; [reflexivity|]. cbn [total].
  destruct (title_process_counts _ _ _ _ _ _ E) as (_ & B).
  rewrite <- (length_map fst after'), B, length_map. reflexivity.
Qed.

Lemma title_main_twice_witness :
  exists rep',
    ExtractCaseTitles.main dated_file
      (Some [("law-finder-json/doe.json",
              Some (JObj [("caseTitle", JStr "JOHN DOE v. JANE ROE");
                          ("metadata",
                           JObj [("sourcePath", JStr "sc/doe.htm")])]))])
      (Some "LAW FINDER")
    = Some ([("law-finder-json/doe.json",
              Some (JObj [("caseTitle", JStr "JOHN DOE v. JANE ROE");
                          ("metadata",
                           JObj [("sourcePath", JStr "sc/doe.htm")])]))],
            rep')
    /\ total rep' = total {| total := 1; n_updated := 1; n_failed := 0 |}.
Proof.
  apply (title_main_twice dated_file
           [("law-finder-json/doe.json", Some untitled_record)]
           _ "LAW FINDER" {| total := 1; n_updated := 1; n_failed := 0 |}).
  vm_compute; reflexivity.
Defined.

End BatchExtras.

(** ** The body region and the order of lines *)

Module RegionExtras.
Import Str Re Html BodyText RenderNotions ExtraNotions StrFacts.

Lemma run_app (a b : list event) :
  forall p,
    run p (a ++ b)
    = match run p a with
      | Some q => run q b
      | None => None
      end.
Proof.
  induction a as [|e a IH]; intros p; cbn [app run]; [reflexivity|].
  destruct e; auto.
Qed.

Lemma set_in_body_same (p : parser) :
  in_body p = false -> set_in_body false p = p.
Proof. destruct p as [t b c m]. cbn. intros ->. reflexivity. Qed.

(** Events before the body is entered leave the parser as it is. *)
Lemma run_before_body (pre : list event) :
  forall p,
    in_body p = false ->
    existsb body_start pre = false ->
    ~ In Raise pre ->
    run p pre = Some p.
Proof.
  induction pre as [|e pre IH]; intros p Hout Hno Hr; cbn [run];
    [reflexivity|].
  cbn [existsb] in Hno. apply orb_false_iff in Hno. destruct Hno as [He Hno].
  assert (Hr' : ~ In Raise pre) by (intros H; apply Hr; right; exact H).
  destruct e as [t|t|d|]; cbn [body_start] in He.
  - unfold handle_starttag. rewrite He. apply IH; assumption.
  - unfold handle_endtag.
    destruct (String.eqb (lower t) "body");
      [rewrite set_in_body_same by exact Hout|]; apply IH; assumption.
  - unfold handle_data. rewrite Hout. cbn [andb]. apply IH; assumption.
  - exfalso. apply Hr. left; reflexivity.
Qed.

(** X18: whatever the parser reports before the first body start tag
    (the head, its title, its scripts) has no effect on the rendering:
    the parser after the whole document is the one the events from the
    body on give. *)
Theorem text_before_body_is_ignored (cap : nat) (pre evs : list event) :
  existsb body_start pre = false ->
  ~ In Raise pre ->
  run (init cap) (pre ++ evs) = run (init cap) evs.
Proof.
  intros Hno Hr. rewrite run_app, run_before_body; auto.
Qed.

Lemma text_before_body_is_ignored_witness :
  run (init 50)
      ([StartTag "html"; StartTag "head"; StartTag "title";
        Data "DOE v. ROE"; EndTag "title"; EndTag "head"]
       ++ [StartTag "body"; Data "Hello"; EndTag "body"])
  = run (init 50) [StartTag "body"; Data "Hello"; EndTag "body"].
Proof.
  apply (text_before_body_is_ignored 50).
  - reflexivity.
  - intros H. cbn [In] in H.
    repeat (destruct H as [H|H]; [discriminate H|]). exact H.
Defined.

Lemma add_line_extends (p : parser) (line : string) :
  exists more, text (add_line p line) = (text p ++ more)%list.
Proof.
  unfold add_line.
  destruct (max_lines p <=? line_count p);
    [exists []; symmetry; apply app_nil_r|].
  destruct (nonempty (strip line));
    [|exists []; symmetry; apply app_nil_r].
  cbn [text]. eexists; reflexivity.
Qed.

Lemma fold_add_line_extends (lines : list string) :
  forall p, exists more,
    text (fold_left add_line lines p) = (text p ++ more)%list.
Proof.
  induction lines as [|line lines IH]; intros p; cbn [fold_left].
  - exists []. symmetry; apply app_nil_r.
  - destruct (IH (add_line p line)) as (m2 & E2).
    destruct (add_line_extends p line) as (m1 & E1).
    exists (m1 ++ m2)%list. rewrite E2, E1, app_assoc. reflexivity.
Qed.

Lemma run_extends (evs : list event) :
  forall p p', run p evs = Some p' ->
    exists more, text p' = (text p ++ more)%list.
Proof.
  induction evs as [|e evs IH]; intros p p'; cbn [run].
  - intros E; injection E as <-. exists []. symmetry; apply app_nil_r.
  - destruct e as [t|t|d|]; [| | |discriminate]; intros E;
      apply IH in E; destruct E as (m2 & E2).
    + unfold handle_starttag in E2.
      destruct (String.eqb (lower t) "body"); cbn [text set_in_body] in E2;
        eauto.
    + unfold handle_endtag in E2.
      destruct (String.eqb (lower t) "body"); cbn [text set_in_body] in E2;
        eauto.
    + unfold handle_data in E2.
      destruct (in_body p && (line_count p <? max_lines p)); [|eauto].
      destruct (fold_add_line_extends (split nl d) p) as (m1 & E1).
      exists (m1 ++ m2)%list. rewrite E2, E1, app_assoc. reflexivity.
Qed.

(** X19: lines are kept in document order and never revised: the
    lines held after a longer run of the parser begin with the lines held
    after any shorter run. *)
Theorem rendering_extends_in_order (cap : nat) (evs later : list event)
  (p p' : parser) :
  run (init cap) evs = Some p ->
  run (init cap) (evs ++ later) = Some p' ->
  exists more, text p' = (text p ++ more)%list.
Proof.
  intros E E'. rewrite run_app, E in E'. eapply run_extends; eauto.
Qed.

Lemma rendering_extends_in_order_witness :
  exists more, ["a"; "b"] = (["a"] ++ more)%list.
Proof.
  apply (rendering_extends_in_order
           5 [StartTag "body"; Data "a"] [Data "b"]
           {| text := ["a"]; in_body := true; line_count := 1; max_lines := 5 |}
           {| text := ["a"; "b"]; in_body := true; line_count := 2;
              max_lines := 5 |}).
  - vm_compute; reflexivity.
  - vm_compute; reflexivity.
Defined.

End RegionExtras.

(** ** The raw-HTML and early stages of the date extractor *)

Module StageExtras.
Import Str Re Datetime ExtractTrialDates DateNotions DateFacts StrFacts.

(** X20: a value returned for a match of a raw-HTML pattern with day,
    month and year in groups of their own is the text [strftime] writes
    for the calendar date those groups give; that path has no fallback to
    the text matched and no length test, so the value is canonical
    YYYY-MM-DD from the year 1000 on and shorter than ten characters
    before it. *)
Theorem split_tag_date_is_read_from_match (html_content pattern v : string) :
  In pattern html_date_patterns ->
  ngroups pattern = 3 ->
  html_date (strip_script_style html_content) pattern = Some v ->
  exists dt,
    split_tag_date html_content dt
    /\ v = strftime dt
    /\ ((1000 <= year dt)%Z -> canonical v = true)
    /\ ((year dt < 1000)%Z -> String.length v < 10).
Proof.
  intros Hin G. unfold html_date. rewrite G. cbn [Nat.eqb].
  destruct (re_search IGNORECASE pattern (strip_script_style html_content))
    as [mo|] eqn:Es; [|discriminate].
  intros H. apply superscript_date_inv in H.
  destruct H as (dt & C & Hd & Hm & Hy & ->).
  exists dt. split; [exists pattern, mo; auto 10|].
  split; [reflexivity|]. split.
  - apply strftime_canonical.
  - apply strftime_short.
Qed.

Lemma split_tag_date_is_read_from_match_witness :
  exists dt,
    split_tag_date "<body><u>1<sup>ST</sup> JANUARY, 0999</u></body>" dt
    /\ "999-01-01" = strftime dt
    /\ ((1000 <= year dt)%Z -> canonical "999-01-01" = true)
    /\ ((year dt < 1000)%Z -> String.length "999-01-01" < 10).
Proof.
  apply (split_tag_date_is_read_from_match
           "<body><u>1<sup>ST</sup> JANUARY, 0999</u></body>"
           "<[^>]*>(\d{1,2})<[^>]*>(?:ST|ND|RD|TH)<[^>]*>\s*(JANUARY|FEBRUARY|MARCH|APRIL|MAY|JUNE|JULY|AUGUST|SEPTEMBER|OCTOBER|NOVEMBER|DECEMBER),?\s*(\d{4})").
  - left; reflexivity.
  - vm_compute; reflexivity.
  - vm_compute; reflexivity.
Defined.


Lemma enumerate_from_nth {A : Type} (l : list A) :
  forall k i x, In (i, x) (enumerate_from k l) ->
    k <= i /\ nth_error l (i - k) = Some x.
Proof.
  induction l as [|a l IH]; intros k i x; cbn [enumerate_from In];
    [contradiction|].
  intros [E|H].
  - injection E as <- <-. rewrite Nat.sub_diag. split; [lia|reflexivity].
  - apply IH in H. destruct H as (Hk & Hn). split; [lia|].
    replace (i - k) with (S (i - S k)) by lia. exact Hn.
Qed.

(** X21: the last stage takes an unbracketed slash-numeric date only
    from one of the first 20 rendered lines, and only when the lines from
    two before it to two after it, joined by blanks and upper-cased,
    contain one of V., VRS, VERSUS, H1/, NO. or CASE. *)
Theorem early_date_needs_case_context (lines : list string) (v : string) :
  early_stage lines = Some v ->
  exists i line mo,
    i < 20
    /\ nth_error lines i = Some line
    /\ re_search NOFLAGS early_date_pattern line = Some mo
    /\ any_in case_tokens (upper (join " " (slice_l (i - 2) (i + 3) lines)))
       = true
    /\ accept (parse_date_from_text (group 1 mo)) = Some v.
Proof.
  unfold early_stage. intros H.
  apply first_some_found in H. destruct H as ([i line] & Hin & H).
  pose proof (ListFacts.enumerate_from_bound _ _ _ _ Hin) as Hb.
  apply enumerate_from_nth in Hin. destruct Hin as (_ & Hn).
  rewrite Nat.sub_0_r in Hn.
  unfold early_date in H.
  destruct (re_search NOFLAGS early_date_pattern line) as [mo|] eqn:Es;
    [|discriminate].
  destruct (any_in case_tokens _) eqn:Ec; [|discriminate].
  exists i, line, mo.
  assert (Hi : i < 20) by (pose proof (firstn_le_length 20 lines); lia).
  split; [exact Hi|]. split.
  - rewrite nth_error_firstn in Hn.
    destruct (i <? 20) eqn:L; [exact Hn|].
    apply Nat.ltb_ge in L. lia.
  - auto.
Qed.

Lemma early_date_needs_case_context_witness :
  exists i line mo,
    i < 20
    /\ nth_error ["SUIT NO. 12"; "heard 26/03/2004"] i = Some line
    /\ re_search NOFLAGS early_date_pattern line = Some mo
    /\ any_in case_tokens
         (upper (join " " (slice_l (i - 2) (i + 3)
                             ["SUIT NO. 12"; "heard 26/03/2004"])))
       = true
    /\ accept (parse_date_from_text (group 1 mo)) = Some "2004-03-26".
Proof.
  apply (early_date_needs_case_context
           ["SUIT NO. 12"; "heard 26/03/2004"] "2004-03-26").
  vm_compute; reflexivity.
Defined.

End StageExtras.
